(** * mylo-ing/api: sign-in flow, JWT middleware and subscriber handlers

    A shallow embedding of the Go handlers of the API (package [handlers],
    [middleware], [redisclient]) together with the parts of the Go standard
    library, go-redis and GORM that they call, followed by the properties
    of the specification that were checked against them. *)

From Stdlib Require Import ZArith NArith Ascii String List Lia Bool.
From Stdlib.Strings Require Import Byte.
From stdpp Require Import base gmap strings list fin_maps.

Local Open Scope Z_scope.

(* ===================================================================== *)
(** ** Go strings and the [strings], [strconv], [fmt], [encoding/base64]
       functions used by the handlers *)
(* ===================================================================== *)

Module GoStr.

(** A Go string is a sequence of bytes; [string] is a list of 8-bit
    characters. *)
Definition code (c : ascii) : N := N_of_ascii c.

Definition in_range (lo hi : ascii) (c : ascii) : bool :=
  ((code lo <=? code c) && (code c <=? code hi))%N.

Definition is_digit (c : ascii) : bool := in_range "0" "9" c.
Definition is_lower (c : ascii) : bool := in_range "a" "z" c.
Definition is_upper (c : ascii) : bool := in_range "A" "Z" c.
Definition is_letter (c : ascii) : bool := is_lower c || is_upper c.

Definition eqb (a b : string) : bool := String.eqb a b.

Fixpoint all_chars (p : ascii -> bool) (s : string) : bool :=
  match s with
  | EmptyString => true
  | String c s' => p c && all_chars p s'
  end.

Fixpoint rev_onto (s acc : string) : string :=
  match s with
  | EmptyString => acc
  | String c s' => rev_onto s' (String c acc)
  end.

Definition reverse (s : string) : string := rev_onto s EmptyString.

Fixpoint contains_char (c : ascii) (s : string) : bool :=
  match s with
  | EmptyString => false
  | String d s' => Ascii.eqb c d || contains_char c s'
  end.

(** [strings.HasPrefix] and [strings.TrimPrefix]. *)
Fixpoint strip_prefix (p s : string) : option string :=
  match p with
  | EmptyString => Some s
  | String c p' =>
      match s with
      | String d s' => if Ascii.eqb c d then strip_prefix p' s' else None
      | EmptyString => None
      end
  end.

Definition HasPrefix (s p : string) : bool :=
  match strip_prefix p s with Some _ => true | None => false end.

Definition TrimPrefix (s p : string) : string :=
  match strip_prefix p s with Some rest => rest | None => s end.

(** [strings.TrimSpace] removes leading and trailing runes for which
    [unicode.IsSpace] holds.  A rune decoded from the front (or the back)
    of a string is a space exactly when the string starts (ends) with the
    UTF-8 encoding of one of: U+0009..U+000D, U+0020, U+0085, U+00A0,
    U+1680, U+2000..U+200A, U+2028, U+2029, U+202F, U+205F, U+3000;
    an ill-formed sequence decodes to U+FFFD, which is not a space. *)
Definition is_space1 (a : N) : bool :=
  (((9 <=? a) && (a <=? 13)) || (a =? 32))%N.

Definition is_space2 (a b : N) : bool :=
  ((a =? 194) && ((b =? 133) || (b =? 160)))%N.

Definition is_space3 (a b c : N) : bool :=
  (((a =? 225) && (b =? 154) && (c =? 128))
   || ((a =? 226) && (b =? 128)
       && (((128 <=? c) && (c <=? 138)) || (c =? 168) || (c =? 169) || (c =? 175)))
   || ((a =? 226) && (b =? 129) && (c =? 159))
   || ((a =? 227) && (b =? 128) && (c =? 128)))%N.

(** Strips white-space runes from the front of [s]; with [fwd = false]
    the string is read back to front, so the encodings are mirrored. *)
Fixpoint trim_space_front (fwd : bool) (s : string) : string :=
  match s with
  | EmptyString => s
  | String c1 s1 =>
      if is_space1 (code c1) then trim_space_front fwd s1
      else
        match s1 with
        | EmptyString => s
        | String c2 s2 =>
            if (if fwd then is_space2 (code c1) (code c2)
                else is_space2 (code c2) (code c1))
            then trim_space_front fwd s2
            else
              match s2 with
              | EmptyString => s
              | String c3 s3 =>
                  if (if fwd then is_space3 (code c1) (code c2) (code c3)
                      else is_space3 (code c3) (code c2) (code c1))
                  then trim_space_front fwd s3
                  else s
              end
        end
  end.

Definition TrimSpace (s : string) : string :=
  reverse (trim_space_front false (reverse (trim_space_front true s))).

(** Decimal rendering of a natural number, most significant digit first. *)
Definition digit_char (d : N) : ascii := ascii_of_N (48 + d).

Fixpoint decimal_digits (fuel : nat) (n : N) (acc : string) : string :=
  let acc' := String (digit_char (n mod 10)) acc in
  match fuel with
  | O => acc'
  | S f => if (n / 10 =? 0)%N then acc' else decimal_digits f (n / 10) acc'
  end.

Definition FormatUint (n : N) : string :=
  decimal_digits (N.to_nat (N.log2 n)) n EmptyString.

Fixpoint zeros (k : nat) : string :=
  match k with
  | O => EmptyString
  | S k' => String "0" (zeros k')
  end.

(** [fmt.Sprintf("%06d", n)]: minimum width six, padded with zeros; the
    sign of a negative number counts towards the width and precedes the
    padding. *)
Definition Sprintf_06d (n : Z) : string :=
  let ds := FormatUint (Z.abs_N n) in
  if n <? 0
  then String "-" (zeros (5 - String.length ds) +:+ ds)
  else zeros (6 - String.length ds) +:+ ds.

(** [strconv.Atoi]: optional sign, then one or more decimal digits; the
    value has to fit a 64-bit [int]. *)
Fixpoint parse_digits (s : string) (acc : Z) : option Z :=
  match s with
  | EmptyString => Some acc
  | String c s' =>
      if is_digit c
      then parse_digits s' (10 * acc + Z.of_N (code c - 48))
      else None
  end.

Definition parse_unsigned (s : string) : option Z :=
  match s with
  | EmptyString => None
  | _ => parse_digits s 0
  end.

Definition Atoi (s : string) : option Z :=
  let signed :=
    match s with
    | String "-" s' => option_map Z.opp (parse_unsigned s')
    | String "+" s' => parse_unsigned s'
    | _ => parse_unsigned s
    end in
  match signed with
  | Some v => if (- 2 ^ 63 <=? v) && (v <=? 2 ^ 63 - 1) then Some v else None
  | None => None
  end.

(** [base64.RawURLEncoding.EncodeToString]: URL-safe alphabet, no
    padding. *)
Definition b64url_char (i : N) : ascii :=
  if (i <? 26)%N then ascii_of_N (65 + i)
  else if (i <? 52)%N then ascii_of_N (97 + (i - 26))
  else if (i <? 62)%N then ascii_of_N (48 + (i - 52))
  else if (i =? 62)%N then "-"%char
  else "_"%char.

Fixpoint RawURLEncode (raw : list byte) : string :=
  match raw with
  | [] => EmptyString
  | [a] =>
      let v := (Byte.to_N a * 65536)%N in
      String (b64url_char (v / 262144))
        (String (b64url_char ((v / 4096) mod 64)) EmptyString)
  | [a; b] =>
      let v := (Byte.to_N a * 65536 + Byte.to_N b * 256)%N in
      String (b64url_char (v / 262144))
        (String (b64url_char ((v / 4096) mod 64))
           (String (b64url_char ((v / 64) mod 64)) EmptyString))
  | a :: b :: c :: rest =>
      let v := (Byte.to_N a * 65536 + Byte.to_N b * 256 + Byte.to_N c)%N in
      String (b64url_char (v / 262144))
        (String (b64url_char ((v / 4096) mod 64))
           (String (b64url_char ((v / 64) mod 64))
              (String (b64url_char (v mod 64)) (RawURLEncode rest))))
  end.

End GoStr.

(* ===================================================================== *)
(** ** Regular expressions ([regexp]) *)
(* ===================================================================== *)

Module Regex.

(** Syntax of the patterns the handlers compile.  A pattern anchored by
    [^] and [$] (no flags) matches a text exactly when the whole text
    belongs to the language of its body. *)
Inductive regex : Type :=
| Void
| Eps
| Class (p : ascii -> bool)
| Cat (r1 r2 : regex)
| Alt (r1 r2 : regex)
| Star (r : regex).

Definition Plus (r : regex) : regex := Cat r (Star r).

Fixpoint Repeat (n : nat) (r : regex) : regex :=
  match n with
  | O => Eps
  | S n' => Cat r (Repeat n' r)
  end.

(** [r{n,}] *)
Definition AtLeast (n : nat) (r : regex) : regex := Cat (Repeat n r) (Star r).

Fixpoint nullable (r : regex) : bool :=
  match r with
  | Void => false
  | Eps => true
  | Class _ => false
  | Cat r1 r2 => nullable r1 && nullable r2
  | Alt r1 r2 => nullable r1 || nullable r2
  | Star _ => true
  end.

Fixpoint deriv (c : ascii) (r : regex) : regex :=
  match r with
  | Void => Void
  | Eps => Void
  | Class p => if p c then Eps else Void
  | Cat r1 r2 =>
      if nullable r1
      then Alt (Cat (deriv c r1) r2) (deriv c r2)
      else Cat (deriv c r1) r2
  | Alt r1 r2 => Alt (deriv c r1) (deriv c r2)
  | Star r1 => Cat (deriv c r1) (Star r1)
  end.

Fixpoint matchb (r : regex) (s : string) : bool :=
  match s with
  | EmptyString => nullable r
  | String c s' => matchb (deriv c r) s'
  end.

(** The language of a pattern. *)
Inductive Matches : regex -> string -> Prop :=
| MEps : Matches Eps EmptyString
| MClass p c : p c = true -> Matches (Class p) (String c EmptyString)
| MCat r1 r2 s1 s2 :
    Matches r1 s1 -> Matches r2 s2 -> Matches (Cat r1 r2) (s1 +:+ s2)
| MAltL r1 r2 s : Matches r1 s -> Matches (Alt r1 r2) s
| MAltR r1 r2 s : Matches r2 s -> Matches (Alt r1 r2) s
| MStarNil r : Matches (Star r) EmptyString
| MStarCons r s1 s2 :
    Matches r s1 -> Matches (Star r) s2 -> Matches (Star r) (s1 +:+ s2).

End Regex.

(* ===================================================================== *)
(** ** Models and responses *)
(* ===================================================================== *)

Module Models.

(** [models.SubscriberType]; [uint] fields are naturals, [time.Time]
    fields are instants in nanoseconds with [0] for the zero time. *)
Record SubscriberType : Type := mkSubscriberType {
  st_ID : N;
  st_SubscriberID : N;
  st_Name : string;
  st_CreatedAt : Z;
  st_UpdatedAt : Z
}.

(** [models.Subscriber].  A Go slice is [None] when it is [nil] (the
    JSON field was absent or [null]) and [Some l] otherwise, so that an
    explicitly empty list [Some []] differs from an omitted one. *)
Record Subscriber : Type := mkSubscriber {
  ID : N;
  Email : string;
  Name : string;
  SubscriberTypes : option (list SubscriberType);
  CreatedAt : Z;
  UpdatedAt : Z
}.

Definition slice_len {A} (s : option (list A)) : nat :=
  match s with Some l => length l | None => O end.

Definition slice_elems {A} (s : option (list A)) : list A :=
  match s with Some l => l | None => [] end.

End Models.

Module Http.

Definition StatusOK : Z := 200.
Definition StatusCreated : Z := 201.
Definition StatusNoContent : Z := 204.
Definition StatusBadRequest : Z := 400.
Definition StatusUnauthorized : Z := 401.
Definition StatusNotFound : Z := 404.
Definition StatusInternalServerError : Z := 500.

(** What a handler serialises into the response body. *)
Inductive Payload : Type :=
| JMap (fields : list (string * string))      (* [fiber.Map] *)
| JSubscriber (s : Models.Subscriber)
| JSubscribers (l : list Models.Subscriber)
| JNone.

Record Response : Type := mkResponse {
  status : Z;
  payload : Payload
}.

(** [c.Status(code).JSON(fiber.Map{"error": msg})] *)
Definition error_json (code : Z) (msg : string) : Response :=
  mkResponse code (JMap [("error"%string, msg)]).

(** [c.JSON(v)] answers with status 200. *)
Definition ok_json (v : Payload) : Response := mkResponse StatusOK v.

(** A middleware either answers itself or hands over to the next
    handler ([c.Next()]). *)
Inductive Outcome : Type :=
| Respond (r : Response)
| Next.

End Http.

(* ===================================================================== *)
(** ** The key-value store (go-redis) and the JWT library *)
(* ===================================================================== *)

Module Redis.

(** Errors of a command: [redis.Nil] for a missing key, or a failure of
    the connection. *)
Inductive error : Type :=
| Nil
| ConnErr.

(** A stored string with the instant at which it expires, if any. *)
Record entry : Type := mkEntry {
  value : string;
  expires : option Z
}.

Definition live (now : Z) (e : entry) : bool :=
  match expires e with
  | None => true
  | Some t => now <? t
  end.

(** [GET key] *)
Definition get (now : Z) (m : gmap string entry) (key : string)
  : string * option error :=
  match m !! key with
  | Some e => if live now e then (value e, None) else (EmptyString, Some Nil)
  | None => (EmptyString, Some Nil)
  end.

(** [SET key value] with go-redis' reading of the expiration: positive
    sets a time to live, [KeepTTL = -1] keeps the one of the old entry,
    anything else stores without expiry. *)
Definition set (now : Z) (m : gmap string entry) (key val : string)
    (expiration : Z) : gmap string entry :=
  let exp :=
    if 0 <? expiration then Some (now + expiration)
    else if expiration =? -1
         then match m !! key with
              | Some e => if live now e then expires e else None
              | None => None
              end
         else None in
  <[key := mkEntry val exp]> m.

(** [DEL key] *)
Definition del (m : gmap string entry) (key : string) : gmap string entry :=
  delete key m.

End Redis.

Module Jwt.

(** Values of a [jwt.MapClaims] entry. *)
Inductive claim : Type :=
| CString (s : string)
| CNumber (n : Z)
| COther.

(** What [jwt.ParseWithClaims] hands back: whether [err != nil], the
    [Valid] flag of the token and the claims it filled in. *)
Record parsed : Type := mkParsed {
  parse_err : bool;
  token_valid : bool;
  claims : gmap string claim
}.

(** The signing primitive is the library's; the handlers only rely on
    its interface.  [SignedString] yields [None] when signing fails. *)
Class Lib : Type := {
  ParseWithClaims : forall (tokenString secret : string) (now : Z), parsed;
  SignedString : forall (c : gmap string claim) (secret : string), option string
}.

(** [claims[key].(string)] *)
Definition string_claim (c : gmap string claim) (key : string) : option string :=
  match c !! key with
  | Some (CString s) => Some s
  | _ => None
  end.

End Jwt.

(* ===================================================================== *)
(** ** Effects of the sign-in handlers and of the middleware *)
(* ===================================================================== *)

Module Eff.

(** A handler is a tree of calls into its collaborators: the process
    environment, the clock, the random source, Redis, the JWT library
    and the e-mail service.  Every constructor but [Ret] is one such call
    with the continuation that receives its result. *)
Inductive Prog (A : Type) : Type :=
| Ret (a : A)
| Getenv (name : string) (k : string -> Prog A)
| TimeNow (k : Z -> Prog A)
| RandRead (n : nat) (k : list byte * bool -> Prog A)
| RedisGet (key : string) (k : string * option Redis.error -> Prog A)
| RedisSet (key val : string) (expiration : Z) (k : option Redis.error -> Prog A)
| RedisDel (key : string) (k : option Redis.error -> Prog A)
| JwtParse (tokenString secret : string) (k : Jwt.parsed -> Prog A)
| JwtSign (c : gmap string Jwt.claim) (secret : string) (k : option string -> Prog A)
| SendCodeEmail (toEmail code : string) (k : bool -> Prog A).

Arguments Ret {A} a.
Arguments Getenv {A} name k.
Arguments TimeNow {A} k.
Arguments RandRead {A} n k.
Arguments RedisGet {A} key k.
Arguments RedisSet {A} key val expiration k.
Arguments RedisDel {A} key k.
Arguments JwtParse {A} tokenString secret k.
Arguments JwtSign {A} c secret k.
Arguments SendCodeEmail {A} toEmail code k.

Fixpoint bind {A B : Type} (m : Prog A) (f : A -> Prog B) : Prog B :=
  match m with
  | Ret a => f a
  | Getenv name k => Getenv name (fun x => bind (k x) f)
  | TimeNow k => TimeNow (fun x => bind (k x) f)
  | RandRead n k => RandRead n (fun x => bind (k x) f)
  | RedisGet key k => RedisGet key (fun x => bind (k x) f)
  | RedisSet key val e k => RedisSet key val e (fun x => bind (k x) f)
  | RedisDel key k => RedisDel key (fun x => bind (k x) f)
  | JwtParse t s k => JwtParse t s (fun x => bind (k x) f)
  | JwtSign c s k => JwtSign c s (fun x => bind (k x) f)
  | SendCodeEmail t c k => SendCodeEmail t c (fun x => bind (k x) f)
  end.

#[global] Instance prog_ret : MRet Prog := fun A a => Ret a.
#[global] Instance prog_bind : MBind Prog := fun A B f m => bind m f.

(** The world a handler runs in.  The three [_faults] lists decide the
    outcome of the coming calls to Redis, to the random source and to the
    e-mail service, one entry per call, [true] for a failure; an
    exhausted list means no further failure.  A failed Redis command
    leaves the store as it was. *)
Record World : Type := mkWorld {
  redis : gmap string Redis.entry;
  redis_faults : list bool;
  clock : Z;                       (* [time.Now().UnixNano()] *)
  entropy : list byte;
  rand_faults : list bool;
  environ : gmap string string;
  outbox : list (string * string);
  mail_faults : list bool
}.

Definition pop (l : list bool) : bool * list bool :=
  match l with
  | [] => (false, [])
  | b :: t => (b, t)
  end.

Definition with_redis (w : World) (m : gmap string Redis.entry) (f : list bool) : World :=
  mkWorld m f (clock w) (entropy w) (rand_faults w) (environ w) (outbox w) (mail_faults w).

Definition with_entropy (w : World) (e : list byte) (f : list bool) : World :=
  mkWorld (redis w) (redis_faults w) (clock w) e f (environ w) (outbox w) (mail_faults w).

Definition with_outbox (w : World) (o : list (string * string)) (f : list bool) : World :=
  mkWorld (redis w) (redis_faults w) (clock w) (entropy w) (rand_faults w) (environ w) o f.


(** [os.Getenv]: the empty string for an unset variable. *)
Definition getenv (w : World) (name : string) : string :=
  default EmptyString (environ w !! name).

(** [rand.Read(b)] fills [b] or fails and leaves it zeroed. *)
Definition rand_read (w : World) (n : nat) : (list byte * bool) * World :=
  let '(fault, rest) := pop (rand_faults w) in
  if fault
  then ((repeat x00 n, true), with_entropy w (entropy w) rest)
  else ((take n (entropy w ++ repeat x00 n), false),
        with_entropy w (drop n (entropy w)) rest).

Definition redis_get (w : World) (key : string)
  : (string * option Redis.error) * World :=
  let '(fault, rest) := pop (redis_faults w) in
  if fault
  then ((EmptyString, Some Redis.ConnErr), with_redis w (redis w) rest)
  else (Redis.get (clock w) (redis w) key, with_redis w (redis w) rest).

Definition redis_set (w : World) (key val : string) (expiration : Z)
  : option Redis.error * World :=
  let '(fault, rest) := pop (redis_faults w) in
  if fault
  then (Some Redis.ConnErr, with_redis w (redis w) rest)
  else (None, with_redis w (Redis.set (clock w) (redis w) key val expiration) rest).

Definition redis_del (w : World) (key : string) : option Redis.error * World :=
  let '(fault, rest) := pop (redis_faults w) in
  if fault
  then (Some Redis.ConnErr, with_redis w (redis w) rest)
  else (None, with_redis w (Redis.del (redis w) key) rest).

Definition send_mail (w : World) (toEmail code : string) : bool * World :=
  let '(fault, rest) := pop (mail_faults w) in
  if fault
  then (true, with_outbox w (outbox w) rest)
  else (false, with_outbox w (outbox w ++ [(toEmail, code)]) rest).

Section Run.
Context `{Jwt.Lib}.

(** One call of the handler against the world. *)
Definition step {A : Type} (w : World) (p : Prog A) : World * Prog A :=
  match p with
  | Ret a => (w, Ret a)
  | Getenv name k => (w, k (getenv w name))
  | TimeNow k => (w, k (clock w))
  | RandRead n k => let '(r, w') := rand_read w n in (w', k r)
  | RedisGet key k => let '(r, w') := redis_get w key in (w', k r)
  | RedisSet key val e k => let '(r, w') := redis_set w key val e in (w', k r)
  | RedisDel key k => let '(r, w') := redis_del w key in (w', k r)
  | JwtParse t s k => (w, k (Jwt.ParseWithClaims t s (clock w)))
  | JwtSign c s k => (w, k (Jwt.SignedString c s))
  | SendCodeEmail t c k => let '(r, w') := send_mail w t c in (w', k r)
  end.

(** A handler run to completion, alone. *)
Fixpoint run {A : Type} (p : Prog A) (w : World) : A * World :=
  match p with
  | Ret a => (a, w)
  | Getenv name k => run (k (getenv w name)) w
  | TimeNow k => run (k (clock w)) w
  | RandRead n k => let '(r, w') := rand_read w n in run (k r) w'
  | RedisGet key k => let '(r, w') := redis_get w key in run (k r) w'
  | RedisSet key val e k => let '(r, w') := redis_set w key val e in run (k r) w'
  | RedisDel key k => let '(r, w') := redis_del w key in run (k r) w'
  | JwtParse t s k => run (k (Jwt.ParseWithClaims t s (clock w))) w
  | JwtSign c s k => run (k (Jwt.SignedString c s)) w
  | SendCodeEmail t c k => let '(r, w') := send_mail w t c in run (k r) w'
  end.

(** Two requests served at once: the schedule says whose call goes
    next ([true] for the first handler); when it is used up, what is
    left of the first handler runs, then what is left of the second. *)
Fixpoint interleave {A B : Type} (sched : list bool) (w : World)
    (p1 : Prog A) (p2 : Prog B) : World * Prog A * Prog B :=
  match sched with
  | [] => (w, p1, p2)
  | true :: s => let '(w', p1') := step w p1 in interleave s w' p1' p2
  | false :: s => let '(w', p2') := step w p2 in interleave s w' p1 p2'
  end.

Definition run_both {A B : Type} (sched : list bool) (w : World)
    (p1 : Prog A) (p2 : Prog B) : A * B * World :=
  let '(w1, q1, q2) := interleave sched w p1 p2 in
  let '(a, w2) := run q1 w1 in
  let '(b, w3) := run q2 w2 in
  (a, b, w3).

(** The Redis commands a handler issues when run alone, in order. *)
Inductive command : Type :=
| GET (key : string)
| SET (key val : string) (expiration : Z)
| DEL (key : string).

Fixpoint commands {A : Type} (p : Prog A) (w : World) : list command :=
  match p with
  | Ret a => []
  | Getenv name k => commands (k (getenv w name)) w
  | TimeNow k => commands (k (clock w)) w
  | RandRead n k => let '(r, w') := rand_read w n in commands (k r) w'
  | RedisGet key k => let '(r, w') := redis_get w key in GET key :: commands (k r) w'
  | RedisSet key val e k =>
      let '(r, w') := redis_set w key val e in SET key val e :: commands (k r) w'
  | RedisDel key k => let '(r, w') := redis_del w key in DEL key :: commands (k r) w'
  | JwtParse t s k => commands (k (Jwt.ParseWithClaims t s (clock w))) w
  | JwtSign c s k => commands (k (Jwt.SignedString c s)) w
  | SendCodeEmail t c k => let '(r, w') := send_mail w t c in commands (k r) w'
  end.

End Run.

End Eff.

(* ===================================================================== *)
(** ** Package [redisclient] *)
(* ===================================================================== *)

Module Redisclient.
Import Eff.

(** [SetValue] stores a string value in Redis with an expiration. *)
Definition SetValue (key val : string) (expiration : Z) : Prog (option Redis.error) :=
  RedisSet key val expiration Ret.

(** [GetValue] retrieves a string value from Redis. *)
Definition GetValue (key : string) : Prog (string * option Redis.error) :=
  RedisGet key Ret.

(** [DeleteKey] removes a key from Redis. *)
Definition DeleteKey (key : string) : Prog (option Redis.error) :=
  RedisDel key Ret.

End Redisclient.

Module GoTime.
Definition Second : Z := 1000000000.
Definition Minute : Z := 60 * Second.
Definition Hour : Z := 60 * Minute.
End GoTime.

(* ===================================================================== *)
(** ** Package [middleware] *)
(* ===================================================================== *)

Module Middleware.
Import Eff Http Redisclient.

Definition is_err {E : Type} (e : option E) : bool :=
  match e with Some _ => true | None => false end.

Definition deny (msg : string) : Prog Outcome :=
  mret (Respond (error_json StatusUnauthorized msg)).

Definition user_secret : Prog string :=
  secret ← Getenv "JWT_USER_SECRET_KEY" Ret;
  mret (if GoStr.eqb secret "" then "devsecret"%string else secret).

(** [RequireJWT] checks for a valid JWT in the Authorization header;
    [header] is [None] when the request carries no such header. *)
Definition RequireJWT (header : option string) : Prog Outcome :=
  let authHeader := default EmptyString header in
  if GoStr.eqb authHeader "" then deny "Missing Authorization header"
  else
    let tokenString := GoStr.TrimPrefix authHeader "Bearer " in
    if GoStr.eqb tokenString authHeader then deny "Invalid token format"
    else
      secret ← user_secret;
      token ← JwtParse tokenString secret Ret;
      if Jwt.parse_err token || negb (Jwt.token_valid token)
      then deny "Invalid or expired token"
      else
        match Jwt.string_claim (Jwt.claims token) "session_key" with
        | None => deny "Session key missing in token"
        | Some sessionKey =>
            '(sessionVal, err) ← GetValue ("session:" +:+ sessionKey);
            if is_err err then deny "Session not found or expired"
            else if GoStr.eqb sessionVal "" then deny "Session invalid or not found"
            else mret Next
        end.

(** [jwt.NewNumericDate]: the instant in whole seconds. *)
Definition NewNumericDate (t : Z) : Jwt.claim := Jwt.CNumber (t / GoTime.Second).

(** [GenerateJWT] creates a new JWT with the given session key, valid for
    one day; [None] stands for the signing error. *)
Definition GenerateJWT (sessionKey : string) : Prog (option string) :=
  secret ← user_secret;
  now ← TimeNow Ret;
  let exp := now + 24 * GoTime.Hour in
  let claims : gmap string Jwt.claim :=
    <["session_key"%string := Jwt.CString sessionKey]>
      (<["exp"%string := NewNumericDate exp]>
         (<["iat"%string := NewNumericDate now]> ∅)) in
  JwtSign claims secret Ret.

End Middleware.

(* ===================================================================== *)
(** ** Package [handlers]: sign-in *)
(* ===================================================================== *)

Module Signin.
Import Eff Http Redisclient Middleware.

(** Forms the Redis key of the sign-in code of an e-mail address. *)
Definition signInCodeKey (email : string) : string := "signin_code:" +:+ email.

Definition byte_int (b : byte) : Z := Z.of_N (Byte.to_N b).

(** Generates a random 6-digit numeric code; when the random source
    fails it falls back to the clock.  [%] is Go's remainder, which
    truncates towards zero. *)
Definition generateSixDigitCode : Prog string :=
  '(b, err) ← RandRead 3 Ret;
  if (err : bool)
  then
    now ← TimeNow Ret;
    mret (GoStr.Sprintf_06d (Z.rem now 1000000))
  else
    let num :=
      Z.rem (Z.lor (Z.lor (Z.shiftl (byte_int (nth 0 b x00)) 16)
                          (Z.shiftl (byte_int (nth 1 b x00)) 8))
                   (byte_int (nth 2 b x00)))
            1000000 in
    mret (GoStr.Sprintf_06d num).

(** [randomToken] returns a URL-safe random string; the error of the
    random source is dropped. *)
Definition randomToken (length : nat) : Prog string :=
  '(raw, _) ← RandRead length Ret;
  mret (GoStr.RawURLEncode raw).

Definition quote : string := String (ascii_of_nat 34) EmptyString.

(** The body of [POST /signin/request] after [c.BodyParser]; a missing
    JSON field leaves the empty string. *)
Record RequestBody : Type := mkRequestBody { rq_Email : string }.

(** [RequestSignIn]; [body = None] when the body does not parse. *)
Definition RequestSignIn (body : option RequestBody) : Prog Response :=
  match body with
  | None => mret (error_json StatusBadRequest "Invalid request body")
  | Some req =>
      if GoStr.eqb (rq_Email req) ""
      then mret (error_json StatusBadRequest "Missing email")
      else
        code ← generateSixDigitCode;
        err ← SetValue (signInCodeKey (rq_Email req)) code (5 * GoTime.Minute);
        if is_err err
        then mret (error_json StatusInternalServerError "Unable to store code in redis")
        else
          failed ← SendCodeEmail (rq_Email req) code Ret;
          if (failed : bool)
          then mret (error_json StatusInternalServerError "Failed to send email")
          else mret (ok_json (JMap [("message"%string,
                                      "A sign-in code has been emailed to you."%string)]))
  end.

(** [fmt.Sprintf] of the minimal user profile kept in the session. *)
Definition userProfile (email : string) : string :=
  "{" +:+ quote +:+ "email" +:+ quote +:+ ":" +:+ quote +:+ email +:+ quote +:+ "}".

(** The body of [POST /signin/verify]. *)
Record VerifyBody : Type := mkVerifyBody { vf_Email : string; vf_Code : string }.

(** [VerifySignIn] *)
Definition VerifySignIn (body : option VerifyBody) : Prog Response :=
  match body with
  | None => mret (error_json StatusBadRequest "Invalid request body")
  | Some req =>
      if GoStr.eqb (vf_Email req) "" || GoStr.eqb (vf_Code req) ""
      then mret (error_json StatusBadRequest "Missing email or code")
      else
        '(storedCode, err) ← GetValue (signInCodeKey (vf_Email req));
        if is_err err || GoStr.eqb storedCode ""
        then mret (error_json StatusBadRequest "No sign-in code found or code expired")
        else if negb (GoStr.eqb storedCode (vf_Code req))
        then mret (error_json StatusUnauthorized "Invalid code")
        else
          (* the error of the removal is discarded *)
          _ ← DeleteKey (signInCodeKey (vf_Email req));
          sessionID ← randomToken 16;
          let userProfile := userProfile (vf_Email req) in
          err ← SetValue ("session:" +:+ sessionID) userProfile (24 * GoTime.Hour);
          if is_err err
          then mret (error_json StatusInternalServerError "Could not store session")
          else
            token ← GenerateJWT sessionID;
            match token with
            | None => mret (error_json StatusInternalServerError "Could not create token")
            | Some t => mret (ok_json (JMap [("token"%string, t)]))
            end
  end.

End Signin.

(* ===================================================================== *)
(** ** A stand-in for the JWT library, used to run the handlers on
       concrete requests *)
(* ===================================================================== *)

Module FakeJwt.

(** Splits at the first ["|"]. *)
Fixpoint cut (s : string) : option (string * string) :=
  match s with
  | EmptyString => None
  | String c s' =>
      if Ascii.eqb c "|" then Some (EmptyString, s')
      else match cut s' with
           | Some (a, b) => Some (String c a, b)
           | None => None
           end
  end.

Definition number_claim (c : gmap string Jwt.claim) (key : string) : Z :=
  match c !! key with
  | Some (Jwt.CNumber n) => n
  | _ => 0
  end.

(** A token is [secret|exp|session_key] in clear: enough to tell a token
    signed with another secret or past its expiry from a good one. *)
Definition sign (c : gmap string Jwt.claim) (secret : string) : option string :=
  let k := default EmptyString (Jwt.string_claim c "session_key") in
  Some (secret +:+ "|" +:+ GoStr.FormatUint (Z.to_N (number_claim c "exp"))
          +:+ "|" +:+ k).

Definition invalid : Jwt.parsed := Jwt.mkParsed true false ∅.

Definition parse (tokenString secret : string) (now : Z) : Jwt.parsed :=
  match cut tokenString with
  | Some (sec, rest) =>
      match cut rest with
      | Some (exp, k) =>
          match GoStr.Atoi exp with
          | Some e =>
              if GoStr.eqb sec secret && (now / GoTime.Second <? e)
              then Jwt.mkParsed false true
                     (<["session_key"%string := Jwt.CString k]>
                        (<["exp"%string := Jwt.CNumber e]> ∅))
              else invalid
          | None => invalid
          end
      | None => invalid
      end
  | None => invalid
  end.

#[global] Instance lib : Jwt.Lib :=
  {| Jwt.ParseWithClaims := parse; Jwt.SignedString := sign |}.

End FakeJwt.

(* ===================================================================== *)
(** ** The relational store as GORM drives it *)
(* ===================================================================== *)

Module Gorm.
Import Models.

(** Rows of [api.subscribers] and [api.subscriber_types], keyed by [id]. *)
Record SubscriberRow : Type := mkSubscriberRow {
  r_email : string;
  r_name : string;
  r_created_at : Z;
  r_updated_at : Z
}.

Record TypeRow : Type := mkTypeRow {
  t_subscriber_id : N;
  t_name : string;
  t_created_at : Z;
  t_updated_at : Z
}.

Record Tables : Type := mkTables {
  subscribers : gmap N SubscriberRow;
  subscriber_types : gmap N TypeRow;
  subscribers_seq : N;             (* next value of the [SERIAL] *)
  subscriber_types_seq : N
}.

(** The handle the handlers receive: the tables, the clock GORM stamps
    rows with, and the outcome of the coming calls ([true]: the call
    fails, whatever the cause, and changes nothing). *)
Record DB : Type := mkDB {
  tables : Tables;
  db_clock : Z;
  db_faults : list bool
}.

(** [CREATE TYPE api.subscriber_type AS ENUM (...)] *)
Definition subscriber_type_enum : list string :=
  ["shopper"; "business"; "driver"; "champion"; "donor"; "developer"]%string.

Definition enum_ok (name : string) : bool :=
  existsb (String.eqb name) subscriber_type_enum.

(** [autoCreateTime] / [autoUpdateTime] fill a zero time on insert. *)
Definition stamp (t now : Z) : Z := if t =? 0 then now else t.

Definition row_of_type (c : SubscriberType) : TypeRow :=
  mkTypeRow (st_SubscriberID c) (st_Name c) (st_CreatedAt c) (st_UpdatedAt c).

Definition type_of_row (id : N) (r : TypeRow) : SubscriberType :=
  mkSubscriberType id (t_subscriber_id r) (t_name r) (t_created_at r) (t_updated_at r).

Definition with_types (t : Tables) (m : gmap N TypeRow) (seq : N) : Tables :=
  mkTables (subscribers t) m (subscribers_seq t) seq.

Definition with_subscribers (t : Tables) (m : gmap N SubscriberRow) (seq : N) : Tables :=
  mkTables m (subscriber_types t) seq (subscriber_types_seq t).

(** One row of [INSERT INTO subscriber_types].  The name has to be of the
    enum and the parent has to exist.  A zero [id] draws from the
    sequence.  With [upsert], a row whose [id] is taken only has its
    [subscriber_id] rewritten ([ON CONFLICT (id) DO UPDATE SET
    subscriber_id = excluded.subscriber_id]); without, that is a
    duplicate key. *)
Definition insert_type (now : Z) (upsert : bool) (t : Tables) (c : SubscriberType)
  : option (Tables * SubscriberType) :=
  if negb (enum_ok (st_Name c)) then None
  else if negb (bool_decide (is_Some (subscribers t !! st_SubscriberID c))) then None
  else
    let c1 := mkSubscriberType (st_ID c) (st_SubscriberID c) (st_Name c)
                (stamp (st_CreatedAt c) now) (stamp (st_UpdatedAt c) now) in
    if (st_ID c =? 0)%N
    then
      let id := subscriber_types_seq t in
      match subscriber_types t !! id with
      | Some _ => None
      | None =>
          let c2 := mkSubscriberType id (st_SubscriberID c1) (st_Name c1)
                      (st_CreatedAt c1) (st_UpdatedAt c1) in
          Some (with_types t (<[id := row_of_type c2]> (subscriber_types t)) (id + 1)%N, c2)
      end
    else
      match subscriber_types t !! st_ID c with
      | Some old =>
          if upsert
          then Some (with_types t
                       (<[st_ID c := mkTypeRow (st_SubscriberID c) (t_name old)
                                       (t_created_at old) (t_updated_at old)]>
                          (subscriber_types t))
                       (subscriber_types_seq t), c1)
          else None
      | None =>
          Some (with_types t (<[st_ID c := row_of_type c1]> (subscriber_types t))
                  (subscriber_types_seq t), c1)
      end.

(** A multi-row insert: all rows or none. *)
Fixpoint insert_types (now : Z) (upsert : bool) (t : Tables) (l : list SubscriberType)
  : option (Tables * list SubscriberType) :=
  match l with
  | [] => Some (t, [])
  | c :: rest =>
      match insert_type now upsert t c with
      | Some (t1, c') =>
          match insert_types now upsert t1 rest with
          | Some (t2, rest') => Some (t2, c' :: rest')
          | None => None
          end
      | None => None
      end
  end.

(** GORM saves the has-many children a struct holds together with the
    struct, on [Create] and on [Save] alike, unless the call omits the
    associations (none of the handlers does): after the parent's own
    statement each child gets the parent's key as its foreign key and all
    of them go into one [INSERT ... ON CONFLICT (id) DO UPDATE SET
    subscriber_id = excluded.subscriber_id].  A [nil] or empty slice saves
    nothing. *)
Definition repoint (id : N) (c : SubscriberType) : SubscriberType :=
  mkSubscriberType (st_ID c) id (st_Name c) (st_CreatedAt c) (st_UpdatedAt c).

Definition save_associations (now : Z) (t : Tables) (id : N)
    (children : option (list SubscriberType))
  : option (Tables * option (list SubscriberType)) :=
  match children with
  | None => Some (t, None)
  | Some l =>
      match insert_types now true t (map (repoint id) l) with
      | Some (t', l') => Some (t', Some l')
      | None => None
      end
  end.

(** [INSERT INTO subscribers] followed by the children. *)
Definition create_subscriber (now : Z) (t : Tables) (s : Subscriber)
  : option (Tables * Subscriber) :=
  let id := if (ID s =? 0)%N then subscribers_seq t else ID s in
  let seq := if (ID s =? 0)%N then (subscribers_seq t + 1)%N else subscribers_seq t in
  match subscribers t !! id with
  | Some _ => None
  | None =>
      let created := stamp (CreatedAt s) now in
      let updated := stamp (UpdatedAt s) now in
      let t1 := with_subscribers t
                  (<[id := mkSubscriberRow (Email s) (Name s) created updated]>
                     (subscribers t)) seq in
      match save_associations now t1 id (SubscriberTypes s) with
      | Some (t2, children) =>
          Some (t2, mkSubscriber id (Email s) (Name s) children created updated)
      | None => None
      end
  end.

(** The children of a subscriber, as [Preload("SubscriberTypes")]
    collects them; SQL promises no order. *)
Definition children_of (t : Tables) (id : N) : list SubscriberType :=
  map (fun p => type_of_row (fst p) (snd p))
    (filter (fun p => t_subscriber_id (snd p) = id) (map_to_list (subscriber_types t))).

Definition load (t : Tables) (id : N) (r : SubscriberRow) : Subscriber :=
  mkSubscriber id (r_email r) (r_name r) (Some (children_of t id))
    (r_created_at r) (r_updated_at r).

(** [DELETE FROM subscriber_types WHERE subscriber_id = id] *)
Definition delete_types_of (t : Tables) (id : N) : Tables :=
  with_types t (filter (fun p => t_subscriber_id (snd p) <> id) (subscriber_types t))
    (subscriber_types_seq t).

(** [db.Save] of a subscriber whose key is set: all columns of its row
    are rewritten, [updated_at] with the current time, and the children
    it holds are saved after it.  Without a row of that key the children
    break the foreign key; without children the row is inserted. *)
Definition save_subscriber (now : Z) (t : Tables) (s : Subscriber)
  : option (Tables * Subscriber) :=
  if (ID s =? 0)%N then create_subscriber now t s
  else
    match subscribers t !! ID s with
    | Some _ =>
        let t1 := with_subscribers t
                    (<[ID s := mkSubscriberRow (Email s) (Name s) (CreatedAt s) now]>
                       (subscribers t)) (subscribers_seq t) in
        match save_associations now t1 (ID s) (SubscriberTypes s) with
        | Some (t2, children) =>
            Some (t2, mkSubscriber (ID s) (Email s) (Name s) children (CreatedAt s) now)
        | None => None
        end
    | None =>
        match SubscriberTypes s with
        | Some (_ :: _) => None
        | _ => create_subscriber now t s
        end
    end.

(** [DELETE FROM subscribers WHERE id = id]; rows still referencing it
    break the foreign key. *)
Definition delete_subscriber (t : Tables) (id : N) : option Tables :=
  match children_of t id with
  | [] => Some (with_subscribers t (delete id (subscribers t)) (subscribers_seq t))
  | _ :: _ => None
  end.

(** Calls on the handle: state passing, [None] for [.Error != nil]. *)
Definition M (A : Type) : Type := DB -> A * DB.

#[global] Instance m_ret : MRet M := fun A a db => (a, db).
#[global] Instance m_bind : MBind M :=
  fun A B f m db => let '(a, db') := m db in f a db'.

Definition call {A : Type} (f : Z -> Tables -> option (Tables * A)) : M (option A) :=
  fun db =>
    match db_faults db with
    | true :: rest => (None, mkDB (tables db) (db_clock db) rest)
    | _ =>
        let rest := tail (db_faults db) in
        match f (db_clock db) (tables db) with
        | Some (t, a) => (Some a, mkDB t (db_clock db) rest)
        | None => (None, mkDB (tables db) (db_clock db) rest)
        end
    end.

(** [db.Create(&subscriber)] *)
Definition Create (s : Subscriber) : M (option Subscriber) :=
  call (fun now t => create_subscriber now t s).

(** [db.Create(&types)] on a non-empty slice *)
Definition CreateTypes (l : list SubscriberType) : M (option (list SubscriberType)) :=
  call (fun now t => insert_types now false t l).

(** [db.Preload("SubscriberTypes").First(&subscriber, id)]; the key of
    the request is any 64-bit integer, the rows have natural keys. *)
Definition FirstPreload (id : Z) : M (option Subscriber) :=
  call (fun _ t =>
          if id <? 0 then None
          else match subscribers t !! Z.to_N id with
               | Some r => Some (t, load t (Z.to_N id) r)
               | None => None
               end).

(** [db.First(&subscriber, id)] *)
Definition First (id : Z) : M (option Subscriber) :=
  call (fun _ t =>
          if id <? 0 then None
          else match subscribers t !! Z.to_N id with
               | Some r =>
                   Some (t, mkSubscriber (Z.to_N id) (r_email r) (r_name r) None
                              (r_created_at r) (r_updated_at r))
               | None => None
               end).

(** [db.Preload("SubscriberTypes").Find(&subscribers)] *)
Definition FindPreload : M (option (list Subscriber)) :=
  call (fun _ t =>
          Some (t, map (fun p => load t (fst p) (snd p)) (map_to_list (subscribers t)))).

(** [db.Where("subscriber_id = ?", id).Delete(&models.SubscriberType{})] *)
Definition DeleteTypesWhere (id : N) : M (option unit) :=
  call (fun _ t => Some (delete_types_of t id, tt)).

(** [db.Save(&subscriber)] *)
Definition Save (s : Subscriber) : M (option Subscriber) :=
  call (fun now t => save_subscriber now t s).

(** [db.Delete(&subscriber)] *)
Definition Delete (s : Subscriber) : M (option unit) :=
  call (fun _ t =>
          match delete_subscriber t (ID s) with
          | Some t' => Some (t', tt)
          | None => None
          end).

End Gorm.

(* ===================================================================== *)
(** ** Package [handlers]: subscribers *)
(* ===================================================================== *)

Module Handlers.
Import Models Http Gorm Regex.

Definition one_of (l : string) (c : ascii) : bool := GoStr.contains_char c l.

Definition alnum (c : ascii) : bool := GoStr.is_letter c || GoStr.is_digit c.

(** [[a-zA-Z0-9._%+\-]], [[a-zA-Z0-9.\-]] and [[a-zA-Z]] *)
Definition local_class (c : ascii) : bool := alnum c || one_of "._%+-" c.
Definition domain_class (c : ascii) : bool := alnum c || one_of ".-" c.
Definition dot (c : ascii) : bool := Ascii.eqb c ".".
Definition at_sign (c : ascii) : bool := Ascii.eqb c "@".

(** [^[a-zA-Z0-9._%+\-]+@[a-zA-Z0-9.\-]+\.[a-zA-Z]{2,}$] *)
Definition emailRegex : regex :=
  Cat (Plus (Class local_class))
    (Cat (Class at_sign)
       (Cat (Plus (Class domain_class))
          (Cat (Class dot) (AtLeast 2 (Class GoStr.is_letter))))).

Definition MatchString (r : regex) (s : string) : bool := matchb r s.

(** [validateSubscriberFields] performs the checks on email and name and
    returns the error, if any. *)
Definition validateSubscriberFields (sub : Subscriber) : option string :=
  if GoStr.eqb (Email sub) "" || negb (MatchString emailRegex (Email sub))
  then Some "invalid or missing email"%string
  else if GoStr.eqb (GoStr.TrimSpace (Name sub)) ""
  then Some "missing name"%string
  else None.

(** [CreateSubscriber]; [body = None] when [c.BodyParser] fails. *)
Definition CreateSubscriber (body : option Subscriber) : M Response :=
  match body with
  | None => mret (error_json StatusBadRequest "Unable to parse request body")
  | Some subscriber =>
      match validateSubscriberFields subscriber with
      | Some err => mret (error_json StatusBadRequest err)
      | None =>
          created ← Create subscriber;
          match created with
          | None =>
              (* the text of the driver's error follows the colon *)
              mret (error_json StatusInternalServerError "Could not create subscriber: ")
          | Some subscriber =>
              loaded ← FirstPreload (Z.of_N (ID subscriber));
              match loaded with
              | None =>
                  mret (error_json StatusInternalServerError
                          "Failed to load created subscriber with subscriber_types")
              | Some subscriber => mret (mkResponse StatusCreated (JSubscriber subscriber))
              end
          end
      end
  end.

(** [GetAllSubscribers] *)
Definition GetAllSubscribers : M Response :=
  found ← FindPreload;
  match found with
  | None => mret (error_json StatusInternalServerError "Could not retrieve subscribers")
  | Some subscribers => mret (ok_json (JSubscribers subscribers))
  end.

(** [GetSubscriber] *)
Definition GetSubscriber (idParam : string) : M Response :=
  match GoStr.Atoi idParam with
  | None => mret (error_json StatusBadRequest "Invalid subscriber ID")
  | Some id =>
      found ← FirstPreload id;
      match found with
      | None => mret (error_json StatusNotFound "Subscriber not found")
      | Some subscriber => mret (ok_json (JSubscriber subscriber))
      end
  end.

Definition is_nil {A : Type} (s : option (list A)) : bool :=
  match s with None => true | Some _ => false end.

(** The part of [UpdateSubscriber] that overwrites the children; it
    yields the response of an early return, if any. *)
Definition overwrite_types (existing updates : Subscriber) : M (option Response) :=
  let types := SubscriberTypes updates in
  if negb (is_nil types) && (0 <? slice_len types)%nat
  then
    cleared ← DeleteTypesWhere (ID existing);
    match cleared with
    | None =>
        mret (Some (error_json StatusInternalServerError
                      "Could not clear old subscriber_types"))
    | Some _ =>
        let types' := map (repoint (ID existing)) (slice_elems types) in
        created ← CreateTypes types';
        match created with
        | None =>
            mret (Some (error_json StatusInternalServerError
                          "Could not create updated subscriber_types"))
        | Some _ => mret None
        end
    end
  else if negb (is_nil types) && (slice_len types =? 0)%nat
  then
    cleared ← DeleteTypesWhere (ID existing);
    match cleared with
    | None =>
        mret (Some (error_json StatusInternalServerError
                      "Could not remove subscriber_types"))
    | Some _ => mret None
    end
  else mret None.

(** [UpdateSubscriber] *)
Definition UpdateSubscriber (idParam : string) (body : option Subscriber) : M Response :=
  match GoStr.Atoi idParam with
  | None => mret (error_json StatusBadRequest "Invalid subscriber ID")
  | Some id =>
      found ← FirstPreload id;
      match found with
      | None => mret (error_json StatusNotFound "Subscriber not found")
      | Some existing =>
          match body with
          | None => mret (error_json StatusBadRequest "Unable to parse request body")
          | Some updates =>
              match validateSubscriberFields updates with
              | Some err => mret (error_json StatusBadRequest err)
              | None =>
                  let existing :=
                    mkSubscriber (ID existing) (Email updates) (Name updates)
                      (SubscriberTypes existing) (CreatedAt existing)
                      (UpdatedAt existing) in
                  early ← overwrite_types existing updates;
                  match early with
                  | Some response => mret response
                  | None =>
                      saved ← Save existing;
                      match saved with
                      | None =>
                          mret (error_json StatusInternalServerError
                                  "Could not update subscriber")
                      | Some existing =>
                          loaded ← FirstPreload (Z.of_N (ID existing));
                          match loaded with
                          | None =>
                              mret (error_json StatusInternalServerError
                                      "Failed to fetch updated subscriber")
                          | Some existing => mret (ok_json (JSubscriber existing))
                          end
                      end
                  end
              end
          end
      end
  end.

(** [DeleteSubscriber] *)
Definition DeleteSubscriber (idParam : string) : M Response :=
  match GoStr.Atoi idParam with
  | None => mret (error_json StatusBadRequest "Invalid subscriber ID")
  | Some id =>
      found ← First id;
      match found with
      | None => mret (error_json StatusNotFound "Subscriber not found")
      | Some subscriber =>
          cleared ← DeleteTypesWhere (ID subscriber);
          match cleared with
          | None =>
              mret (error_json StatusInternalServerError
                      "Could not delete subscriber_types")
          | Some _ =>
              deleted ← Delete subscriber;
              match deleted with
              | None =>
                  mret (error_json StatusInternalServerError "Could not delete subscriber")
              | Some _ => mret (mkResponse StatusNoContent JNone)
              end
          end
      end
  end.

End Handlers.

(* ===================================================================== *)
(** ** Vocabulary of the checked properties *)
(* ===================================================================== *)

Module Props.
Import Eff Http.


(** Whether the coming call to the random source fails. *)
Definition rand_fails (w : World) : bool := fst (pop (rand_faults w)).


(** *** Authorize, after the specification (4.1)

    The checks in the order of the specification, the first failing one
    deciding; [verify] stands for signature and expiry verification and
    yields the claims of a good token, [lookup] for the read of the
    key-value store and yields the stored value, if the read succeeds. *)
Inductive Reason : Type :=
| MissingHeader
| BadFormat
| InvalidOrExpired
| NoSessionClaim
| SessionNotFound.

Inductive Verdict : Type :=
| Allow
| Deny (reason : Reason).

Definition Authorize (header : option string)
    (verify : string -> option (gmap string Jwt.claim))
    (lookup : string -> option string) : Verdict :=
  match header with
  | None => Deny MissingHeader
  | Some EmptyString => Deny MissingHeader
  | Some h =>
      match GoStr.strip_prefix "Bearer " h with
      | None => Deny BadFormat
      | Some token =>
          match verify token with
          | None => Deny InvalidOrExpired
          | Some claims =>
              match claims !! "session_key"%string with
              | Some (Jwt.CString k) =>
                  match lookup ("session:" +:+ k) with
                  | None => Deny SessionNotFound
                  | Some EmptyString => Deny SessionNotFound
                  | Some _ => Allow
                  end
              | _ => Deny NoSessionClaim
              end
          end
      end
  end.

Section World.
Context `{Jwt.Lib}.

(** Signature and expiry verification in a world: the library's parse
    under the configured secret at the current time. *)
Definition verify (w : World) (token : string) : option (gmap string Jwt.claim) :=
  let secret := if GoStr.eqb (getenv w "JWT_USER_SECRET_KEY") ""
                then "devsecret"%string else getenv w "JWT_USER_SECRET_KEY" in
  let p := Jwt.ParseWithClaims token secret (clock w) in
  if Jwt.parse_err p || negb (Jwt.token_valid p) then None else Some (Jwt.claims p).

(** The coming read of the key-value store in a world. *)
Definition lookup (w : World) (key : string) : option string :=
  match fst (redis_get w key) with
  | (v, None) => Some v
  | (_, Some _) => None
  end.
End World.

Definition unauthorized (msg : string) : Outcome :=
  Respond (error_json StatusUnauthorized msg).

(** The reason a deny response carries in its message. *)
Definition reason_of (msg : string) : option Reason :=
  if GoStr.eqb msg "Missing Authorization header" then Some MissingHeader
  else if GoStr.eqb msg "Invalid token format" then Some BadFormat
  else if GoStr.eqb msg "Invalid or expired token" then Some InvalidOrExpired
  else if GoStr.eqb msg "Session key missing in token" then Some NoSessionClaim
  else if GoStr.eqb msg "Session not found or expired" then Some SessionNotFound
  else if GoStr.eqb msg "Session invalid or not found" then Some SessionNotFound
  else None.

Definition verdict_of (o : Outcome) : option Verdict :=
  match o with
  | Next => Some Allow
  | Respond (mkResponse code (JMap [(field, msg)])) =>
      if (code =? StatusUnauthorized) && GoStr.eqb field "error"
      then option_map Deny (reason_of msg)
      else None
  | Respond _ => None
  end.

(** *** Inputs the validation has to refuse *)





(** *** Rows written by a call

    A row of [subscriber_types] that is there after the call and was not
    there, or not the same, before it. *)
Definition written (before after : Gorm.Tables) (k : N) (row : Gorm.TypeRow) : Prop :=
  Gorm.subscriber_types after !! k = Some row
  /\ Gorm.subscriber_types before !! k <> Some row.

(** Every row of [subscriber_types] after the call was already there,
    unchanged, or belongs to subscriber [sid]. *)
Definition only_for (sid : N) (before after : Gorm.Tables) : Prop :=
  forall k row,
    Gorm.subscriber_types after !! k = Some row ->
    Gorm.subscriber_types before !! k = Some row \/ Gorm.t_subscriber_id row = sid.

(** Row [k] of [subscriber_types] exists and belongs to subscriber [sid]. *)
Definition present (sid : N) (t : Gorm.Tables) (k : N) : Prop :=
  exists row, Gorm.subscriber_types t !! k = Some row /\ Gorm.t_subscriber_id row = sid.

(** *** A store and bodies for the subscriber examples *)

(** Subscriber 1 without any type, as the update test of the repository
    creates it. *)
Definition no_types : Gorm.DB :=
  Gorm.mkDB
    (Gorm.mkTables
       (<[1%N := Gorm.mkSubscriberRow "old-email@example.com" "Old Name" 7 7]> ∅)
       ∅ 2 1)
    100 [].

(** A live session for the token [devsecret|100|validSessionTest]. *)
Definition with_session : World :=
  mkWorld (<["session:validSessionTest"%string :=
               Redis.mkEntry "{email:valid@example.com}" None]> ∅)
    [] 1000 [] [] ∅ [] [].

(** Subscriber 1 with the types [shopper] (row 10) and [business]
    (row 11); the clock of the store reads 100 and nothing fails. *)
Definition two_types : Gorm.DB :=
  Gorm.mkDB
    (Gorm.mkTables
       (<[1%N := Gorm.mkSubscriberRow "old@example.com" "Old" 7 7]> ∅)
       (<[10%N := Gorm.mkTypeRow 1 "shopper" 7 7]>
          (<[11%N := Gorm.mkTypeRow 1 "business" 7 7]> ∅))
       2 12)
    100 [].

(** [{"email": "new@example.com", "name": "New", "subscriber_types": ...}] *)
Definition update_body (types : option (list Models.SubscriberType))
  : option Models.Subscriber :=
  Some (Models.mkSubscriber 0 "new@example.com" "New" types 0 0).

(** [{"name": "driver", "subscriber_id": 99}] *)
Definition driver : Models.SubscriberType := Models.mkSubscriberType 0 99 "driver" 0 0.

(** The children a response carries. *)
Definition types_in (r : Response) : list Models.SubscriberType :=
  match payload r with
  | JSubscriber s => Models.slice_elems (Models.SubscriberTypes s)
  | _ => []
  end.

Definition names_in (r : Response) : list string := map Models.st_Name (types_in r).

(** *** Worlds and requests of the sign-in examples *)

(** An empty store at time 1000, nothing failing. *)
Definition quiet : World := mkWorld ∅ [] 1000 [] [] ∅ [] [].

(** A header whose token does not verify, and one whose token verifies
    under the development secret but names a session nobody stored. *)
Definition forged_header : option string := Some "Bearer abc.def.ghi"%string.
Definition orphan_header : option string := Some "Bearer devsecret|100|ghost"%string.

Definition no_code : Response :=
  error_json StatusBadRequest "No sign-in code found or code expired".

Definition sixteen_bytes : list byte :=
  [x01; x02; x03; x04; x05; x06; x07; x08; x09; x0a; x0b; x0c; x0d; x0e; x0f; x10].

(** One valid code, ["654321"], issued at time 0 to [a@b.com]; the
    argument lists the outcomes of the coming Redis commands. *)
Definition issued (faults : list bool) : World :=
  mkWorld (<["signin_code:a@b.com"%string :=
               Redis.mkEntry "654321" (Some (5 * GoTime.Minute))]> ∅)
    faults 1000 (sixteen_bytes ++ sixteen_bytes) [] ∅ [] [].

Definition verify_request : option Signin.VerifyBody :=
  Some (Signin.mkVerifyBody "a@b.com" "654321").

(** The same Redis contents met by a later request: whatever the clock,
    the failures to come and the random bytes are then. *)
Definition later (w : World) (faults : list bool) (now : Z) (bytes : list byte)
    (rfaults : list bool) : World :=
  mkWorld (redis w) faults now bytes rfaults (environ w) (outbox w) (mail_faults w).

End Props.

(* ===================================================================== *)
(** ** Package [sendgridservice] *)
(* ===================================================================== *)

Module Sendgrid.

(** What [client.Send] hands back: an error of the transport, or the
    status code and the body of the answer of the API. *)
Inductive sent : Type :=
| Failed (err : string)
| Answered (StatusCode : Z) (Body : string).

(** [mail.NewSingleEmail(from, subject, to, plainText, htmlContent)] *)
Record SingleEmail : Type := mkSingleEmail {
  from_name : string;
  from_address : string;
  subject : string;
  to_name : string;
  to_address : string;
  plainText : string;
  htmlContent : string
}.

(** [%d] *)
Definition Itoa (n : Z) : string :=
  if n <? 0 then String "-" (GoStr.FormatUint (Z.abs_N n))
  else GoStr.FormatUint (Z.abs_N n).

Definition newline : string := String (ascii_of_nat 10) EmptyString.

Definition code_message (fromAddress toEmail code : string) : SingleEmail :=
  mkSingleEmail "MyApp" fromAddress "Your Sign-In Code" "" toEmail
    ("Your sign-in code is: " +:+ code +:+ newline +:+ newline
       +:+ "Use this code to finish signing in.")
    ("<strong>Your sign-in code is: " +:+ code
       +:+ "</strong><br>Use this code to finish signing in.").

Section Client.
Variable getenv : string -> string.
(** [sendgrid.NewSendClient(apiKey).Send(message)] *)
Variable Send : string -> SingleEmail -> sent.

(** [defaultSendCodeEmail] sends the sign-in code; the result is the text
    of the error, [None] for [nil]. *)
Definition defaultSendCodeEmail (toEmail code : string) : option string :=
  let apiKey := getenv "SENDGRID_API_KEY" in
  if GoStr.eqb apiKey ""
  then Some "SENDGRID_API_KEY not set, cannot send email"%string
  else
    let fromAddress :=
      if GoStr.eqb (getenv "SENDGRID_FROM_ADDRESS") ""
      then "no-reply@example.com"%string
      else getenv "SENDGRID_FROM_ADDRESS" in
    match Send apiKey (code_message fromAddress toEmail code) with
    | Failed err => Some ("failed to send email via sendgrid: " +:+ err)
    | Answered StatusCode Body =>
        if 300 <=? StatusCode
        then
          if (400 <=? StatusCode) && (StatusCode <? 500)
          then Some ("sendgrid returned client error (" +:+ Itoa StatusCode
                       +:+ "): " +:+ Body)
          else if 500 <=? StatusCode
          then Some ("sendgrid returned server error (" +:+ Itoa StatusCode
                       +:+ "): " +:+ Body)
          else None
        else None
    end.

End Client.

End Sendgrid.

(* ===================================================================== *)
(** ** Packages [admin] and [signup]: the routes *)
(* ===================================================================== *)

Module Routes.
Import Models Http Gorm Handlers.

(** A request that matched one of the routes registered under
    [/subscribers]. *)
Inductive SubscriberCall : Type :=
| PostSubscribers (body : option Subscriber)             (* POST /     *)
| GetSubscribers                                         (* GET  /     *)
| GetSubscriberById (id : string)                        (* GET  /:id  *)
| PutSubscriber (id : string) (body : option Subscriber) (* PUT  /:id  *)
| DeleteSubscriberById (id : string).                    (* DELETE /:id *)

(** [RegisterSubscriberRoutes] registers the CRUD routes. *)
Definition RegisterSubscriberRoutes (call : SubscriberCall) : M Response :=
  match call with
  | PostSubscribers body => CreateSubscriber body
  | GetSubscribers => GetAllSubscribers
  | GetSubscriberById id => GetSubscriber id
  | PutSubscriber id body => UpdateSubscriber id body
  | DeleteSubscriberById id => DeleteSubscriber id
  end.

Section Admin.
Context `{Jwt.Lib}.

(** [RegisterAdminRoutes]: the group runs the CORS middleware, then
    [RequireJWT], then the route.  [cors] is what the CORS middleware does
    with the request: it answers itself or passes the request on. *)
Definition RegisterAdminRoutes (cors : Outcome) (header : option string)
    (call : SubscriberCall) (s : Eff.World * DB) : Response * (Eff.World * DB) :=
  match cors with
  | Respond r => (r, s)
  | Next =>
      let '(o, w') := Eff.run (Middleware.RequireJWT header) (fst s) in
      match o with
      | Respond r => (r, (w', snd s))
      | Next =>
          let '(r, db') := RegisterSubscriberRoutes call (snd s) in
          (r, (w', db'))
      end
  end.

End Admin.

(** [signup.RegisterRoutes]: CORS, then create only. *)
Definition RegisterSignupRoutes (cors : Outcome) (body : option Subscriber) (db : DB)
  : Response * DB :=
  match cors with
  | Respond r => (r, db)
  | Next => CreateSubscriber body db
  end.

End Routes.

(* ===================================================================== *)
(** ** Vocabulary of the further properties *)
(* ===================================================================== *)

Module Cover.
Import Eff Http.

(** The characters of the URL-safe base64 alphabet. *)
Definition url_safe (c : ascii) : bool :=
  GoStr.is_letter c || GoStr.is_digit c || Ascii.eqb c "-" || Ascii.eqb c "_".

Fixpoint replicate_char (n : nat) (c : ascii) : string :=
  match n with
  | O => EmptyString
  | S n' => String c (replicate_char n' c)
  end.

(** Whether the coming Redis command fails, and whether the coming mail does. *)
Definition redis_fails (w : World) : bool := fst (pop (redis_faults w)).

Definition mail_fails (w : World) : bool := fst (pop (mail_faults w)).

(** The secret the tokens are signed with, and the claims of the token
    minted at [now] for a session key. *)
Definition secret_of (w : World) : string :=
  if GoStr.eqb (getenv w "JWT_USER_SECRET_KEY") "" then "devsecret"%string
  else getenv w "JWT_USER_SECRET_KEY".

Definition token_claims (sessionKey : string) (now : Z) : gmap string Jwt.claim :=
  <["session_key"%string := Jwt.CString sessionKey]>
    (<["exp"%string := Middleware.NewNumericDate (now + 24 * GoTime.Hour)]>
       (<["iat"%string := Middleware.NewNumericDate now]> ∅)).

Section World.
Context `{Jwt.Lib}.

(** The world after one attempt to verify [guess] for [email]. *)
Definition attempt (email : string) (w : World) (guess : string) : World :=
  snd (run (Signin.VerifySignIn (Some (Signin.mkVerifyBody email guess))) w).

Definition attempts (email : string) (guesses : list string) (w : World) : World :=
  fold_left (attempt email) guesses w.

End World.

(** An accepted address: a local part, ["@"], a domain, a dot and two
    letters or more. *)
Definition address_shape (email : string) : Prop :=
  exists l d t,
    email = l +:+ "@" +:+ d +:+ "." +:+ t
    /\ l <> EmptyString /\ GoStr.all_chars Handlers.local_class l = true
    /\ d <> EmptyString /\ GoStr.all_chars Handlers.domain_class d = true
    /\ (2 <= String.length t)%nat /\ GoStr.all_chars GoStr.is_letter t = true.

(** Every row of [subscriber_types] references a row of [subscribers]. *)
Definition references_hold (t : Gorm.Tables) : Prop :=
  forall k row,
    Gorm.subscriber_types t !! k = Some row ->
    is_Some (Gorm.subscribers t !! Gorm.t_subscriber_id row).

(** The rows of [subscriber_types] but those of subscriber [id]. *)
Definition without_types_of (id : N) (t : Gorm.Tables) : gmap N Gorm.TypeRow :=
  filter (fun p => Gorm.t_subscriber_id (snd p) <> id) (Gorm.subscriber_types t).

(** Two worlds that differ in the store and in the list of its coming
    failures at most. *)
Definition beside_redis (w w' : World) : Prop :=
  clock w' = clock w /\ entropy w' = entropy w /\ rand_faults w' = rand_faults w
  /\ environ w' = environ w /\ outbox w' = outbox w /\ mail_faults w' = mail_faults w.

(** *** Worlds, stores and bodies of the examples *)

(** An empty store at time 1000 and a mail service that is down. *)
Definition mail_down : World :=
  mkWorld ∅ [] 1000 Props.sixteen_bytes [] ∅ [] [true].

(** The code of [Props.issued] met with the random source down. *)
Definition random_down : World :=
  Props.later (Props.issued []) [] 1000 [] [true].

(** The rows of [Props.two_types] behind a connection whose coming calls
    end as listed. *)
Definition two_types_with (faults : list bool) : Gorm.DB :=
  Gorm.mkDB (Gorm.tables Props.two_types) 100 faults.

(** [{"email": "eve@example.com", "name": "Eve",
      "subscriber_types": [{"id": 10, "name": "driver"}]}] *)
Definition signup_body : Models.Subscriber :=
  Models.mkSubscriber 0 "eve@example.com" "Eve"
    (Some [Models.mkSubscriberType 10 0 "driver" 0 0]) 0 0.

(** [{"email": "new@example.com", "name": "New",
      "subscriber_types": [{"name": "admin"}]}] *)
Definition unknown_type : Models.SubscriberType :=
  Models.mkSubscriberType 0 0 "admin" 0 0.

Definition unknown_type_body : Models.Subscriber :=
  Models.mkSubscriber 0 "new@example.com" "New" (Some [unknown_type]) 0 0.

(** The subscriber, or the subscribers, a response carries. *)
Definition subscriber_in (r : Response) : Models.Subscriber :=
  match payload r with
  | JSubscriber s => s
  | _ => Models.mkSubscriber 0 "" "" None 0 0
  end.

Definition subscribers_in (r : Response) : list Models.Subscriber :=
  match payload r with
  | JSubscribers l => l
  | _ => []
  end.


End Cover.

(* ===================================================================== *)
(** ** Facts about strings and number formatting *)
(* ===================================================================== *)

Section StringFacts.

Lemma eqb_true (a b : string) : GoStr.eqb a b = true <-> a = b.
Proof. unfold GoStr.eqb. apply String.eqb_eq. Qed.

Lemma eqb_false (a b : string) : GoStr.eqb a b = false <-> a <> b.
Proof. unfold GoStr.eqb. apply String.eqb_neq. Qed.

Lemma eqb_refl (a : string) : GoStr.eqb a a = true.
Proof. by apply eqb_true. Qed.

Lemma length_app (a b : string) :
  String.length (a +:+ b) = (String.length a + String.length b)%nat.
Proof. induction a as [|c a IH]; simpl; [done | by rewrite IH]. Qed.

Lemma all_chars_app p (a b : string) :
  GoStr.all_chars p (a +:+ b) = GoStr.all_chars p a && GoStr.all_chars p b.
Proof.
  induction a as [|c a IH]; simpl; [done |].
  by rewrite IH, andb_assoc.
Qed.





Lemma decimal_digits_length_ge fuel : forall n acc,
  (String.length acc < String.length (GoStr.decimal_digits fuel n acc))%nat.
Proof.
  induction fuel as [|fuel IH]; intros n acc; simpl; [lia |].
  destruct (n / 10 =? 0)%N; simpl; [lia |].
  specialize (IH (n / 10)%N (String (GoStr.digit_char (n mod 10)) acc)).
  simpl in IH. lia.
Qed.



Lemma strip_prefix_app (p t : string) : GoStr.strip_prefix p (p +:+ t) = Some t.
Proof.
  induction p as [|c p IH]; simpl; [done |].
  by rewrite Ascii.eqb_refl.
Qed.

Lemma strip_prefix_Some (p s rest : string) :
  GoStr.strip_prefix p s = Some rest -> s = p +:+ rest.
Proof.
  revert s. induction p as [|c p IH]; intros s Hs; simpl in *.
  - by inversion Hs.
  - destruct s as [|d s]; [done |].
    destruct (Ascii.eqb c d) eqn:Hcd; [| done].
    apply Ascii.eqb_eq in Hcd. subst d. by rewrite (IH s Hs).
Qed.

(** Cutting a non-empty prefix off changes the string, so the test
    [tokenString == authHeader] tells whether the prefix was there. *)
Lemma TrimPrefix_same (s p : string) :
  p <> EmptyString ->
  GoStr.eqb (GoStr.TrimPrefix s p) s = negb (GoStr.HasPrefix s p).
Proof.
  intros Hp. unfold GoStr.TrimPrefix, GoStr.HasPrefix.
  destruct (GoStr.strip_prefix p s) as [rest|] eqn:Hs; simpl.
  - apply eqb_false. intros ->. apply strip_prefix_Some in Hs.
    apply (f_equal String.length) in Hs. rewrite length_app in Hs.
    destruct p; [done | simpl in Hs; lia].
  - apply eqb_refl.
Qed.

End StringFacts.

(* ===================================================================== *)
(** ** The matcher decides the language of a pattern *)
(* ===================================================================== *)

Section RegexFacts.
Import Regex.

Lemma app_cons c (s t : string) : String c s +:+ t = String c (s +:+ t).
Proof. reflexivity. Qed.

Lemma app_empty_l (s : string) : EmptyString +:+ s = s.
Proof. reflexivity. Qed.

Lemma app_empty_r (s : string) : s +:+ EmptyString = s.
Proof. induction s as [|c s IH]; [done | by rewrite app_cons, IH]. Qed.


Lemma app_eq_empty (a b : string) : a +:+ b = EmptyString -> a = EmptyString /\ b = EmptyString.
Proof. destruct a; [done | rewrite app_cons; discriminate]. Qed.

Lemma nullable_sound r : nullable r = true -> Matches r EmptyString.
Proof.
  induction r as [| |p|r1 IH1 r2 IH2|r1 IH1 r2 IH2|r IH]; simpl; intros Hn;
    try discriminate.
  - constructor.
  - apply andb_true_iff in Hn as [H1 H2].
    change EmptyString with (EmptyString +:+ EmptyString). constructor; auto.
  - apply orb_true_iff in Hn as [H1|H2]; [apply MAltL | apply MAltR]; auto.
  - constructor.
Qed.

Lemma nullable_complete r : Matches r EmptyString -> nullable r = true.
Proof.
  intros Hm. remember EmptyString as s eqn:Hs.
  induction Hm; simpl; try done.
  - apply app_eq_empty in Hs as [-> ->]. by rewrite IHHm1, IHHm2.
  - by rewrite IHHm.
  - rewrite IHHm; [apply orb_true_r | done].
Qed.

Lemma deriv_sound c r : forall s, Matches (deriv c r) s -> Matches r (String c s).
Proof.
  induction r as [| |p|r1 IH1 r2 IH2|r1 IH1 r2 IH2|r IH]; simpl; intros s Hm.
  - inversion Hm.
  - inversion Hm.
  - destruct (p c) eqn:Hp; inversion Hm; subst. by constructor.
  - destruct (nullable r1) eqn:Hn.
    + inversion Hm as [| | |? ? ? Hl|? ? ? Hr| |]; subst.
      * inversion Hl as [| |? ? s1 s2 H1 H2| | | |]; subst.
        change (String c (s1 +:+ s2)) with (String c s1 +:+ s2).
        constructor; auto.
      * change (String c s) with (EmptyString +:+ String c s).
        constructor; [by apply nullable_sound | auto].
    + inversion Hm as [| |? ? s1 s2 H1 H2| | | |]; subst.
      change (String c (s1 +:+ s2)) with (String c s1 +:+ s2).
      constructor; auto.
  - inversion Hm; subst; [apply MAltL | apply MAltR]; auto.
  - inversion Hm as [| |? ? s1 s2 H1 H2| | | |]; subst.
    change (String c (s1 +:+ s2)) with (String c s1 +:+ s2).
    constructor; auto.
Qed.

Lemma deriv_complete c r s0 :
  Matches r s0 -> forall s, s0 = String c s -> Matches (deriv c r) s.
Proof.
  induction 1 as [|p d Hp|r1 r2 s1 s2 H1 IH1 H2 IH2|r1 r2 s1 H1 IH1|r1 r2 s1 H1 IH1
                 |r|r s1 s2 H1 IH1 H2 IH2]; intros s Hs; simpl.
  - discriminate.
  - inversion Hs; subst. rewrite Hp. constructor.
  - destruct s1 as [|d s1].
    + rewrite app_empty_l in Hs. subst s2.
      rewrite (nullable_complete _ H1). apply MAltR. by apply IH2.
    + rewrite app_cons in Hs. inversion Hs; subst.
      assert (Matches (Cat (deriv c r1) r2) (s1 +:+ s2)) as Hc
        by (constructor; [by apply IH1 | done]).
      destruct (nullable r1); [by apply MAltL | done].
  - apply MAltL. by apply IH1.
  - apply MAltR. by apply IH1.
  - discriminate.
  - destruct s1 as [|d s1].
    + by apply IH2.
    + rewrite app_cons in Hs. inversion Hs; subst. constructor; [by apply IH1 | done].
Qed.

(** [matchb] accepts exactly the texts of the language. *)
Lemma matchb_spec r s : matchb r s = true <-> Matches r s.
Proof.
  revert r. induction s as [|c s IH]; intros r; simpl.
  - split; [apply nullable_sound | apply nullable_complete].
  - rewrite IH. split; [apply deriv_sound |].
    intros Hm. by eapply deriv_complete.
Qed.

Lemma star_class_all p s : Matches (Star (Class p)) s -> GoStr.all_chars p s = true.
Proof.
  intros Hm. remember (Star (Class p)) as r eqn:Hr.
  induction Hm; try discriminate; [done |].
  inversion Hr; subst. inversion Hm1; subst.
  rewrite app_cons, app_empty_l. simpl.
  rewrite IHHm2 by done. by rewrite andb_true_r.
Qed.

Lemma plus_class_all p s :
  Matches (Plus (Class p)) s -> s <> EmptyString /\ GoStr.all_chars p s = true.
Proof.
  unfold Plus. intros Hm.
  inversion Hm as [| |? ? s1 s2 H1 H2| | | |]; subst.
  inversion H1; subst. rewrite app_cons, app_empty_l. simpl. split; [done |].
  rewrite (star_class_all _ _ H2). by rewrite andb_true_r.
Qed.

Lemma repeat_class_all p n : forall s,
  Matches (Repeat n (Class p)) s ->
  String.length s = n /\ GoStr.all_chars p s = true.
Proof.
  induction n as [|n IH]; simpl; intros s Hm.
  - by inversion Hm.
  - inversion Hm as [| |? ? s1 s2 H1 H2| | | |]; subst.
    inversion H1; subst. destruct (IH _ H2) as [Hl Ha].
    rewrite app_cons, app_empty_l. simpl.
    rewrite Hl, Ha. by rewrite andb_true_r.
Qed.

Lemma atleast_class_all p n s :
  Matches (AtLeast n (Class p)) s ->
  (n <= String.length s)%nat /\ GoStr.all_chars p s = true.
Proof.
  unfold AtLeast. intros Hm.
  inversion Hm as [| |? ? s1 s2 H1 H2| | | |]; subst.
  destruct (repeat_class_all _ _ _ H1) as [Hl Ha].
  rewrite length_app, all_chars_app, Ha, (star_class_all _ _ H2). split; [lia | done].
Qed.


End RegexFacts.

(* ===================================================================== *)
(** ** The sign-in code generator *)
(* ===================================================================== *)

Section CodeGenerator.
Import Eff Signin Props.
Context `{Jwt.Lib}.




Lemma generateSixDigitCode_run (w : World) :
  fst (run generateSixDigitCode w) =
    if rand_fails w
    then GoStr.Sprintf_06d (Z.rem (clock w) 1000000)
    else
      let b := take 3 (entropy w ++ repeat x00 3) in
      GoStr.Sprintf_06d
        (Z.rem (Z.lor (Z.lor (Z.shiftl (byte_int (nth 0 b x00)) 16)
                             (Z.shiftl (byte_int (nth 1 b x00)) 8))
                      (byte_int (nth 2 b x00))) 1000000).
Proof.
  unfold generateSixDigitCode, rand_fails. simpl. unfold rand_read.
  destruct (pop (rand_faults w)) as [fault rest]. simpl.
  destruct fault; reflexivity.
Qed.


End CodeGenerator.



(* ===================================================================== *)
(** ** The JWT middleware *)
(* ===================================================================== *)

Section RequireJWTFacts.
Import Eff Http Middleware Props.
Context `{Jwt.Lib}.

(** What the middleware answers, read off its run. *)
Lemma RequireJWT_run (header : option string) (w : World) :
  fst (run (RequireJWT header) w) =
    let authHeader := default EmptyString header in
    if GoStr.eqb authHeader "" then unauthorized "Missing Authorization header"
    else if negb (GoStr.HasPrefix authHeader "Bearer ")
    then unauthorized "Invalid token format"
    else
      match verify w (GoStr.TrimPrefix authHeader "Bearer ") with
      | None => unauthorized "Invalid or expired token"
      | Some claims =>
          match Jwt.string_claim claims "session_key" with
          | None => unauthorized "Session key missing in token"
          | Some k =>
              match fst (redis_get w ("session:" +:+ k)) with
              | (_, Some _) => unauthorized "Session not found or expired"
              | (v, None) =>
                  if GoStr.eqb v "" then unauthorized "Session invalid or not found"
                  else Next
              end
          end
      end.
Proof.
  unfold RequireJWT. cbv zeta.
  destruct (GoStr.eqb (default EmptyString header) "") eqn:He; [reflexivity |].
  rewrite TrimPrefix_same by discriminate.
  destruct (GoStr.HasPrefix (default EmptyString header) "Bearer ") eqn:Hp;
    [| reflexivity].
  cbn [negb]. unfold verify, user_secret. simpl.
  destruct (Jwt.parse_err _ || negb (Jwt.token_valid _)); [reflexivity |].
  destruct (Jwt.string_claim _ _) as [k|]; [| reflexivity].
  simpl. destruct (redis_get w ("session:" +:+ k)) as [[v [e|]] w']; simpl;
    [reflexivity |].
  destruct (GoStr.eqb v ""); reflexivity.
Qed.

(** C1: the middleware decides as the ordered checks of the
    specification do, the first failing check giving the reason: no
    header, no bearer prefix, failed verification, no string
    [session_key] claim, failed or empty lookup of the session, and
    otherwise the request proceeds.  In particular a token that verifies
    but whose session record is absent from the store is denied. *)
Theorem RequireJWT_first_failing_check_wins (header : option string) (w : World) :
  verdict_of (fst (run (RequireJWT header) w))
    = Some (Authorize header (verify w) (lookup w))
  /\ (forall token claims k,
        header = Some ("Bearer " +:+ token) ->
        verify w token = Some claims ->
        claims !! "session_key"%string = Some (Jwt.CString k) ->
        redis w !! ("session:" +:+ k) = None ->
        fst (run (RequireJWT header) w) = unauthorized "Session not found or expired").
Proof.
  rewrite RequireJWT_run. cbv zeta. split.
  - unfold Authorize. destruct header as [[|c h]|]; [reflexivity | | reflexivity].
    cbn [default from_option id]. change (GoStr.eqb (String c h) "") with false. cbv iota.
    unfold GoStr.HasPrefix, GoStr.TrimPrefix.
    destruct (GoStr.strip_prefix "Bearer " (String c h)) as [token|];
      [| reflexivity].
    cbn [negb]. destruct (verify w token) as [claims|]; [| reflexivity].
    unfold Jwt.string_claim.
    destruct (claims !! "session_key"%string) as [[k| |]|]; try reflexivity.
    unfold lookup.
    destruct (fst (redis_get w ("session:" +:+ k))) as [v [e|]]; [reflexivity |].
    destruct v as [|d v]; reflexivity.
  - intros token claims k -> Hv Hk Hs. cbn [default from_option id].
    change (GoStr.eqb ("Bearer " +:+ token) "") with false. cbv iota.
    unfold GoStr.HasPrefix, GoStr.TrimPrefix.
    rewrite strip_prefix_app. cbn [negb]. rewrite Hv.
    unfold Jwt.string_claim. rewrite Hk.
    unfold redis_get. destruct (pop (redis_faults w)) as [[|] rest]; [reflexivity |].
    unfold Redis.get. rewrite Hs. reflexivity.
Qed.

(** C3, as corrected: every deny path answers 401 Unauthorized with a JSON
    error object, so the status does not tell the failing check; the
    message of the object does, it names the check that failed. *)
Theorem RequireJWT_deny_status_uniform (header : option string) (w : World)
    (r : Response) :
  fst (run (RequireJWT header) w) = Respond r ->
  status r = StatusUnauthorized
  /\ exists msg reason,
       payload r = JMap [("error"%string, msg)]
       /\ reason_of msg = Some reason
       /\ Authorize header (verify w) (lookup w) = Deny reason.
Proof.
  rewrite RequireJWT_run. cbv zeta. unfold Authorize, unauthorized, error_json.
  destruct header as [[|c h]|]; cbn [default from_option id].
  - intros Hr. inversion Hr. split; [reflexivity |]. by eexists _, _.
  - change (GoStr.eqb (String c h) "") with false. cbv iota.
    unfold GoStr.HasPrefix, GoStr.TrimPrefix.
    destruct (GoStr.strip_prefix "Bearer " (String c h)) as [token|]; cbn [negb].
    + destruct (verify w token) as [claims|].
      * unfold Jwt.string_claim.
        destruct (claims !! "session_key"%string) as [[k| |]|];
          try (intros Hr; inversion Hr; split; [reflexivity |]; by eexists _, _).
        unfold lookup.
        destruct (fst (redis_get w ("session:" +:+ k))) as [v [e|]].
        -- intros Hr; inversion Hr; split; [reflexivity |]; by eexists _, _.
        -- destruct v as [|d v]; [| discriminate].
           intros Hr; inversion Hr; split; [reflexivity |]; by eexists _, _.
      * intros Hr; inversion Hr; split; [reflexivity |]; by eexists _, _.
    + intros Hr; inversion Hr; split; [reflexivity |]; by eexists _, _.
  - intros Hr. inversion Hr. split; [reflexivity |]. by eexists _, _.
Qed.

End RequireJWTFacts.

(* ===================================================================== *)
(** ** Sign-in: verification of a code *)
(* ===================================================================== *)

Section VerifySignInFacts.
Import Eff Http Redisclient Middleware Signin Props.
Context `{Jwt.Lib}.

Lemma run_bind {A B : Type} (m : Prog A) (f : A -> Prog B) (w : World) :
  run (bind m f) w = let '(a, w') := run m w in run (f a) w'.
Proof.
  revert w. induction m as [a|n k IH|k IH|n k IH|key k IH|key v e k IH|key k IH
                           |t sc k IH|c sc k IH|t c k IH]; intros w; simpl;
    try reflexivity; try apply IH.
  - destruct (rand_read w n). apply IH.
  - destruct (redis_get w key). apply IH.
  - destruct (redis_set w key v e). apply IH.
  - destruct (redis_del w key). apply IH.
  - destruct (send_mail w t c). apply IH.
Qed.

(** Running a handler is taking its calls one by one. *)
Lemma run_step {A : Type} (p : Prog A) (w : World) :
  run p w = run (snd (step w p)) (fst (step w p)).
Proof.
  destruct p; simpl; try reflexivity.
  - by destruct (rand_read w n).
  - by destruct (redis_get w key).
  - by destruct (redis_set w key val expiration).
  - by destruct (redis_del w key).
  - by destruct (send_mail w toEmail code).
Qed.

(** However two handlers are scheduled, a schedule that only ever picks
    the first one runs them one after the other. *)
Lemma run_both_first {A B : Type} (n : nat) (w : World) (p1 : Prog A) (p2 : Prog B) :
  run_both (repeat true n) w p1 p2 = run_both [] w p1 p2.
Proof.
  revert w p1. induction n as [|n IH]; intros w p1; [reflexivity |].
  unfold run_both in *. simpl repeat. cbn [interleave].
  destruct (step w p1) as [w' p1'] eqn:Hs. rewrite IH. cbn [interleave].
  rewrite (run_step p1 w), Hs. reflexivity.
Qed.

(** Minting a token touches nothing. *)
Lemma GenerateJWT_world (sessionKey : string) (w : World) :
  snd (run (GenerateJWT sessionKey) w) = w.
Proof. reflexivity. Qed.

(** The run of [VerifySignIn] on a body with both fields, call by call. *)
Lemma VerifySignIn_run (w : World) (email code : string) :
  email <> EmptyString -> code <> EmptyString ->
  run (VerifySignIn (Some (mkVerifyBody email code))) w =
    let '((storedCode, err), w1) := redis_get w (signInCodeKey email) in
    if is_err err || GoStr.eqb storedCode ""
    then (error_json StatusBadRequest "No sign-in code found or code expired", w1)
    else if negb (GoStr.eqb storedCode code)
    then (error_json StatusUnauthorized "Invalid code", w1)
    else
      let '(_, w2) := redis_del w1 (signInCodeKey email) in
      let '((raw, _), w3) := rand_read w2 16 in
      let sessionID := GoStr.RawURLEncode raw in
      let '(err, w4) := redis_set w3 ("session:" +:+ sessionID) (userProfile email)
                          (24 * GoTime.Hour) in
      if is_err err
      then (error_json StatusInternalServerError "Could not store session", w4)
      else
        match fst (run (GenerateJWT sessionID) w4) with
        | None => (error_json StatusInternalServerError "Could not create token", w4)
        | Some t => (ok_json (JMap [("token"%string, t)]), w4)
        end.
Proof.
  intros He Hc. unfold VerifySignIn. cbn [vf_Email vf_Code].
  apply eqb_false in He, Hc. rewrite He, Hc. cbn [orb].
  simpl. destruct (redis_get w (signInCodeKey email)) as [[storedCode err] w1].
  destruct (is_err err || GoStr.eqb storedCode ""); [reflexivity |].
  destruct (negb (GoStr.eqb storedCode code)); [reflexivity |].
  simpl. destruct (redis_del w1 (signInCodeKey email)) as [d w2].
  destruct (rand_read w2 16) as [[raw rerr] w3]. simpl.
  destruct (redis_set w3 _ _ _) as [err' w4]. fold (userProfile email).
  destruct (is_err err'); [reflexivity |].
  simpl. destruct (Jwt.SignedString _ _); reflexivity.
Qed.

(** The Redis commands of that run. *)
Lemma VerifySignIn_commands (w : World) (email code : string) :
  email <> EmptyString -> code <> EmptyString ->
  commands (VerifySignIn (Some (mkVerifyBody email code))) w =
    let '((storedCode, err), w1) := redis_get w (signInCodeKey email) in
    GET (signInCodeKey email) ::
      (if is_err err || GoStr.eqb storedCode "" then []
       else if negb (GoStr.eqb storedCode code) then []
       else
         let '(_, w2) := redis_del w1 (signInCodeKey email) in
         let '((raw, _), w3) := rand_read w2 16 in
         [DEL (signInCodeKey email);
          SET ("session:" +:+ GoStr.RawURLEncode raw) (userProfile email)
            (24 * GoTime.Hour)]).
Proof.
  intros He Hc. unfold VerifySignIn. cbn [vf_Email vf_Code].
  apply eqb_false in He, Hc. rewrite He, Hc. cbn [orb].
  simpl. destruct (redis_get w (signInCodeKey email)) as [[storedCode err] w1].
  destruct (is_err err || GoStr.eqb storedCode ""); [reflexivity |].
  destruct (negb (GoStr.eqb storedCode code)); [reflexivity |].
  simpl. destruct (redis_del w1 (signInCodeKey email)) as [d w2].
  destruct (rand_read w2 16) as [[raw rerr] w3]. simpl.
  destruct (redis_set w3 _ _ _) as [err' w4]. fold (userProfile email).
  destruct (is_err err'); [reflexivity |].
  simpl. destruct (Jwt.SignedString _ _); reflexivity.
Qed.

Lemma session_key_not_code_key (sessionID email : string) :
  "session:" +:+ sessionID <> signInCodeKey email.
Proof. unfold signInCodeKey. intros Heq. cbv in Heq. discriminate. Qed.

(** Without a live entry under the key of the e-mail the answer is the
    "no code" rejection, whatever else the world holds. *)
Lemma VerifySignIn_absent (w : World) (email code : string) :
  email <> EmptyString -> code <> EmptyString ->
  Redis.get (clock w) (redis w) (signInCodeKey email) = (EmptyString, Some Redis.Nil) ->
  fst (run (VerifySignIn (Some (mkVerifyBody email code))) w) = no_code.
Proof.
  intros He Hc Hg. rewrite VerifySignIn_run by done.
  unfold redis_get. destruct (pop (redis_faults w)) as [[|] rest]; [reflexivity |].
  rewrite Hg. reflexivity.
Qed.

Lemma get_absent (now : Z) (m : gmap string Redis.entry) (key : string) :
  m !! key = None -> Redis.get now m key = (EmptyString, Some Redis.Nil).
Proof. intros Hm. unfold Redis.get. by rewrite Hm. Qed.


(** When the removal of the code is answered by the store, a successful
    verification leaves no code behind, and a second attempt with the
    same e-mail and code meets the "no code" rejection. *)
Lemma VerifySignIn_single_use_when_delete_answered (w : World) (email code : string) :
  email <> EmptyString -> code <> EmptyString ->
  nth 1 (redis_faults w) false = false ->
  let request := VerifySignIn (Some (mkVerifyBody email code)) in
  let '(response, w') := run request w in
  status response = StatusOK ->
  redis w' !! signInCodeKey email = None
  /\ forall faults now bytes rfaults,
       fst (run request (later w' faults now bytes rfaults)) = no_code.
Proof.
  intros He Hc Hdel request.
  destruct (run request w) as [response w'] eqn:Hrun. intros Hok.
  assert (redis w' !! signInCodeKey email = None) as Hgone.
  { unfold request in Hrun. rewrite VerifySignIn_run in Hrun by done.
    clearbody request.
    destruct w as [m f t en rf ev ob mf]. simpl in Hdel.
    unfold redis_get in Hrun. simpl in Hrun.
    destruct (pop f) as [g f1] eqn:Hp1.
    destruct (if g then _ else _) as [[storedCode err] w1] eqn:Hget in Hrun.
    assert (redis w1 = m /\ redis_faults w1 = f1) as [Hm1 Hf1]
      by (destruct g; inversion Hget; by subst).
    destruct (is_err err || GoStr.eqb storedCode "");
      [inversion Hrun; subst; discriminate |].
    destruct (negb (GoStr.eqb storedCode code));
      [inversion Hrun; subst; discriminate |].
    unfold redis_del in Hrun. rewrite Hf1, Hm1 in Hrun.
    assert (fst (pop f1) = false) as Hd.
    { destruct f as [|b0 [|b1 f2]]; inversion Hp1; subst; simpl in *; done. }
    destruct (pop f1) as [d f2]. simpl in Hd. subst d.
    unfold rand_read in Hrun. simpl in Hrun.
    destruct (pop (rand_faults w1)) as [[|] rf']; simpl in Hrun;
      unfold redis_set in Hrun; simpl in Hrun;
      destruct (pop f2) as [[|] f3]; simpl in Hrun;
      try (inversion Hrun; subst; discriminate);
      (destruct (Jwt.SignedString _ _); inversion Hrun; subst; try discriminate);
      simpl; unfold Redis.set, Redis.del;
      (rewrite lookup_insert_ne by apply session_key_not_code_key);
      apply lookup_delete_eq. }
  split; [exact Hgone |].
  intros faults now bytes rfaults. apply VerifySignIn_absent; try done.
  by apply get_absent.
Qed.

(** C9, as corrected: when the code matched, the removal of the code
    was carried out and the write of the session then fails, the handler
    answers with a server error, writes no session, leaves the code
    removed, and a retry with the same e-mail and code meets the
    "no code" rejection as long as no new code is issued. *)
Theorem VerifySignIn_session_write_failure (w : World) (email code : string)
    (rest : list bool) :
  email <> EmptyString -> code <> EmptyString ->
  redis_faults w = false :: false :: true :: rest ->
  Redis.get (clock w) (redis w) (signInCodeKey email) = (code, None) ->
  let request := VerifySignIn (Some (mkVerifyBody email code)) in
  let '(response, w') := run request w in
  response = error_json StatusInternalServerError "Could not store session"
  /\ redis w' = delete (signInCodeKey email) (redis w)
  /\ forall faults now bytes rfaults,
       fst (run request (later w' faults now bytes rfaults)) = no_code.
Proof.
  intros He Hc Hf Hg request.
  assert (forall w', redis w' = delete (signInCodeKey email) (redis w) ->
            forall faults now bytes rfaults,
              fst (run request (later w' faults now bytes rfaults)) = no_code) as Hretry.
  { intros w' Hw' faults now bytes rfaults. apply VerifySignIn_absent; try done.
    apply get_absent. simpl. rewrite Hw'. apply lookup_delete_eq. }
  destruct (run request w) as [response w'] eqn:Hrun.
  unfold request in Hrun. rewrite VerifySignIn_run in Hrun by done.
  clearbody request.
  pose proof (proj2 (eqb_false code "") Hc) as Hce.
  destruct w as [m f t en rf ev ob mf]. simpl in Hf, Hg. subst f.
  unfold redis_get in Hrun. simpl in Hrun. rewrite Hg in Hrun. simpl in Hrun.
  rewrite Hce, eqb_refl in Hrun. simpl in Hrun.
  unfold rand_read in Hrun. simpl in Hrun.
  destruct (pop rf) as [[|] rf']; simpl in Hrun; inversion Hrun; subst;
    (split; [reflexivity |]); (split; [reflexivity |]); by apply Hretry.
Qed.

(** C4, as corrected: the stored code is looked up and removed by two
    separate Redis commands, GET and then DEL; of two calls with the
    same valid code that run one after the other against a store that
    does not fail, the first succeeds and the second meets the
    "no code" rejection. *)
Theorem VerifySignIn_get_then_delete (w : World) (email code : string) :
  email <> EmptyString -> code <> EmptyString ->
  redis_faults w = [] ->
  Redis.get (clock w) (redis w) (signInCodeKey email) = (code, None) ->
  (forall c secret, is_Some (Jwt.SignedString c secret)) ->
  let request := VerifySignIn (Some (mkVerifyBody email code)) in
  (exists sessionID,
      commands request w =
        [GET (signInCodeKey email); DEL (signInCodeKey email);
         SET ("session:" +:+ sessionID) (userProfile email) (24 * GoTime.Hour)])
  /\ (let '(first, second, _) := run_both [] w request request in
      status first = StatusOK /\ second = no_code).
Proof.
  intros He Hc Hf Hg Hsign request.
  pose proof (proj2 (eqb_false email "") He) as Hee.
  pose proof (proj2 (eqb_false code "") Hc) as Hce.
  split.
  - unfold request. rewrite VerifySignIn_commands by done.
    destruct w as [m f t en rf ev ob mf]. simpl in Hf, Hg. subst f.
    unfold redis_get. simpl. rewrite Hg. simpl. rewrite Hce, eqb_refl. simpl.
    destruct (rand_read _ 16) as [[raw rerr] w3]. by exists (GoStr.RawURLEncode raw).
  - assert (forall tok w2,
              run request w = (ok_json (JMap [("token"%string, tok)]), w2) ->
              redis w2 !! signInCodeKey email = None ->
              let '(first, second, _) := run_both [] w request request in
              status first = StatusOK /\ second = no_code) as Hboth.
    { intros tok w2 Hrun Hk. unfold run_both, interleave. rewrite Hrun.
      pose proof (VerifySignIn_absent w2 email code He Hc
                    (get_absent _ _ _ Hk)) as Habs.
      fold request in Habs. destruct (run request w2) as [second w3].
      split; [reflexivity | exact Habs]. }
    destruct (run request w) as [first w2] eqn:Hrun.
    unfold request in Hrun. rewrite VerifySignIn_run in Hrun by done.
    clearbody request.
    destruct w as [m f t en rf ev ob mf]. simpl in Hf, Hg. subst f.
    unfold redis_get in Hrun. simpl in Hrun. rewrite Hg in Hrun. simpl in Hrun.
    rewrite Hce, eqb_refl in Hrun. simpl in Hrun.
    unfold rand_read in Hrun. simpl in Hrun.
    destruct (pop rf) as [[|] rf']; simpl in Hrun;
      (match type of Hrun with
       | context [Jwt.SignedString ?c ?k] =>
           destruct (Hsign c k) as [tok Htok]; rewrite Htok in Hrun
       end);
      inversion Hrun; subst; eapply Hboth; try reflexivity; simpl;
      unfold Redis.set, Redis.del;
      (rewrite lookup_insert_ne by apply session_key_not_code_key);
      apply lookup_delete_eq.
Qed.

End VerifySignInFacts.

(* ===================================================================== *)
(** ** Validation of subscribers *)
(* ===================================================================== *)

Section ValidationFacts.
Import Models Http Gorm Handlers Regex Props.




(** A call that only reads leaves the tables as they are. *)
Lemma FirstPreload_tables (id : Z) (db : DB) :
  tables (snd (FirstPreload id db)) = tables db.
Proof.
  unfold FirstPreload, call. destruct (db_faults db) as [|[|] rest]; simpl; try done.
  - destruct (id <? 0); [done |]. by destruct (subscribers (tables db) !! Z.to_N id).
  - destruct (id <? 0); [done |]. by destruct (subscribers (tables db) !! Z.to_N id).
Qed.


End ValidationFacts.

(* ===================================================================== *)
(** ** Whom the written rows belong to *)
(* ===================================================================== *)

Section OwnershipFacts.
Import Models Http Gorm Handlers Props.

Lemma only_for_refl sid t : only_for sid t t.
Proof. intros k row Hk. by left. Qed.

Lemma only_for_trans sid t1 t2 t3 :
  only_for sid t1 t2 -> only_for sid t2 t3 -> only_for sid t1 t3.
Proof.
  intros H12 H23 k row Hk. destruct (H23 k row Hk) as [H2|H2]; [| by right].
  by apply H12.
Qed.

Lemma insert_type_only_for now upsert t c t' c' :
  insert_type now upsert t c = Some (t', c') ->
  subscribers t' = subscribers t /\ only_for (st_SubscriberID c) t t'.
Proof.
  unfold insert_type. intros Hi.
  destruct (negb (enum_ok (st_Name c))); [discriminate |].
  destruct (negb (bool_decide (is_Some (subscribers t !! st_SubscriberID c))));
    [discriminate |].
  destruct (st_ID c =? 0)%N.
  - destruct (subscriber_types t !! subscriber_types_seq t) eqn:Hs; [discriminate |].
    inversion Hi; subst. split; [reflexivity |].
    intros k row Hk. simpl in Hk.
    destruct (decide (subscriber_types_seq t = k)) as [Heq|Hne].
    + subst k. rewrite lookup_insert_eq in Hk. inversion Hk; subst. by right.
    + rewrite lookup_insert_ne in Hk by done. by left.
  - destruct (subscriber_types t !! st_ID c) as [old|] eqn:Hs.
    + destruct upsert; [| discriminate]. inversion Hi; subst. split; [reflexivity |].
      intros k row Hk. simpl in Hk.
      destruct (decide (st_ID c = k)) as [Heq|Hne].
      * subst k. rewrite lookup_insert_eq in Hk. inversion Hk; subst. by right.
      * rewrite lookup_insert_ne in Hk by done. by left.
    + inversion Hi; subst. split; [reflexivity |].
      intros k row Hk. simpl in Hk.
      destruct (decide (st_ID c = k)) as [Heq|Hne].
      * subst k. rewrite lookup_insert_eq in Hk. inversion Hk; subst. by right.
      * rewrite lookup_insert_ne in Hk by done. by left.
Qed.

Lemma insert_types_only_for now upsert sid l : forall t t' l',
  Forall (fun c => st_SubscriberID c = sid) l ->
  insert_types now upsert t l = Some (t', l') ->
  subscribers t' = subscribers t /\ only_for sid t t'.
Proof.
  induction l as [|c l IH]; intros t t' l' Hall Hi; simpl in Hi.
  - inversion Hi; subst. split; [reflexivity | apply only_for_refl].
  - inversion Hall as [|? ? Hc Hl]; subst.
    destruct (insert_type now upsert t c) as [[t1 c1]|] eqn:H1; [| discriminate].
    destruct (insert_types now upsert t1 l) as [[t2 l2]|] eqn:H2; [| discriminate].
    inversion Hi; subst.
    apply insert_type_only_for in H1 as [Hs1 Ho1].
    destruct (IH _ _ _ Hl H2) as [Hs2 Ho2].
    split; [by rewrite Hs2 | by eapply only_for_trans].
Qed.

Lemma Forall_repoint sid (l : list SubscriberType) :
  Forall (fun c => st_SubscriberID c = sid) (map (repoint sid) l).
Proof. induction l; simpl; constructor; done. Qed.

Lemma save_associations_only_for now t sid children t' children' :
  save_associations now t sid children = Some (t', children') ->
  subscribers t' = subscribers t /\ only_for sid t t'.
Proof.
  unfold save_associations. destruct children as [l|].
  - destruct (insert_types now true t (map (repoint sid) l)) as [[t1 l1]|] eqn:Hi;
      [| discriminate].
    intros Hs. inversion Hs; subst.
    eapply insert_types_only_for; [apply Forall_repoint | exact Hi].
  - intros Hs. inversion Hs; subst. split; [reflexivity | apply only_for_refl].
Qed.

Lemma create_subscriber_only_for now t s t' s' :
  create_subscriber now t s = Some (t', s') ->
  only_for (ID s') t t'
  /\ subscribers t !! ID s' = None /\ is_Some (subscribers t' !! ID s').
Proof.
  unfold create_subscriber.
  set (id := if (ID s =? 0)%N then subscribers_seq t else ID s).
  destruct (subscribers t !! id) eqn:Hfree; [discriminate |].
  destruct (save_associations _ _ _ _) as [[t2 children]|] eqn:Hsa; [| discriminate].
  intros Hc. inversion Hc; subst. simpl.
  apply save_associations_only_for in Hsa as [Hs Ho].
  split; [exact Ho |]. split; [exact Hfree |].
  rewrite Hs. simpl. rewrite lookup_insert_eq. by eexists.
Qed.

Lemma save_subscriber_only_for now t s t' s' :
  save_subscriber now t s = Some (t', s') ->
  (ID s =? 0)%N = false ->
  only_for (ID s) t t'.
Proof.
  unfold save_subscriber. intros Hs Hz. rewrite Hz in Hs.
  destruct (subscribers t !! ID s) eqn:Hrow.
  - destruct (save_associations _ _ _ _) as [[t2 children]|] eqn:Hsa; [| discriminate].
    inversion Hs; subst. by apply save_associations_only_for in Hsa as [_ Ho].
  - assert (create_subscriber now t s = Some (t', s')) as Hc
      by (destruct (SubscriberTypes s) as [[|? ?]|]; done).
    pose proof (create_subscriber_only_for _ _ _ _ _ Hc) as [Ho _].
    unfold create_subscriber in Hc. rewrite Hz, Hrow in Hc.
    destruct (save_associations _ _ _ _) as [[t2 children]|]; [| discriminate].
    inversion Hc; subst. exact Ho.
Qed.

Lemma delete_types_of_only_for sid t id : only_for sid t (delete_types_of t id).
Proof.
  intros k row Hk. left. unfold delete_types_of in Hk. simpl in Hk.
  by apply map_lookup_filter_Some in Hk as [Hk _].
Qed.

(** A call changes the tables by what its statement does, or not at all. *)
Lemma call_only_for {A : Type} sid (f : Z -> Tables -> option (Tables * A)) (db : DB) :
  (forall t' a, f (db_clock db) (tables db) = Some (t', a) -> only_for sid (tables db) t') ->
  only_for sid (tables db) (tables (snd (call f db))).
Proof.
  intros Hf. unfold call.
  destruct (db_faults db) as [|[|] rest]; simpl; try apply only_for_refl;
    (destruct (f (db_clock db) (tables db)) as [[t' a]|] eqn:Hr; simpl;
     [by eapply Hf | apply only_for_refl]).
Qed.

Lemma call_clock {A : Type} (f : Z -> Tables -> option (Tables * A)) (db : DB) :
  db_clock (snd (call f db)) = db_clock db.
Proof.
  unfold call. destruct (db_faults db) as [|[|] rest]; simpl; try done;
    by destruct (f (db_clock db) (tables db)) as [[t' a]|].
Qed.

Lemma call_Some {A : Type} (f : Z -> Tables -> option (Tables * A)) (db : DB) a :
  fst (call f db) = Some a ->
  f (db_clock db) (tables db) = Some (tables (snd (call f db)), a).
Proof.
  unfold call. destruct (db_faults db) as [|[|] rest]; simpl; try done;
    (destruct (f (db_clock db) (tables db)) as [[t' a']|]; simpl; [| done];
     intros Ha; by inversion Ha).
Qed.

Lemma call_None {A : Type} (f : Z -> Tables -> option (Tables * A)) (db : DB) :
  fst (call f db) = None -> tables (snd (call f db)) = tables db.
Proof.
  unfold call. destruct (db_faults db) as [|[|] rest]; simpl; try done;
    by destruct (f (db_clock db) (tables db)) as [[t' a']|].
Qed.

Lemma FirstPreload_Some (id : Z) (db : DB) (s : Subscriber) :
  fst (FirstPreload id db) = Some s ->
  0 <= id /\ ID s = Z.to_N id
  /\ SubscriberTypes s = Some (children_of (tables db) (Z.to_N id))
  /\ is_Some (subscribers (tables db) !! Z.to_N id).
Proof.
  intros Hf. apply call_Some in Hf.
  destruct (id <? 0) eqn:Hneg; [discriminate |]. apply Z.ltb_ge in Hneg.
  destruct (subscribers (tables db) !! Z.to_N id) as [r|] eqn:Hr; [| discriminate].
  inversion Hf; subst. simpl. by eauto.
Qed.

Lemma DeleteTypesWhere_only_for sid id db :
  only_for sid (tables db) (tables (snd (DeleteTypesWhere id db))).
Proof.
  apply call_only_for. intros t' a Ha. inversion Ha; subst.
  apply delete_types_of_only_for.
Qed.

Lemma CreateTypes_only_for sid (l : list SubscriberType) db :
  only_for sid (tables db) (tables (snd (CreateTypes (map (repoint sid) l) db))).
Proof.
  apply call_only_for. intros t' a Ha.
  eapply insert_types_only_for; [apply Forall_repoint | exact Ha].
Qed.

Lemma Save_only_for (s : Subscriber) db :
  (ID s =? 0)%N = false ->
  only_for (ID s) (tables db) (tables (snd (Save s db))).
Proof.
  intros Hz. apply call_only_for. intros t' a Ha.
  by eapply save_subscriber_only_for.
Qed.

Lemma overwrite_types_only_for (existing updates : Subscriber) db :
  only_for (ID existing) (tables db)
    (tables (snd (overwrite_types existing updates db))).
Proof.
  unfold overwrite_types.
  destruct (negb (is_nil (SubscriberTypes updates))
            && (0 <? slice_len (SubscriberTypes updates))%nat).
  - unfold mbind, m_bind.
    pose proof (DeleteTypesWhere_only_for (ID existing) (ID existing) db) as H1.
    destruct (DeleteTypesWhere (ID existing) db) as [[[]|] db1]; simpl in *; [| done].
    pose proof (CreateTypes_only_for (ID existing)
                  (slice_elems (SubscriberTypes updates)) db1) as H2.
    destruct (CreateTypes _ db1) as [[l|] db2]; simpl in *;
      by eapply only_for_trans.
  - destruct (negb (is_nil (SubscriberTypes updates))
              && (slice_len (SubscriberTypes updates) =? 0)%nat).
    + unfold mbind, m_bind.
      pose proof (DeleteTypesWhere_only_for (ID existing) (ID existing) db) as H1.
      by destruct (DeleteTypesWhere (ID existing) db) as [[[]|] db1].
    + apply only_for_refl.
Qed.

(** Whatever the body and whatever fails on the way, the rows that
    [UpdateSubscriber] leaves changed belong to the subscriber of the
    path. *)
Lemma UpdateSubscriber_only_for (idParam : string) (body : option Subscriber) db :
  subscribers (tables db) !! 0%N = None ->
  match GoStr.Atoi idParam with
  | Some id =>
      only_for (Z.to_N id) (tables db) (tables (snd (UpdateSubscriber idParam body db)))
  | None => tables (snd (UpdateSubscriber idParam body db)) = tables db
  end.
Proof.
  intros Hzero. unfold UpdateSubscriber.
  destruct (GoStr.Atoi idParam) as [id|]; [| reflexivity].
  unfold mbind, m_bind.
  pose proof (FirstPreload_tables id db) as Ht1.
  pose proof (FirstPreload_Some id db) as Hs1.
  destruct (FirstPreload id db) as [[existing|] db1]; simpl in *;
    [| rewrite Ht1; apply only_for_refl].
  destruct (Hs1 existing eq_refl) as (Hid & Hex & _ & Hrow).
  rewrite <- Ht1.
  destruct body as [updates|]; [| apply only_for_refl].
  destruct (validateSubscriberFields updates); [apply only_for_refl |].
  set (existing' := mkSubscriber (ID existing) (Email updates) (Name updates)
                      (SubscriberTypes existing) (CreatedAt existing)
                      (UpdatedAt existing)).
  pose proof (overwrite_types_only_for existing' updates db1) as H2.
  destruct (overwrite_types existing' updates db1) as [[early|] db2]; simpl in *;
    [by rewrite <- Hex |].
  assert ((ID existing' =? 0)%N = false) as Hnz.
  { apply N.eqb_neq. simpl. rewrite Hex. intros H0. rewrite H0, Hzero in Hrow.
    by destruct Hrow. }
  pose proof (Save_only_for existing' db2 Hnz) as H3.
  assert (only_for (Z.to_N id) (tables db1) (tables (snd (Save existing' db2)))) as H4
    by (rewrite <- Hex; by eapply only_for_trans).
  destruct (Save existing' db2) as [[saved|] db3]; simpl in *; [| exact H4].
  pose proof (FirstPreload_tables (Z.of_N (ID saved)) db3) as Ht4.
  destruct (FirstPreload (Z.of_N (ID saved)) db3) as [[loaded|] db4]; simpl in *;
    by rewrite Ht4.
Qed.

Lemma CreateSubscriber_only_for (body : option Subscriber) db :
  tables (snd (CreateSubscriber body db)) = tables db
  \/ exists sid,
       only_for sid (tables db) (tables (snd (CreateSubscriber body db)))
       /\ subscribers (tables db) !! sid = None
       /\ is_Some (subscribers (tables (snd (CreateSubscriber body db))) !! sid).
Proof.
  unfold CreateSubscriber. destruct body as [subscriber|]; [| by left].
  destruct (validateSubscriberFields subscriber); [by left |].
  unfold mbind, m_bind.
  pose proof (call_Some (fun now t => create_subscriber now t subscriber) db) as Hs.
  pose proof (call_None (fun now t => create_subscriber now t subscriber) db) as Hn.
  fold (Create subscriber) in Hs, Hn.
  destruct (Create subscriber db) as [[created|] db1]; simpl in *; [| left; by apply Hn].
  specialize (Hs created eq_refl).
  apply create_subscriber_only_for in Hs as (Ho & Hfree & Hnew).
  pose proof (FirstPreload_tables (Z.of_N (ID created)) db1) as Ht.
  destruct (FirstPreload (Z.of_N (ID created)) db1) as [[loaded|] db2]; simpl in *;
    right; exists (ID created); by rewrite Ht.
Qed.

Lemma DeleteSubscriber_types (idParam : string) db k row :
  subscriber_types (tables (snd (DeleteSubscriber idParam db))) !! k = Some row ->
  subscriber_types (tables db) !! k = Some row.
Proof.
  unfold DeleteSubscriber. destruct (GoStr.Atoi idParam) as [id|]; [| done].
  unfold mbind, m_bind.
  assert (tables (snd (First id db)) = tables db) as Ht1.
  { unfold First, call. destruct (db_faults db) as [|[|] rest]; simpl; try done;
      (destruct (id <? 0); [done |]);
      by destruct (subscribers (tables db) !! Z.to_N id). }
  destruct (First id db) as [[subscriber|] db1]; simpl in *; [| by rewrite Ht1].
  rewrite <- Ht1.
  pose proof (DeleteTypesWhere_only_for 0%N (ID subscriber) db1) as H2.
  assert (forall k row, subscriber_types (tables (snd (DeleteTypesWhere (ID subscriber) db1)))
                          !! k = Some row ->
                        subscriber_types (tables db1) !! k = Some row) as H2'.
  { clear. intros k row. unfold DeleteTypesWhere, call.
    destruct (db_faults db1) as [|[|] rest]; simpl; try done;
      intros Hk; by apply map_lookup_filter_Some in Hk as [Hk _]. }
  destruct (DeleteTypesWhere (ID subscriber) db1) as [[[]|] db2]; simpl in *;
    [| by apply H2'].
  assert (subscriber_types (tables (snd (Delete subscriber db2)))
          = subscriber_types (tables db2)) as H3.
  { unfold Delete, call. destruct (db_faults db2) as [|[|] rest]; simpl; try done;
      by destruct (delete_subscriber (tables db2) (ID subscriber)) as [t'|] eqn:Hd;
        [unfold delete_subscriber in Hd;
         destruct (children_of (tables db2) (ID subscriber)); inversion Hd |]. }
  destruct (Delete subscriber db2) as [[[]|] db3]; simpl in *;
    rewrite H3; by apply H2'.
Qed.

(** C10: the rows of [subscriber_types] that [UpdateSubscriber] writes carry
    the id of the path as their [subscriber_id], whatever [subscriber_id]
    the body supplied; and no handler attaches a row to a subscriber other
    than the one its request addresses: [CreateSubscriber] writes rows for
    the subscriber it creates only, [DeleteSubscriber] and the two reads
    write none.  (Keys of [subscribers] start at 1.) *)
Theorem written_rows_belong_to_addressed_subscriber (db : DB) :
  subscribers (tables db) !! 0%N = None ->
  (forall idParam body k row,
      written (tables db) (tables (snd (UpdateSubscriber idParam body db))) k row ->
      exists id, GoStr.Atoi idParam = Some id /\ t_subscriber_id row = Z.to_N id)
  /\ (forall body k row,
        written (tables db) (tables (snd (CreateSubscriber body db))) k row ->
        subscribers (tables db) !! t_subscriber_id row = None
        /\ is_Some (subscribers (tables (snd (CreateSubscriber body db)))
                      !! t_subscriber_id row))
  /\ (forall idParam k row,
        ~ written (tables db) (tables (snd (DeleteSubscriber idParam db))) k row)
  /\ (forall idParam, tables (snd (GetSubscriber idParam db)) = tables db)
  /\ tables (snd (GetAllSubscribers db)) = tables db.
Proof.
  intros Hzero. split; [| split; [| split; [| split]]].
  - intros idParam body k row [Hk Hold].
    pose proof (UpdateSubscriber_only_for idParam body db Hzero) as Hu.
    destruct (GoStr.Atoi idParam) as [id|].
    + exists id. split; [reflexivity |].
      destruct (Hu k row Hk) as [Hsame|Hfor]; [done | exact Hfor].
    + rewrite Hu in Hk. done.
  - intros body k row [Hk Hold].
    destruct (CreateSubscriber_only_for body db) as [Hsame|(sid & Ho & Hfree & Hnew)].
    + rewrite Hsame in Hk. done.
    + destruct (Ho k row Hk) as [Hs|Hfor]; [done |]. by rewrite Hfor.
  - intros idParam k row [Hk Hold]. by apply DeleteSubscriber_types in Hk.
  - intros idParam. unfold GetSubscriber.
    destruct (GoStr.Atoi idParam) as [id|]; [| done].
    unfold mbind, m_bind. pose proof (FirstPreload_tables id db) as Ht.
    by destruct (FirstPreload id db) as [[found|] db1].
  - unfold GetAllSubscribers, mbind, m_bind, FindPreload, call.
    by destruct (db_faults db) as [|[|] rest].
Qed.

End OwnershipFacts.

(* ===================================================================== *)
(** ** What [Save] does to the types a subscriber had *)
(* ===================================================================== *)

Section SaveFacts.
Import Models Http Gorm Handlers Props.

Lemma insert_type_keeps now upsert sid t c t' c' k :
  st_SubscriberID c = sid ->
  insert_type now upsert t c = Some (t', c') ->
  present sid t k -> present sid t' k.
Proof.
  unfold insert_type, present. intros Hc Hi (row & Hrow & Hfk).
  destruct (negb (enum_ok (st_Name c))); [discriminate |].
  destruct (negb (bool_decide (is_Some (subscribers t !! st_SubscriberID c))));
    [discriminate |].
  destruct (st_ID c =? 0)%N.
  - destruct (subscriber_types t !! subscriber_types_seq t) eqn:Hs; [discriminate |].
    inversion Hi; subst t' c'. exists row. split; [| exact Hfk]. simpl.
    rewrite lookup_insert_ne; [done |]. intros Heq. rewrite Heq in Hs. congruence.
  - destruct (subscriber_types t !! st_ID c) as [old|] eqn:Hs.
    + destruct upsert; [| discriminate]. inversion Hi; subst t' c'. simpl.
      destruct (decide (st_ID c = k)) as [Heq|Hne].
      * subst k. eexists. split; [simpl; apply lookup_insert_eq | exact Hc].
      * exists row. by rewrite lookup_insert_ne.
    + inversion Hi; subst t' c'. exists row. split; [| exact Hfk]. simpl.
      rewrite lookup_insert_ne; [done |]. intros Heq. rewrite Heq in Hs. congruence.
Qed.

Lemma insert_types_keeps now upsert sid l : forall t t' l' k,
  Forall (fun c => st_SubscriberID c = sid) l ->
  insert_types now upsert t l = Some (t', l') ->
  present sid t k -> present sid t' k.
Proof.
  induction l as [|c l IH]; intros t t' l' k Hall Hi Hp; simpl in Hi.
  - by inversion Hi; subst.
  - inversion Hall as [|? ? Hc Hl]; subst.
    destruct (insert_type now upsert t c) as [[t1 c1]|] eqn:H1; [| discriminate].
    destruct (insert_types now upsert t1 l) as [[t2 l2]|] eqn:H2; [| discriminate].
    inversion Hi; subst. eapply IH; [exact Hl | exact H2 |].
    by eapply insert_type_keeps.
Qed.

(** A child with a key of its own is there once the upsert went through. *)
Lemma insert_type_adds now sid t c t' c' :
  st_SubscriberID c = sid -> st_ID c <> 0%N ->
  insert_type now true t c = Some (t', c') ->
  present sid t' (st_ID c).
Proof.
  unfold insert_type. intros Hc Hnz Hi.
  destruct (negb (enum_ok (st_Name c))); [discriminate |].
  destruct (negb (bool_decide (is_Some (subscribers t !! st_SubscriberID c))));
    [discriminate |].
  apply N.eqb_neq in Hnz. rewrite Hnz in Hi.
  destruct (subscriber_types t !! st_ID c) as [old|];
    inversion Hi; subst t' c'; eexists;
    (split; [simpl; apply lookup_insert_eq | exact Hc]).
Qed.

Lemma insert_types_adds now sid l : forall t t' l' c,
  Forall (fun c => st_SubscriberID c = sid) l ->
  insert_types now true t l = Some (t', l') ->
  In c l -> st_ID c <> 0%N ->
  present sid t' (st_ID c).
Proof.
  induction l as [|d l IH]; intros t t' l' c Hall Hi Hin Hnz; [destruct Hin |].
  simpl in Hi. inversion Hall as [|? ? Hd Hl]; subst.
  destruct (insert_type now true t d) as [[t1 d1]|] eqn:H1; [| discriminate].
  destruct (insert_types now true t1 l) as [[t2 l2]|] eqn:H2; [| discriminate].
  inversion Hi; subst. destruct Hin as [->|Hin].
  - eapply insert_types_keeps; [exact Hl | exact H2 |].
    by eapply insert_type_adds.
  - by eapply IH.
Qed.

Lemma insert_types_subscribers now upsert l : forall t t' l',
  insert_types now upsert t l = Some (t', l') -> subscribers t' = subscribers t.
Proof.
  induction l as [|c l IH]; intros t t' l' Hi; simpl in Hi; [by inversion Hi |].
  destruct (insert_type now upsert t c) as [[t1 c1]|] eqn:H1; [| discriminate].
  destruct (insert_types now upsert t1 l) as [[t2 l2]|] eqn:H2; [| discriminate].
  inversion Hi; subst. apply insert_type_only_for in H1 as [Hs1 _].
  by rewrite (IH _ _ _ H2).
Qed.

Lemma children_of_In (t : Tables) (id k : N) (row : TypeRow) :
  subscriber_types t !! k = Some row -> t_subscriber_id row = id ->
  In (type_of_row k row) (children_of t id).
Proof.
  intros Hk Hfk. unfold children_of. apply list_elem_of_In.
  apply (list_elem_of_fmap_2 (fun p => type_of_row p.1 p.2) _ (k, row)).
  apply list_elem_of_filter. split; [done |]. by apply elem_of_map_to_list.
Qed.

Lemma overwrite_types_subscribers (existing updates : Subscriber) db :
  subscribers (tables (snd (overwrite_types existing updates db)))
  = subscribers (tables db).
Proof.
  assert (forall id db0, subscribers (tables (snd (DeleteTypesWhere id db0)))
                         = subscribers (tables db0)) as Hdel.
  { intros id db0. unfold DeleteTypesWhere, call.
    by destruct (db_faults db0) as [|[|] rest]. }
  assert (forall l db0, subscribers (tables (snd (CreateTypes l db0)))
                        = subscribers (tables db0)) as Hcre.
  { intros l db0. unfold CreateTypes, call.
    destruct (db_faults db0) as [|[|] rest]; simpl; try done;
      (destruct (insert_types _ _ _ _) as [[t' a]|] eqn:Hi; simpl; [| done]);
      by apply insert_types_subscribers in Hi. }
  unfold overwrite_types.
  destruct (negb (is_nil (SubscriberTypes updates))
            && (0 <? slice_len (SubscriberTypes updates))%nat).
  - unfold mbind, m_bind. pose proof (Hdel (ID existing) db) as H1.
    destruct (DeleteTypesWhere (ID existing) db) as [[[]|] db1]; simpl in *; [| done].
    pose proof (Hcre (map (repoint (ID existing)) (slice_elems (SubscriberTypes updates)))
                  db1) as H2.
    destruct (CreateTypes _ db1) as [[l|] db2]; simpl in *; by rewrite H2.
  - destruct (negb (is_nil (SubscriberTypes updates))
              && (slice_len (SubscriberTypes updates) =? 0)%nat); [| done].
    unfold mbind, m_bind. pose proof (Hdel (ID existing) db) as H1.
    by destruct (DeleteTypesWhere (ID existing) db) as [[[]|] db1].
Qed.

Lemma overwrite_types_early (existing updates : Subscriber) db (r : Response) :
  fst (overwrite_types existing updates db) = Some r ->
  status r = StatusInternalServerError.
Proof.
  unfold overwrite_types.
  destruct (negb (is_nil (SubscriberTypes updates))
            && (0 <? slice_len (SubscriberTypes updates))%nat).
  - unfold mbind, m_bind.
    destruct (DeleteTypesWhere (ID existing) db) as [[[]|] db1]; simpl.
    + destruct (CreateTypes _ db1) as [[l|] db2]; simpl; [discriminate |].
      intros Hr. by inversion Hr.
    + intros Hr. by inversion Hr.
  - destruct (negb (is_nil (SubscriberTypes updates))
              && (slice_len (SubscriberTypes updates) =? 0)%nat); [| discriminate].
    unfold mbind, m_bind.
    destruct (DeleteTypesWhere (ID existing) db) as [[[]|] db1]; simpl; [discriminate |].
    intros Hr. by inversion Hr.
Qed.

(** Whatever the body says about types, a successful [UpdateSubscriber]
    leaves every type the subscriber had in place: the rows it removed are
    written back by [Save]. *)
Lemma UpdateSubscriber_old_types_survive (idParam : string) (body : option Subscriber)
    (db : DB) (id : Z) (k : N) (row : TypeRow) :
  subscribers (tables db) !! 0%N = None ->
  GoStr.Atoi idParam = Some id ->
  subscriber_types (tables db) !! k = Some row ->
  t_subscriber_id row = Z.to_N id ->
  k <> 0%N ->
  status (fst (UpdateSubscriber idParam body db)) = StatusOK ->
  present (Z.to_N id) (tables (snd (UpdateSubscriber idParam body db))) k.
Proof.
  intros Hzero Hid Hk Hfk Hnz. unfold UpdateSubscriber. rewrite Hid.
  unfold mbind, m_bind.
  pose proof (FirstPreload_tables id db) as Ht1.
  pose proof (FirstPreload_Some id db) as Hs1.
  destruct (FirstPreload id db) as [[existing|] db1]; simpl in *; [| discriminate].
  destruct (Hs1 existing eq_refl) as (Hpos & Hex & Hchildren & Hrow).
  destruct body as [updates|]; [| discriminate].
  destruct (validateSubscriberFields updates); [discriminate |].
  set (existing' := mkSubscriber (ID existing) (Email updates) (Name updates)
                      (SubscriberTypes existing) (CreatedAt existing)
                      (UpdatedAt existing)).
  pose proof (overwrite_types_subscribers existing' updates db1) as Hsub.
  pose proof (overwrite_types_early existing' updates db1) as Hearly.
  destruct (overwrite_types existing' updates db1) as [[early|] db2]; simpl in *.
  { rewrite (Hearly early eq_refl). discriminate. }
  pose proof (call_Some (fun now t => save_subscriber now t existing') db2) as Hsave.
  fold (Save existing') in Hsave.
  destruct (Save existing' db2) as [[saved|] db3]; simpl in *; [| discriminate].
  specialize (Hsave saved eq_refl).
  pose proof (FirstPreload_tables (Z.of_N (ID saved)) db3) as Ht4.
  destruct (FirstPreload (Z.of_N (ID saved)) db3) as [[loaded|] db4]; simpl in *;
    [| discriminate].
  intros _. rewrite Ht4.
  unfold save_subscriber in Hsave. simpl in Hsave.
  assert ((ID existing =? 0)%N = false) as Hnz'.
  { apply N.eqb_neq. rewrite Hex. intros H0. rewrite H0, Hzero in Hrow.
    by destruct Hrow. }
  rewrite Hnz' in Hsave. rewrite Hsub, Ht1, Hex in Hsave.
  destruct Hrow as [r Hr]. rewrite Hr in Hsave.
  rewrite Hchildren in Hsave. unfold save_associations in Hsave.
  destruct (insert_types _ true _ _) as [[t3 l3]|] eqn:Hi; [| discriminate].
  inversion Hsave; subst t3.
  pose proof (insert_types_adds _ _ _ _ _ _ (repoint (Z.to_N id) (type_of_row k row))
                (Forall_repoint _ _) Hi) as Hadd.
  apply Hadd; [| done].
  apply in_map. by apply children_of_In.
Qed.

Lemma children_of_elem (t : Tables) (id : N) (c : SubscriberType) :
  In c (children_of t id) ->
  exists k row,
    subscriber_types t !! k = Some row /\ t_subscriber_id row = id
    /\ c = type_of_row k row.
Proof.
  unfold children_of. intros Hin. apply list_elem_of_In in Hin.
  apply list_elem_of_fmap in Hin as ([k row] & -> & Hin).
  apply list_elem_of_filter in Hin as [Hfk Hin].
  apply elem_of_map_to_list in Hin. by exists k, row.
Qed.

(** Saving back children that are in the table as they are changes no
    row. *)
Lemma insert_types_noop now l : forall t t' l',
  Forall (fun c => st_ID c <> 0%N
                   /\ subscriber_types t !! st_ID c = Some (row_of_type c)) l ->
  insert_types now true t l = Some (t', l') ->
  subscriber_types t' = subscriber_types t.
Proof.
  induction l as [|c l IH]; intros t t' l' Hall Hi; simpl in Hi; [by inversion Hi |].
  inversion Hall as [|? ? [Hnz Hc] Hl]; subst.
  destruct (insert_type now true t c) as [[t1 c1]|] eqn:H1; [| discriminate].
  destruct (insert_types now true t1 l) as [[t2 l2]|] eqn:H2; [| discriminate].
  inversion Hi; subst.
  assert (subscriber_types t1 = subscriber_types t) as Hsame.
  { unfold insert_type in H1.
    destruct (negb (enum_ok (st_Name c))); [discriminate |].
    destruct (negb (bool_decide (is_Some (subscribers t !! st_SubscriberID c))));
      [discriminate |].
    apply N.eqb_neq in Hnz. rewrite Hnz, Hc in H1. inversion H1; subst. simpl.
    apply insert_id. rewrite Hc. by destruct c. }
  rewrite <- Hsame. apply (IH _ _ _ ltac:(by rewrite Hsame) H2).
Qed.

(** The part of C6 on an omitted list: when the body carries no type list
    the rows of [subscriber_types] are the same after the update, however
    it ends.  (Keys start at 1.) *)
Lemma UpdateSubscriber_omitted_types_untouched (idParam : string)
    (updates : Subscriber) (db : DB) :
  SubscriberTypes updates = None ->
  subscribers (tables db) !! 0%N = None ->
  subscriber_types (tables db) !! 0%N = None ->
  subscriber_types (tables (snd (UpdateSubscriber idParam (Some updates) db)))
  = subscriber_types (tables db).
Proof.
  intros Hnil Hzero Hzero'. unfold UpdateSubscriber.
  destruct (GoStr.Atoi idParam) as [id|]; [| reflexivity].
  unfold mbind, m_bind.
  pose proof (FirstPreload_tables id db) as Ht1.
  pose proof (FirstPreload_Some id db) as Hs1.
  destruct (FirstPreload id db) as [[existing|] db1]; simpl in *; [| by rewrite Ht1].
  destruct (Hs1 existing eq_refl) as (Hpos & Hex & Hchildren & Hrow).
  destruct (validateSubscriberFields updates); [simpl; by rewrite Ht1 |].
  unfold overwrite_types. rewrite Hnil. simpl.
  set (existing' := mkSubscriber (ID existing) (Email updates) (Name updates)
                      (SubscriberTypes existing) (CreatedAt existing)
                      (UpdatedAt existing)).
  assert (subscriber_types (tables (snd (Save existing' db1)))
          = subscriber_types (tables db)) as Hsave.
  { pose proof (call_Some (fun now t => save_subscriber now t existing') db1) as Hsome.
    pose proof (call_None (fun now t => save_subscriber now t existing') db1) as Hnone.
    fold (Save existing') in Hsome, Hnone.
    destruct (Save existing' db1) as [[saved|] db2]; simpl in *;
      [| by rewrite Hnone, Ht1].
    specialize (Hsome saved eq_refl). unfold save_subscriber in Hsome. simpl in Hsome.
    assert ((ID existing =? 0)%N = false) as Hnz.
    { apply N.eqb_neq. rewrite Hex. intros H0. rewrite H0, Hzero in Hrow.
      by destruct Hrow. }
    rewrite Hnz, Hex, Ht1 in Hsome. destruct Hrow as [r Hr]. rewrite Hr in Hsome.
    rewrite Hchildren in Hsome. unfold save_associations in Hsome.
    destruct (insert_types _ true _ _) as [[t3 l3]|] eqn:Hi; [| discriminate].
    inversion Hsome; subst t3.
    apply insert_types_noop in Hi; [exact Hi |].
    apply Forall_forall. intros c Hin.
    apply list_elem_of_fmap in Hin as (c0 & -> & Hin). apply list_elem_of_In in Hin.
    apply children_of_elem in Hin as (k & row & Hk & Hfk & ->). simpl.
    split.
    - intros H0. subst k. rewrite Hzero' in Hk. discriminate.
    - rewrite Hk. f_equal. unfold row_of_type. simpl. rewrite <- Hfk. by destruct row. }
  destruct (Save existing' db1) as [[saved|] db2]; simpl in *; [| exact Hsave].
  pose proof (FirstPreload_tables (Z.of_N (ID saved)) db2) as Ht3.
  destruct (FirstPreload (Z.of_N (ID saved)) db2) as [[loaded|] db3]; simpl in *;
    by rewrite Ht3.
Qed.

End SaveFacts.

(* ===================================================================== *)
(** ** The properties on concrete requests *)
(* ===================================================================== *)

Lemma RequireJWT_first_failing_check_wins_witness :
  Props.verify Props.quiet "devsecret|100|ghost"
    = Some (Jwt.claims (FakeJwt.parse "devsecret|100|ghost" "devsecret" 1000))
  /\ Eff.redis Props.quiet !! ("session:ghost"%string) = None
  /\ fst (Eff.run (Middleware.RequireJWT Props.orphan_header) Props.quiet)
     = Props.unauthorized "Session not found or expired".
Proof.
  split; [vm_compute; reflexivity |]. split; [reflexivity |].
  apply (proj2 (RequireJWT_first_failing_check_wins Props.orphan_header Props.quiet)
           "devsecret|100|ghost"%string
           (Jwt.claims (FakeJwt.parse "devsecret|100|ghost" "devsecret" 1000))
           "ghost"%string).
  - reflexivity.
  - vm_compute; reflexivity.
  - vm_compute; reflexivity.
  - reflexivity.
Defined.

Lemma RequireJWT_deny_status_uniform_witness :
  fst (Eff.run (Middleware.RequireJWT Props.forged_header) Props.quiet)
    = Props.unauthorized "Invalid or expired token"
  /\ Http.status (Http.error_json Http.StatusUnauthorized "Invalid or expired token")
     = Http.StatusUnauthorized.
Proof.
  split; [vm_compute; reflexivity |].
  apply (RequireJWT_deny_status_uniform Props.forged_header Props.quiet).
  vm_compute; reflexivity.
Defined.

(** C3, as stated, fails: a run that fails verification and a run that
    fails the session lookup are both denied, for the reasons of step 3 and
    step 5, and their responses differ. *)
Lemma RequireJWT_deny_bodies_differ :
  Props.Authorize Props.forged_header (Props.verify Props.quiet) (Props.lookup Props.quiet)
    = Props.Deny Props.InvalidOrExpired
  /\ Props.Authorize Props.orphan_header (Props.verify Props.quiet) (Props.lookup Props.quiet)
     = Props.Deny Props.SessionNotFound
  /\ fst (Eff.run (Middleware.RequireJWT Props.forged_header) Props.quiet)
     <> fst (Eff.run (Middleware.RequireJWT Props.orphan_header) Props.quiet).
Proof.
  split; [vm_compute; reflexivity |]. split; [vm_compute; reflexivity |].
  vm_compute. discriminate.
Qed.


(** C2 fails when Redis does not carry out the removal: [VerifySignIn] drops
    the error of [DeleteKey], so with the GET answered, the DEL failing and
    the SET answered the first call succeeds, the code is still stored, and
    a second call with the same e-mail and code succeeds again. *)
Theorem VerifySignIn_replay_when_delete_fails :
  let '(first, w') := Eff.run (Signin.VerifySignIn Props.verify_request)
                        (Props.issued [false; true]) in
  Http.status first = Http.StatusOK
  /\ Redis.get (Eff.clock w') (Eff.redis w') "signin_code:a@b.com" = ("654321"%string, None)
  /\ Http.status (fst (Eff.run (Signin.VerifySignIn Props.verify_request) w'))
     = Http.StatusOK.
Proof. vm_compute. repeat split; reflexivity. Qed.

Lemma VerifySignIn_session_write_failure_witness :
  Eff.redis_faults (Props.issued [false; false; true]) = [false; false; true]
  /\ fst (Eff.run (Signin.VerifySignIn Props.verify_request)
            (Props.issued [false; false; true]))
     = Http.error_json Http.StatusInternalServerError "Could not store session".
Proof.
  split; [reflexivity |].
  generalize (VerifySignIn_session_write_failure (Props.issued [false; false; true])
                "a@b.com" "654321" []
                ltac:(discriminate) ltac:(discriminate) eq_refl
                ltac:(vm_compute; reflexivity)).
  cbv zeta. unfold Props.verify_request.
  destruct (Eff.run _ _) as [response w']. intros [Hr _]. exact Hr.
Defined.

(** C9, as stated, fails when the store is already failing at the removal:
    the DEL and the SET both fail, the handler answers with the server
    error, and the code is still there, so that the retry succeeds. *)
Lemma VerifySignIn_retry_succeeds_after_failed_delete :
  let '(response, w') := Eff.run (Signin.VerifySignIn Props.verify_request)
                           (Props.issued [false; true; true]) in
  response = Http.error_json Http.StatusInternalServerError "Could not store session"
  /\ Http.status (fst (Eff.run (Signin.VerifySignIn Props.verify_request) w'))
     = Http.StatusOK
  /\ fst (Eff.run (Signin.VerifySignIn Props.verify_request) w') <> Props.no_code.
Proof. vm_compute. split; [reflexivity | split; [reflexivity | discriminate]]. Qed.

Lemma VerifySignIn_get_then_delete_witness :
  Redis.get (Eff.clock (Props.issued [])) (Eff.redis (Props.issued []))
    (Signin.signInCodeKey "a@b.com") = ("654321"%string, None)
  /\ (let '(first, second, _) :=
         Eff.run_both [] (Props.issued []) (Signin.VerifySignIn Props.verify_request)
           (Signin.VerifySignIn Props.verify_request) in
       Http.status first = Http.StatusOK /\ second = Props.no_code).
Proof.
  split; [vm_compute; reflexivity |].
  apply (VerifySignIn_get_then_delete (Props.issued []) "a@b.com" "654321"
           ltac:(discriminate) ltac:(discriminate) eq_refl
           ltac:(vm_compute; reflexivity)
           (fun c secret => ex_intro _ _ eq_refl)).
Defined.

(** C4, as stated, fails: when the GET of the second call is served between
    the GET and the DEL of the first, both calls see the code and both
    succeed. *)
Lemma VerifySignIn_race_both_succeed :
  let '(first, second, _) :=
    Eff.run_both [true; false] (Props.issued [])
      (Signin.VerifySignIn Props.verify_request)
      (Signin.VerifySignIn Props.verify_request) in
  Http.status first = Http.StatusOK /\ Http.status second = Http.StatusOK.
Proof. vm_compute. split; reflexivity. Qed.


Lemma written_rows_belong_to_addressed_subscriber_witness :
  Gorm.subscribers (Gorm.tables Props.two_types) !! 0%N = None
  /\ Props.written (Gorm.tables Props.two_types)
       (Gorm.tables (snd (Handlers.UpdateSubscriber "1"
                            (Props.update_body (Some [Props.driver])) Props.two_types)))
       12 (Gorm.mkTypeRow 1 "driver" 100 100)
  /\ exists id, GoStr.Atoi "1" = Some id
               /\ Gorm.t_subscriber_id (Gorm.mkTypeRow 1 "driver" 100 100) = Z.to_N id.
Proof.
  assert (Props.written (Gorm.tables Props.two_types)
            (Gorm.tables (snd (Handlers.UpdateSubscriber "1"
                                 (Props.update_body (Some [Props.driver]))
                                 Props.two_types)))
            12 (Gorm.mkTypeRow 1 "driver" 100 100)) as Hw
    by (split; vm_compute; [reflexivity | discriminate]).
  split; [reflexivity |]. split; [exact Hw |].
  exact (proj1 (written_rows_belong_to_addressed_subscriber Props.two_types eq_refl)
           "1"%string (Props.update_body (Some [Props.driver])) 12%N _ Hw).
Defined.

(** C6 fails on a subscriber that has types: [UpdateSubscriber] removes
    the old rows and inserts the new ones, and then saves [existing], which
    still holds the old types from its preload, so that GORM writes them
    back.  With the types [shopper] and [business], an update to [driver]
    answers 200 with all three, and an update to the empty list answers
    200 with the two old ones. *)
Theorem UpdateSubscriber_keeps_old_types :
  (let '(response, db') :=
     Handlers.UpdateSubscriber "1" (Props.update_body (Some [Props.driver]))
       Props.two_types in
   Http.status response = Http.StatusOK
   /\ Permutation (Props.names_in response) ["shopper"; "business"; "driver"]%string
   /\ Gorm.subscriber_types (Gorm.tables db') !! 10%N
      = Some (Gorm.mkTypeRow 1 "shopper" 7 7)
   /\ Gorm.subscriber_types (Gorm.tables db') !! 11%N
      = Some (Gorm.mkTypeRow 1 "business" 7 7)
   /\ Gorm.subscriber_types (Gorm.tables db') !! 12%N
      = Some (Gorm.mkTypeRow 1 "driver" 100 100))
  /\ (let '(response, db') :=
       Handlers.UpdateSubscriber "1" (Props.update_body (Some [])) Props.two_types in
     Http.status response = Http.StatusOK
     /\ Permutation (Props.names_in response) ["shopper"; "business"]%string
     /\ Gorm.subscriber_types (Gorm.tables db')
        = Gorm.subscriber_types (Gorm.tables Props.two_types)).
Proof.
  split.
  - vm_compute. repeat split; try reflexivity.
    apply perm_skip, perm_swap.
  - split; [vm_compute; reflexivity |]. split.
    + vm_compute. reflexivity.
    + vm_compute. reflexivity.
Qed.

(* ===================================================================== *)
(** ** The tests of the repository, replayed *)
(* ===================================================================== *)

(** [TestSignInVerify_RepeatedUse]: 200, then 400 once the code is gone. *)
Example test_SignInVerify_RepeatedUse :
  let '(first, w') := Eff.run (Signin.VerifySignIn Props.verify_request)
                        (Props.issued []) in
  Http.status first = Http.StatusOK
  /\ Eff.redis w' !! "signin_code:a@b.com"%string = None
  /\ fst (Eff.run (Signin.VerifySignIn Props.verify_request) w') = Props.no_code.
Proof. vm_compute. repeat split; reflexivity. Qed.

(** [TestValidTokenWithSession], [TestValidTokenNoSession], [TestNoToken]
    and [TestInvalidTokenFormat]. *)
Example test_RequireJWT :
  fst (Eff.run (Middleware.RequireJWT (Some "Bearer devsecret|100|validSessionTest"%string))
         Props.with_session) = Http.Next
  /\ fst (Eff.run (Middleware.RequireJWT (Some "Bearer devsecret|100|nonexistent"%string))
           Props.with_session)
     = Props.unauthorized "Session not found or expired"
  /\ fst (Eff.run (Middleware.RequireJWT None) Props.with_session)
     = Props.unauthorized "Missing Authorization header"
  /\ fst (Eff.run (Middleware.RequireJWT (Some "InvalidToken"%string)) Props.with_session)
     = Props.unauthorized "Invalid token format".
Proof. vm_compute. repeat split; reflexivity. Qed.

(** [UpdateSubscriber - Success]: the subscriber of the test has no type
    before the update, and has the one of the body after it. *)
Example test_UpdateSubscriber_Success :
  let response :=
    fst (Handlers.UpdateSubscriber "1"
           (Some (Models.mkSubscriber 0 "new-email@example.com" "New Name"
                    (Some [Models.mkSubscriberType 0 0 "developer" 0 0]) 0 0))
           Props.no_types) in
  Http.status response = Http.StatusOK
  /\ Props.names_in response = ["developer"%string].
Proof. vm_compute. split; reflexivity. Qed.

(** [UpdateSubscriber - Not Found] and [UpdateSubscriber - Invalid Email]. *)
Example test_UpdateSubscriber_rejections :
  Http.status (fst (Handlers.UpdateSubscriber "999"
                      (Some (Models.mkSubscriber 0 "updated@example.com" "Updater" None 0 0))
                      Props.no_types)) = Http.StatusNotFound
  /\ Http.status (fst (Handlers.UpdateSubscriber "1"
                        (Some (Models.mkSubscriber 0 "invalidEmail" "Updated Tester"
                                 None 0 0))
                        Props.no_types)) = Http.StatusBadRequest.
Proof. vm_compute. split; reflexivity. Qed.

(* ===================================================================== *)
(** ** Sign-in: issuing a code, guessing it, opening a session *)
(* ===================================================================== *)

Section SignInRequestFacts.
Import Eff Http Redisclient Middleware Signin Props Cover.
Context `{Jwt.Lib}.

Lemma Sprintf_06d_nonempty (n : Z) : GoStr.Sprintf_06d n <> EmptyString.
Proof.
  unfold GoStr.Sprintf_06d. destruct (n <? 0); [discriminate |].
  intros Heq. apply (f_equal String.length) in Heq. rewrite length_app in Heq.
  unfold GoStr.FormatUint in Heq.
  pose proof (decimal_digits_length_ge (N.to_nat (N.log2 (Z.abs_N n))) (Z.abs_N n)
                EmptyString) as Hlt.
  simpl in Heq, Hlt. lia.
Qed.

Lemma generateSixDigitCode_nonempty (w : World) :
  fst (run generateSixDigitCode w) <> EmptyString.
Proof.
  rewrite generateSixDigitCode_run.
  destruct (rand_fails w); cbv zeta; apply Sprintf_06d_nonempty.
Qed.

(** Drawing a code leaves the store, the clock and the mails alone. *)
Lemma generateSixDigitCode_world (w : World) :
  let w1 := snd (run generateSixDigitCode w) in
  redis w1 = redis w /\ redis_faults w1 = redis_faults w /\ clock w1 = clock w
  /\ outbox w1 = outbox w /\ mail_faults w1 = mail_faults w /\ environ w1 = environ w.
Proof.
  unfold generateSixDigitCode. simpl. unfold rand_read.
  destruct (pop (rand_faults w)) as [[|] rest]; simpl; done.
Qed.

(** The run of [RequestSignIn] on a body with an address, call by call. *)
Lemma RequestSignIn_run (w : World) (email : string) :
  email <> EmptyString ->
  run (RequestSignIn (Some (mkRequestBody email))) w =
    let '(code, w1) := run generateSixDigitCode w in
    let '(err, w2) := redis_set w1 (signInCodeKey email) code (5 * GoTime.Minute) in
    if is_err err
    then (error_json StatusInternalServerError "Unable to store code in redis", w2)
    else
      let '(failed, w3) := send_mail w2 email code in
      if (failed : bool)
      then (error_json StatusInternalServerError "Failed to send email", w3)
      else (ok_json (JMap [("message"%string,
                            "A sign-in code has been emailed to you."%string)]), w3).
Proof.
  intros He. unfold RequestSignIn. cbn [rq_Email].
  apply eqb_false in He. rewrite He.
  change (run (?m ≫= ?f) w) with (run (bind m f) w).
  unfold mbind, prog_bind. rewrite run_bind.
  destruct (run generateSixDigitCode w) as [code w1].
  simpl. destruct (redis_set w1 _ _ _) as [err w2].
  destruct (is_err err); [reflexivity |].
  simpl. destruct (send_mail w2 email code) as [[|] w3]; reflexivity.
Qed.



(** Redis commands leave everything but the store and the list of its
    coming failures alone. *)
Lemma redis_get_world (w : World) (key : string) :
  beside_redis w (snd (redis_get w key))
  /\ redis (snd (redis_get w key)) = redis w
  /\ redis_faults (snd (redis_get w key)) = snd (pop (redis_faults w)).
Proof.
  unfold redis_get, beside_redis. destruct (pop (redis_faults w)) as [[|] rest]; done.
Qed.

Lemma redis_del_world (w : World) (key : string) :
  beside_redis w (snd (redis_del w key))
  /\ redis (snd (redis_del w key))
     = (if fst (pop (redis_faults w)) then redis w else delete key (redis w))
  /\ redis_faults (snd (redis_del w key)) = snd (pop (redis_faults w)).
Proof.
  unfold redis_del, beside_redis. destruct (pop (redis_faults w)) as [[|] rest]; done.
Qed.

Lemma redis_set_world (w : World) (key val : string) (e : Z) :
  beside_redis w (snd (redis_set w key val e))
  /\ fst (redis_set w key val e)
     = (if fst (pop (redis_faults w)) then Some Redis.ConnErr else None)
  /\ redis (snd (redis_set w key val e))
     = (if fst (pop (redis_faults w)) then redis w
        else Redis.set (clock w) (redis w) key val e)
  /\ redis_faults (snd (redis_set w key val e)) = snd (pop (redis_faults w)).
Proof.
  unfold redis_set, beside_redis. destruct (pop (redis_faults w)) as [[|] rest]; done.
Qed.

(** What the random source hands out depends on its own state only, and
    drawing from it leaves the rest of the world alone. *)
Lemma rand_read_world (w : World) (n : nat) :
  let w' := snd (rand_read w n) in
  redis w' = redis w /\ redis_faults w' = redis_faults w /\ clock w' = clock w
  /\ environ w' = environ w /\ outbox w' = outbox w /\ mail_faults w' = mail_faults w.
Proof.
  unfold rand_read. destruct (pop (rand_faults w)) as [[|] rest]; done.
Qed.


(** The token minted for a session key: the claims and the secret depend
    on the clock and on the environment only. *)
Lemma GenerateJWT_run (sessionKey : string) (w : World) :
  fst (run (GenerateJWT sessionKey) w)
  = Jwt.SignedString (token_claims sessionKey (clock w)) (secret_of w).
Proof. reflexivity. Qed.



(** A matching code is accepted when the store answers and the library
    signs. *)
Lemma VerifySignIn_accepts (w : World) (email code : string) :
  email <> EmptyString -> code <> EmptyString ->
  redis_faults w = [] ->
  Redis.get (clock w) (redis w) (signInCodeKey email) = (code, None) ->
  (forall c secret, is_Some (Jwt.SignedString c secret)) ->
  status (fst (run (VerifySignIn (Some (mkVerifyBody email code))) w)) = StatusOK.
Proof.
  intros He Hc Hf Hg Hsign. rewrite VerifySignIn_run by done.
  unfold redis_get. rewrite Hf. cbn [pop]. rewrite Hg.
  cbn [is_err orb]. rewrite (proj2 (eqb_false code "") Hc), eqb_refl. cbn [negb].
  unfold redis_del. cbn [with_redis redis_faults pop].
  match goal with |- context [rand_read ?w2 16] =>
    destruct (rand_read_world w2 16) as (_ & Hf3 & _);
    destruct (rand_read w2 16) as [[raw rerr] w3] end.
  cbn [fst snd redis_faults] in Hf3.
  unfold redis_set. rewrite Hf3. cbn [pop is_err redis_faults with_redis].
  rewrite GenerateJWT_run.
  match goal with |- context [Jwt.SignedString ?c ?k] =>
    destruct (Hsign c k) as [tok ->] end.
  reflexivity.
Qed.

(** A guess that differs from the stored code is refused and changes
    nothing. *)
Lemma VerifySignIn_wrong_guess (w : World) (email code guess : string) :
  redis_faults w = [] ->
  Redis.get (clock w) (redis w) (signInCodeKey email) = (code, None) ->
  guess <> code ->
  status (fst (run (VerifySignIn (Some (mkVerifyBody email guess))) w)) <> StatusOK
  /\ snd (run (VerifySignIn (Some (mkVerifyBody email guess))) w) = w.
Proof.
  intros Hf Hg Hne.
  destruct (GoStr.eqb email "" || GoStr.eqb guess "") eqn:Hempty.
  - unfold VerifySignIn. cbn [vf_Email vf_Code]. rewrite Hempty. by split.
  - apply orb_false_iff in Hempty as [He Hgs]. apply eqb_false in He, Hgs.
    rewrite VerifySignIn_run by done.
    unfold redis_get. rewrite Hf. cbn [pop]. rewrite Hg. cbn [is_err orb].
    assert (with_redis w (redis w) [] = w) as ->
      by (destruct w; simpl in Hf; by subst).
    destruct (GoStr.eqb code ""); [by split |].
    assert (GoStr.eqb code guess = false) as -> by (apply eqb_false; congruence).
    by split.
Qed.

End SignInRequestFacts.


Section SignInProperties.
Import Eff Http Redisclient Middleware Signin Props Cover.
Context `{Jwt.Lib}.

(** X1: whenever [RequestSignIn] answers 200, the code it mailed is the
    code it stored: the outbox gained exactly one mail, to the address of
    the request, carrying the generated code, and the store holds that
    code under the key of the address with an expiry five minutes after
    the request, whatever was stored there before.  A verification of
    that code against a store that answers then succeeds at any time
    before the expiry and meets the "no code" rejection from the expiry
    on. *)
Theorem RequestSignIn_code_verifies_until_expiry (w : World) (email : string) :
  (forall c secret, is_Some (Jwt.SignedString c secret)) ->
  let code := fst (run generateSixDigitCode w) in
  let request := RequestSignIn (Some (mkRequestBody email)) in
  status (fst (run request w)) = StatusOK ->
  let w' := snd (run request w) in
  outbox w' = outbox w ++ [(email, code)]
  /\ redis w' !! signInCodeKey email
     = Some (Redis.mkEntry code (Some (clock w + 5 * GoTime.Minute)))
  /\ forall now bytes rfaults,
       let answer :=
         fst (run (VerifySignIn (Some (mkVerifyBody email code)))
                (later w' [] now bytes rfaults)) in
       (now < clock w + 5 * GoTime.Minute -> status answer = StatusOK)
       /\ (clock w + 5 * GoTime.Minute <= now -> answer = no_code).
Proof.
  intros Hsign code request Hok w'.
  assert (email <> EmptyString) as He.
  { intros ->. by vm_compute in Hok. }
  pose proof (generateSixDigitCode_nonempty w) as Hcode. fold code in Hcode.
  assert (outbox w' = outbox w ++ [(email, code)]
          /\ redis w' !! signInCodeKey email
             = Some (Redis.mkEntry code (Some (clock w + 5 * GoTime.Minute))))
    as [Hout Hkey].
  { revert Hok. unfold w', request, code. rewrite RequestSignIn_run by done.
    destruct (generateSixDigitCode_world w) as (Hr & Hf & Hc & Ho & Hm & _).
    destruct (run generateSixDigitCode w) as [c w1]. cbn [fst snd] in *.
    destruct (redis_set_world w1 (signInCodeKey email) c (5 * GoTime.Minute))
      as (Hb2 & He2 & Hr2 & Hf2).
    destruct (redis_set w1 (signInCodeKey email) c (5 * GoTime.Minute)) as [err w2].
    cbn [fst snd] in *. destruct Hb2 as (Hc2 & _ & _ & _ & Ho2 & Hm2).
    destruct (pop (redis_faults w1)) as [[|] f1]; cbn [fst] in *; subst err;
      cbn [is_err]; [discriminate |].
    unfold send_mail. destruct (pop (mail_faults w2)) as [[|] m1]; [discriminate |].
    intros _. cbn [fst snd with_outbox outbox redis]. split; [congruence |].
    rewrite Hr2. unfold Redis.set.
    replace (0 <? 5 * GoTime.Minute) with true by reflexivity.
    rewrite lookup_insert_eq. do 3 f_equal. congruence. }
  split; [exact Hout |]. split; [exact Hkey |].
  intros now bytes rfaults answer. unfold answer. split.
  - intros Hnow. apply VerifySignIn_accepts; try done.
    cbn [later clock redis]. unfold Redis.get. rewrite Hkey.
    unfold Redis.live. cbn [Redis.expires Redis.value].
    by rewrite (proj2 (Z.ltb_lt _ _) Hnow).
  - intros Hnow. apply VerifySignIn_absent; try done.
    cbn [later clock redis]. unfold Redis.get. rewrite Hkey.
    unfold Redis.live. cbn [Redis.expires Redis.value].
    by rewrite (proj2 (Z.ltb_ge _ _) Hnow).
Qed.

(** X2: the two server errors of [RequestSignIn].  When the write of the
    code fails the answer is 500 "Unable to store code in redis", no mail
    is sent and the store is as before.  When the write succeeds and the
    mail fails the answer is 500 "Failed to send email", no mail went
    out, yet the new code stays in the store for its five minutes (and
    has replaced any code issued before). *)
Theorem RequestSignIn_failures (w : World) (email : string) :
  email <> EmptyString ->
  let code := fst (run generateSixDigitCode w) in
  let request := RequestSignIn (Some (mkRequestBody email)) in
  let response := fst (run request w) in
  let w' := snd (run request w) in
  (redis_fails w = true ->
     response = error_json StatusInternalServerError "Unable to store code in redis"
     /\ redis w' = redis w /\ outbox w' = outbox w)
  /\ (redis_fails w = false -> mail_fails w = true ->
        response = error_json StatusInternalServerError "Failed to send email"
        /\ outbox w' = outbox w
        /\ redis w' !! signInCodeKey email
           = Some (Redis.mkEntry code (Some (clock w + 5 * GoTime.Minute)))).
Proof.
  intros He code request response w'.
  unfold response, w', request, code, redis_fails, mail_fails.
  rewrite RequestSignIn_run by done.
  destruct (generateSixDigitCode_world w) as (Hr & Hf & Hc & Ho & Hm & _).
  destruct (run generateSixDigitCode w) as [c w1]. cbn [fst snd] in *.
  destruct (redis_set_world w1 (signInCodeKey email) c (5 * GoTime.Minute))
    as (Hb2 & He2 & Hr2 & Hf2).
  destruct (redis_set w1 (signInCodeKey email) c (5 * GoTime.Minute)) as [err w2].
  cbn [fst snd] in *. destruct Hb2 as (Hc2 & _ & _ & _ & Ho2 & Hm2).
  rewrite Hf in *. rewrite <- Hm, <- Hm2.
  destruct (pop (redis_faults w)) as [[|] f1]; cbn [fst] in *; subst err; cbn [is_err].
  - split; [| discriminate]. intros _. cbn [fst snd]. repeat split; congruence.
  - split; [discriminate |]. intros _.
    unfold send_mail. destruct (pop (mail_faults w2)) as [[|] m1]; cbn [fst snd];
      [| discriminate].
    intros _. split; [reflexivity |]. cbn [with_outbox outbox redis].
    split; [congruence |].
    rewrite Hr2. unfold Redis.set.
    replace (0 <? 5 * GoTime.Minute) with true by reflexivity.
    rewrite lookup_insert_eq. do 3 f_equal. congruence.
Qed.

(** X3: [VerifySignIn] counts no attempts.  Against a store that answers,
    any number of guesses that differ from the stored code (empty ones
    included) are all refused and leave the world exactly as it was, so
    the right code is still accepted after them. *)
Theorem wrong_guesses_leave_code_usable (w : World) (email code : string)
    (guesses : list string) :
  redis_faults w = [] ->
  Redis.get (clock w) (redis w) (signInCodeKey email) = (code, None) ->
  Forall (fun g => g <> code) guesses ->
  attempts email guesses w = w
  /\ Forall (fun g =>
               status (fst (run (VerifySignIn (Some (mkVerifyBody email g))) w))
               <> StatusOK) guesses
  /\ (email <> EmptyString -> code <> EmptyString ->
      (forall c secret, is_Some (Jwt.SignedString c secret)) ->
      status (fst (run (VerifySignIn (Some (mkVerifyBody email code)))
                     (attempts email guesses w))) = StatusOK).
Proof.
  intros Hf Hg Hall.
  assert (attempts email guesses w = w) as Hsame.
  { unfold attempts. induction Hall as [|g l Hne Hl IH]; [reflexivity |].
    cbn [fold_left]. unfold attempt at 2.
    destruct (VerifySignIn_wrong_guess w email code g Hf Hg Hne) as [_ ->].
    exact IH. }
  split; [exact Hsame |]. split.
  - eapply Forall_impl; [exact Hall |]. intros g Hne.
    by destruct (VerifySignIn_wrong_guess w email code g Hf Hg Hne) as [Hs _].
  - intros He Hc Hsign. rewrite Hsame. by apply VerifySignIn_accepts.
Qed.

(** X4: the sign-in handlers touch no key but their own.  A verification
    for an address sends no mail and leaves every key alone that is
    neither the code key of that address nor a [session:] key; a request
    for a code leaves every key but the code key of its address alone.
    In particular the code of another address is never changed. *)
Theorem sign_in_touches_only_its_own_keys (w : World) (email k : string) :
  k <> signInCodeKey email ->
  (forall code,
      let w' := snd (run (VerifySignIn (Some (mkVerifyBody email code))) w) in
      outbox w' = outbox w
      /\ (GoStr.HasPrefix k "session:" = false -> redis w' !! k = redis w !! k))
  /\ redis (snd (run (RequestSignIn (Some (mkRequestBody email))) w)) !! k
     = redis w !! k.
Proof.
  intros Hk. split.
  - intros code w'. unfold w'.
    destruct (GoStr.eqb email "" || GoStr.eqb code "") eqn:Hempty.
    { unfold VerifySignIn. cbn [vf_Email vf_Code]. rewrite Hempty. by split. }
    apply orb_false_iff in Hempty as [He Hc]. apply eqb_false in He, Hc.
    rewrite VerifySignIn_run by done.
    destruct (redis_get_world w (signInCodeKey email)) as (Hb1 & Hr1 & _).
    destruct (redis_get w (signInCodeKey email)) as [[stored err] w1].
    cbn [fst snd] in *. destruct Hb1 as (_ & _ & _ & _ & Ho1 & _).
    destruct (is_err err || GoStr.eqb stored ""); cbn [snd];
      [split; congruence |].
    destruct (negb (GoStr.eqb stored code)); cbn [snd]; [split; congruence |].
    destruct (redis_del_world w1 (signInCodeKey email)) as (Hb2 & Hr2 & _).
    destruct (redis_del w1 (signInCodeKey email)) as [d w2]. cbn [fst snd] in *.
    destruct Hb2 as (_ & _ & _ & _ & Ho2 & _).
    destruct (rand_read_world w2 16) as (Hr3 & _ & _ & _ & Ho3 & _).
    destruct (rand_read w2 16) as [[raw rerr] w3]. cbn [fst snd] in *.
    set (sid := GoStr.RawURLEncode raw).
    destruct (redis_set_world w3 ("session:" +:+ sid) (userProfile email)
                (24 * GoTime.Hour)) as (Hb4 & _ & Hr4 & _).
    destruct (redis_set w3 ("session:" +:+ sid) (userProfile email)
                (24 * GoTime.Hour)) as [err' w4]. cbn [fst snd] in *.
    destruct Hb4 as (_ & _ & _ & _ & Ho4 & _).
    assert (outbox w4 = outbox w
            /\ (GoStr.HasPrefix k "session:" = false -> redis w4 !! k = redis w !! k))
      as Hgoal.
    { split; [congruence |]. intros Hpre.
      assert (k <> "session:" +:+ sid) as Hks.
      { intros ->. unfold GoStr.HasPrefix in Hpre.
        by rewrite strip_prefix_app in Hpre. }
      rewrite Hr4, Hr3, Hr2, Hr1.
      assert (redis w !! k
              = (if fst (pop (redis_faults w1)) then redis w
                 else delete (signInCodeKey email) (redis w)) !! k) as Hd.
      { destruct (fst (pop (redis_faults w1))); [done |].
        by rewrite lookup_delete_ne. }
      destruct (fst (pop (redis_faults w3))); [by rewrite <- Hd |].
      unfold Redis.set. rewrite lookup_insert_ne by done. by rewrite <- Hd. }
    destruct (is_err err'); [exact Hgoal |].
    by destruct (fst (run (GenerateJWT sid) w4)).
  - destruct (GoStr.eqb email "") eqn:He.
    { unfold RequestSignIn. cbn [rq_Email]. by rewrite He. }
    apply eqb_false in He. rewrite RequestSignIn_run by done.
    destruct (generateSixDigitCode_world w) as (Hr & _).
    destruct (run generateSixDigitCode w) as [c w1]. cbn [fst snd] in *.
    destruct (redis_set_world w1 (signInCodeKey email) c (5 * GoTime.Minute))
      as (_ & _ & Hr2 & _).
    destruct (redis_set w1 (signInCodeKey email) c (5 * GoTime.Minute)) as [err w2].
    cbn [fst snd] in *.
    assert (redis w2 !! k = redis w !! k) as Hgoal.
    { rewrite Hr2, Hr. destruct (fst (pop (redis_faults w1))); [done |].
      unfold Redis.set. by rewrite lookup_insert_ne. }
    destruct (is_err err); [exact Hgoal |].
    unfold send_mail. by destruct (pop (mail_faults w2)) as [[|] m1].
Qed.


End SignInProperties.

(* ===================================================================== *)
(** ** Session ids and tokens *)
(* ===================================================================== *)

Section TokenFacts.
Import Eff Http Redisclient Middleware Signin Props Cover.
Context `{Jwt.Lib}.

Lemma b64url_char_safe (i : N) : url_safe (GoStr.b64url_char i) = true.
Proof.
  unfold GoStr.b64url_char, url_safe, GoStr.is_letter, GoStr.is_lower, GoStr.is_upper,
    GoStr.is_digit, GoStr.in_range, GoStr.code.
  destruct (i <? 26)%N eqn:H1.
  { apply N.ltb_lt in H1. rewrite N_ascii_embedding by lia.
    change (N_of_ascii "A") with 65%N. change (N_of_ascii "Z") with 90%N.
    assert ((65 <=? 65 + i)%N && (65 + i <=? 90)%N = true) as ->
      by (apply andb_true_iff; split; apply N.leb_le; lia).
    by rewrite orb_true_r. }
  apply N.ltb_ge in H1. destruct (i <? 52)%N eqn:H2.
  { apply N.ltb_lt in H2. rewrite N_ascii_embedding by lia.
    change (N_of_ascii "a") with 97%N. change (N_of_ascii "z") with 122%N.
    assert ((97 <=? 97 + (i - 26))%N && (97 + (i - 26) <=? 122)%N = true) as ->
      by (apply andb_true_iff; split; apply N.leb_le; lia).
    reflexivity. }
  apply N.ltb_ge in H2. destruct (i <? 62)%N eqn:H3.
  { apply N.ltb_lt in H3. rewrite N_ascii_embedding by lia.
    change (N_of_ascii "0") with 48%N. change (N_of_ascii "9") with 57%N.
    assert ((48 <=? 48 + (i - 52))%N && (48 + (i - 52) <=? 57)%N = true) as ->
      by (apply andb_true_iff; split; apply N.leb_le; lia).
    by rewrite orb_true_r. }
  destruct (i =? 62)%N; reflexivity.
Qed.

(** The unpadded encoding of [n] bytes has [ceil (4n / 3)] characters,
    all of the URL-safe alphabet. *)
Lemma RawURLEncode_shape (m : nat) : forall raw : list byte,
  (length raw < m)%nat ->
  String.length (GoStr.RawURLEncode raw) = ((4 * length raw + 2) / 3)%nat
  /\ GoStr.all_chars url_safe (GoStr.RawURLEncode raw) = true.
Proof.
  induction m as [|m IH]; intros raw Hm; [lia |].
  destruct raw as [|a [|b [|c rest]]].
  - done.
  - cbn [GoStr.RawURLEncode String.length GoStr.all_chars length].
    rewrite !b64url_char_safe. done.
  - cbn [GoStr.RawURLEncode String.length GoStr.all_chars length].
    rewrite !b64url_char_safe. done.
  - cbn [length] in Hm. destruct (IH rest ltac:(lia)) as [Hl Ha].
    cbn [GoStr.RawURLEncode String.length GoStr.all_chars length].
    rewrite !b64url_char_safe, Hl, Ha. split; [| done].
    replace (4 * S (S (S (length rest))) + 2)%nat
      with (4 * 3 + (4 * length rest + 2))%nat by lia.
    rewrite (Nat.add_comm (4 * 3)), Nat.div_add by lia. lia.
Qed.

Lemma RawURLEncode_zeros (m : nat) : forall n : nat,
  (n < m)%nat ->
  GoStr.RawURLEncode (repeat x00 n) = replicate_char ((4 * n + 2) / 3) "A".
Proof.
  induction m as [|m IH]; intros n Hm; [lia |].
  destruct n as [|[|[|n]]]; try reflexivity.
  replace (4 * S (S (S n)) + 2)%nat with (4 * 3 + (4 * n + 2))%nat by lia.
  rewrite (Nat.add_comm (4 * 3)), Nat.div_add by lia.
  rewrite Nat.add_comm. cbn [repeat Nat.add replicate_char].
  change (GoStr.RawURLEncode (x00 :: x00 :: x00 :: repeat x00 n))
    with (String "A" (String "A" (String "A" (String "A"
            (GoStr.RawURLEncode (repeat x00 n)))))).
  rewrite IH by lia. reflexivity.
Qed.

Lemma rand_read_length (w : World) (n : nat) : length (fst (fst (rand_read w n))) = n.
Proof.
  unfold rand_read. destruct (pop (rand_faults w)) as [[|] rest]; cbn [fst].
  - apply repeat_length.
  - rewrite length_take, List.length_app, repeat_length. lia.
Qed.

Lemma randomToken_run (w : World) (n : nat) :
  fst (run (randomToken n) w) = GoStr.RawURLEncode (fst (fst (rand_read w n))).
Proof.
  unfold randomToken. cbn. by destruct (rand_read w n) as [[raw e] w1].
Qed.

Lemma randomToken_zeros (w : World) (n : nat) :
  rand_fails w = true ->
  fst (run (randomToken n) w) = replicate_char ((4 * n + 2) / 3) "A".
Proof.
  rewrite randomToken_run. unfold rand_fails, rand_read.
  destruct (pop (rand_faults w)) as [[|] rest]; cbn [fst]; [| discriminate].
  intros _. apply (RawURLEncode_zeros (S n)). lia.
Qed.

(** X6: [randomToken n] is the unpadded URL-safe base64 text of [n]
    bytes: [ceil (4n / 3)] characters (22 for the 16 bytes of a session
    id), each a letter, a digit, ["-"] or ["_"].  The error of the random
    source is dropped: when the source fails and leaves the buffer
    zeroed, the token is the constant text of that many ["A"]. *)
Theorem randomToken_shape (w : World) (n : nat) :
  let token := fst (run (randomToken n) w) in
  String.length token = ((4 * n + 2) / 3)%nat
  /\ GoStr.all_chars url_safe token = true
  /\ (rand_fails w = true -> token = replicate_char ((4 * n + 2) / 3) "A").
Proof.
  cbv zeta. rewrite randomToken_run.
  pose proof (rand_read_length w n) as Hl.
  destruct (RawURLEncode_shape (S (length (fst (fst (rand_read w n)))))
              (fst (fst (rand_read w n))) ltac:(lia)) as [Hlen Hall].
  rewrite Hl in Hlen. split; [exact Hlen |]. split; [exact Hall |].
  intros Hr. rewrite <- randomToken_run. by apply randomToken_zeros.
Qed.


Lemma RequireJWT_world (header : option string) (w : World) :
  let w' := snd (run (RequireJWT header) w) in
  redis w' = redis w /\ outbox w' = outbox w /\ environ w' = environ w.
Proof.
  unfold RequireJWT. cbv zeta.
  destruct (GoStr.eqb (default EmptyString header) ""); [done |].
  destruct (GoStr.eqb _ (default EmptyString header)); [done |].
  unfold user_secret. simpl.
  destruct (Jwt.parse_err _ || negb (Jwt.token_valid _)); [done |].
  destruct (Jwt.string_claim _ _) as [k|]; [| done].
  simpl. destruct (redis_get_world w ("session:" +:+ k)) as (Hb & Hr & _).
  destruct (redis_get w ("session:" +:+ k)) as [[v e] w1]. cbn [fst snd] in *.
  destruct Hb as (_ & _ & _ & He & Ho & _).
  destruct (is_err e); [done |]. by destruct (GoStr.eqb v "").
Qed.

(** X8: [RequireJWT] only reads.  Whatever the header, it leaves the
    store, the outbox and the environment as they were, and it issues no
    Redis command at all or exactly one, a GET of a [session:] key. *)
Theorem RequireJWT_only_reads (header : option string) (w : World) :
  let w' := snd (run (RequireJWT header) w) in
  redis w' = redis w /\ outbox w' = outbox w /\ environ w' = environ w
  /\ (commands (RequireJWT header) w = []
      \/ exists k, commands (RequireJWT header) w = [GET ("session:" +:+ k)]).
Proof.
  unfold RequireJWT. cbv zeta.
  destruct (GoStr.eqb (default EmptyString header) ""); [simpl; tauto |].
  destruct (GoStr.eqb _ (default EmptyString header)); [simpl; tauto |].
  unfold user_secret. simpl.
  destruct (Jwt.parse_err _ || negb (Jwt.token_valid _)); [simpl; tauto |].
  destruct (Jwt.string_claim _ _) as [k|]; [| simpl; tauto].
  simpl. destruct (redis_get_world w ("session:" +:+ k)) as (Hb & Hr & _).
  destruct (redis_get w ("session:" +:+ k)) as [[v e] w1]. cbn [fst snd] in *.
  destruct Hb as (_ & _ & _ & He & Ho & _).
  assert (redis w1 = redis w /\ outbox w1 = outbox w /\ environ w1 = environ w
          /\ ([GET ("session:" +:+ k)] = []
              \/ exists k0, [GET ("session:" +:+ k)] = [GET ("session:" +:+ k0)]))
    as Hgoal by (repeat split; try done; right; by exists k).
  destruct (is_err e); [exact Hgoal |].
  destruct (GoStr.eqb v ""); exact Hgoal.
Qed.

(** X9: [GenerateJWT] changes nothing and signs, under the configured
    secret (["devsecret"] when none is configured), claims that carry the
    given session key, the issue time in whole seconds and an expiry
    exactly 86400 seconds later.  That expiry lies within the last second
    before the 24 hours after the call, the lifetime [VerifySignIn] gives
    the session. *)
Theorem GenerateJWT_expires_with_session (sessionKey : string) (w : World) :
  exists c secret iat exp,
    run (GenerateJWT sessionKey) w = (Jwt.SignedString c secret, w)
    /\ secret = secret_of w
    /\ c !! "session_key"%string = Some (Jwt.CString sessionKey)
    /\ c !! "iat"%string = Some (Jwt.CNumber iat)
    /\ c !! "exp"%string = Some (Jwt.CNumber exp)
    /\ iat = clock w / GoTime.Second
    /\ exp = iat + 86400
    /\ exp * GoTime.Second <= clock w + 24 * GoTime.Hour < (exp + 1) * GoTime.Second.
Proof.
  exists (token_claims sessionKey (clock w)), (secret_of w),
    (clock w / GoTime.Second), ((clock w + 24 * GoTime.Hour) / GoTime.Second).
  split; [reflexivity |]. split; [reflexivity |].
  split; [reflexivity |]. split; [reflexivity |]. split; [reflexivity |].
  split; [reflexivity |].
  assert ((clock w + 24 * GoTime.Hour) / GoTime.Second
          = clock w / GoTime.Second + 86400) as Hdiv.
  { change (24 * GoTime.Hour) with (86400 * GoTime.Second).
    apply Z.div_add. discriminate. }
  split; [exact Hdiv |].
  pose proof (Z.div_mod (clock w + 24 * GoTime.Hour) GoTime.Second ltac:(discriminate)).
  pose proof (Z.mod_pos_bound (clock w + 24 * GoTime.Hour) GoTime.Second
                ltac:(reflexivity)).
  lia.
Qed.

End TokenFacts.

(* ===================================================================== *)
(** ** The e-mail service and the shape of an address *)
(* ===================================================================== *)

Section MailFacts.
Import Sendgrid.

(** X10: [defaultSendCodeEmail] returns [nil] exactly when the API key
    is configured, the client reports no error and the status of the
    answer is below 400; the message goes from the configured address, or
    from [no-reply@example.com] when none is configured.  A status from
    300 to 399 therefore counts as sent. *)
Theorem defaultSendCodeEmail_nil_iff (getenv : string -> string)
    (Send : string -> SingleEmail -> sent) (toEmail code : string) :
  let apiKey := getenv "SENDGRID_API_KEY" in
  let fromAddress :=
    if GoStr.eqb (getenv "SENDGRID_FROM_ADDRESS") "" then "no-reply@example.com"%string
    else getenv "SENDGRID_FROM_ADDRESS" in
  defaultSendCodeEmail getenv Send toEmail code = None
  <-> apiKey <> EmptyString
      /\ exists StatusCode Body,
           Send apiKey (code_message fromAddress toEmail code) = Answered StatusCode Body
           /\ StatusCode < 400.
Proof.
  cbv zeta. unfold defaultSendCodeEmail.
  destruct (GoStr.eqb (getenv "SENDGRID_API_KEY") "") eqn:Hk.
  - apply eqb_true in Hk. split; [discriminate |]. by intros [Hne _].
  - apply eqb_false in Hk.
    destruct (Send _ _) as [err|st body].
    + split; [discriminate |]. intros (_ & st & body & Hs & _). discriminate.
    + destruct (300 <=? st) eqn:H3.
      * destruct (400 <=? st) eqn:H4; cbn [andb].
        -- apply Z.leb_le in H4.
           destruct (st <? 500) eqn:H5.
           ++ split; [discriminate |]. intros (_ & st' & body' & Hs & Hlt).
              inversion Hs; subst. lia.
           ++ apply Z.ltb_ge in H5.
              assert ((500 <=? st) = true) as -> by (apply Z.leb_le; lia).
              split; [discriminate |]. intros (_ & st' & body' & Hs & Hlt).
              inversion Hs; subst. lia.
        -- apply Z.leb_gt in H4.
           assert ((500 <=? st) = false) as -> by (apply Z.leb_gt; lia).
           split; [| done]. intros _. split; [done |]. by exists st, body.
      * apply Z.leb_gt in H3. split; [| done]. intros _. split; [done |].
        exists st, body. split; [done | lia].
Qed.

End MailFacts.

Section AddressFacts.
Import Models Http Gorm Handlers Regex Props Cover.

Lemma all_star_class p (s : string) :
  GoStr.all_chars p s = true -> Matches (Star (Class p)) s.
Proof.
  induction s as [|c s IH]; cbn [GoStr.all_chars]; intros Ha; [constructor |].
  apply andb_true_iff in Ha as [Hc Hs].
  change (String c s) with (String c EmptyString +:+ s).
  constructor; [by constructor | by apply IH].
Qed.

Lemma all_plus_class p (s : string) :
  s <> EmptyString -> GoStr.all_chars p s = true -> Matches (Plus (Class p)) s.
Proof.
  destruct s as [|c s]; [done |]. cbn [GoStr.all_chars]. intros _ Ha.
  apply andb_true_iff in Ha as [Hc Hs].
  change (String c s) with (String c EmptyString +:+ s).
  constructor; [by constructor | by apply all_star_class].
Qed.

Lemma all_repeat_then_star p (n : nat) : forall s : string,
  (n <= String.length s)%nat -> GoStr.all_chars p s = true ->
  Matches (Cat (Repeat n (Class p)) (Star (Class p))) s.
Proof.
  induction n as [|n IH]; intros s Hl Ha.
  - change s with (EmptyString +:+ s). constructor; [constructor |].
    by apply all_star_class.
  - destruct s as [|c s]; [simpl in Hl; lia |].
    cbn [GoStr.all_chars] in Ha. apply andb_true_iff in Ha as [Hc Hs].
    cbn [String.length] in Hl.
    specialize (IH s ltac:(lia) Hs).
    inversion IH as [| |? ? s1 s2 H1 H2| | | |]; subst.
    change (String c (s1 +:+ s2)) with ((String c EmptyString +:+ s1) +:+ s2).
    constructor; [| done]. cbn [Repeat]. constructor; [by constructor | done].
Qed.

(** The language of the pattern of addresses. *)
Lemma emailRegex_language (s : string) : Matches emailRegex s <-> address_shape s.
Proof.
  unfold emailRegex, address_shape. split.
  - intros Hm.
    inversion Hm as [| |? ? l s1 Hl H1| | | |]; subst.
    inversion H1 as [| |? ? a s2 Ha H2| | | |]; subst.
    inversion H2 as [| |? ? d s3 Hd H3| | | |]; subst.
    inversion H3 as [| |? ? o t Ho Ht| | | |]; subst.
    inversion Ha as [|? c Hc| | | | |]; subst.
    inversion Ho as [|? c' Hc'| | | | |]; subst.
    unfold at_sign in Hc. apply Ascii.eqb_eq in Hc. subst c.
    unfold dot in Hc'. apply Ascii.eqb_eq in Hc'. subst c'.
    apply plus_class_all in Hl as [Hl1 Hl2]. apply plus_class_all in Hd as [Hd1 Hd2].
    apply atleast_class_all in Ht as [Ht1 Ht2].
    by exists l, d, t.
  - intros (l & d & t & -> & Hl1 & Hl2 & Hd1 & Hd2 & Ht1 & Ht2).
    constructor; [by apply all_plus_class |].
    constructor; [by constructor |].
    constructor; [by apply all_plus_class |].
    constructor; [by constructor |].
    by apply all_repeat_then_star.
Qed.

(** X11: [validateSubscriberFields] accepts exactly the subscribers
    whose address reads [local@domain.tld], with a non-empty local part of
    letters, digits and [._%+-], a non-empty domain of letters, digits and
    [.-], and a last label of two letters or more, and whose name is not
    blank once trimmed. *)
Theorem validateSubscriberFields_nil_iff (sub : Subscriber) :
  validateSubscriberFields sub = None
  <-> address_shape (Email sub) /\ GoStr.TrimSpace (Name sub) <> EmptyString.
Proof.
  unfold validateSubscriberFields, MatchString.
  destruct (matchb emailRegex (Email sub)) eqn:Hm.
  - assert (address_shape (Email sub)) as Hshape
      by (by apply emailRegex_language, matchb_spec).
    assert (GoStr.eqb (Email sub) "" = false) as ->.
    { apply eqb_false. intros He. rewrite He in Hm. discriminate. }
    cbn [negb orb].
    destruct (GoStr.eqb (GoStr.TrimSpace (Name sub)) "") eqn:Hn.
    + apply eqb_true in Hn. split; [discriminate |]. by intros [_ Hne].
    + apply eqb_false in Hn. done.
  - rewrite orb_true_r. split; [discriminate |]. intros [Hshape _].
    apply emailRegex_language, matchb_spec in Hshape. congruence.
Qed.

End AddressFacts.

(* ===================================================================== *)
(** ** The subscriber store and the routes *)
(* ===================================================================== *)

Section StoreFacts.
Import Models Http Gorm Handlers Regex Props Cover.

(** A call either fails and leaves the tables alone or does what its
    statement does; it keeps the clock. *)
Lemma call_inv {A : Type} (f : Z -> Tables -> option (Tables * A)) (db : DB) :
  db_clock (snd (call f db)) = db_clock db
  /\ match fst (call f db) with
     | Some a => f (db_clock db) (tables db) = Some (tables (snd (call f db)), a)
     | None => tables (snd (call f db)) = tables db
     end.
Proof.
  split; [apply call_clock |].
  destruct (fst (call f db)) as [a|] eqn:Hc; [by apply call_Some | by apply call_None].
Qed.

(** Without a failure of the connection a call is its statement. *)
Lemma call_quiet {A : Type} (f : Z -> Tables -> option (Tables * A)) (db : DB) :
  head (db_faults db) <> Some true ->
  fst (call f db) = option_map snd (f (db_clock db) (tables db)).
Proof.
  unfold call. intros Hq. destruct (db_faults db) as [|[|] rest]; cbn in *; try done;
    by destruct (f (db_clock db) (tables db)) as [[t a]|].
Qed.

Lemma save_associations_subscribers now t id children t' children' :
  save_associations now t id children = Some (t', children') ->
  subscribers t' = subscribers t.
Proof. intros Hs. by apply save_associations_only_for in Hs as [Hs _]. Qed.

(** The row an insert of a subscriber leaves. *)
Lemma create_subscriber_row now t s t' s' :
  create_subscriber now t s = Some (t', s') ->
  ID s' = (if (ID s =? 0)%N then subscribers_seq t else ID s)
  /\ subscribers t !! ID s' = None
  /\ subscribers t'
     = <[ID s' := mkSubscriberRow (Email s) (Name s) (stamp (CreatedAt s) now)
                    (stamp (UpdatedAt s) now)]> (subscribers t).
Proof.
  unfold create_subscriber.
  set (id := if (ID s =? 0)%N then subscribers_seq t else ID s).
  destruct (subscribers t !! id) eqn:Hfree; [discriminate |].
  destruct (save_associations _ _ _ _) as [[t2 children]|] eqn:Hsa; [| discriminate].
  intros Hc. inversion Hc; subst. cbn [ID].
  apply save_associations_subscribers in Hsa. by rewrite Hsa.
Qed.

Lemma FirstPreload_load (id : Z) (db : DB) (s : Subscriber) :
  fst (FirstPreload id db) = Some s ->
  0 <= id /\ exists row, subscribers (tables db) !! Z.to_N id = Some row
                         /\ s = load (tables db) (Z.to_N id) row.
Proof.
  intros Hf. apply call_Some in Hf.
  destruct (id <? 0) eqn:Hneg; [discriminate |]. apply Z.ltb_ge in Hneg.
  destruct (subscribers (tables db) !! Z.to_N id) as [r|] eqn:Hr; [| discriminate].
  inversion Hf; subst. split; [done |]. by exists r.
Qed.

Lemma FirstPreload_quiet (id : Z) (db : DB) :
  head (db_faults db) <> Some true ->
  fst (FirstPreload id db)
  = (if id <? 0 then None
     else option_map (load (tables db) (Z.to_N id)) (subscribers (tables db) !! Z.to_N id)).
Proof.
  intros Hq. unfold FirstPreload. rewrite call_quiet by done.
  destruct (id <? 0); [done |]. by destruct (subscribers (tables db) !! Z.to_N id).
Qed.

(** X12: what [CreateSubscriber] answers with 201 is what [GetSubscriber]
    then finds.  The body passed the validation; the subscriber carries
    the address and the name of the body under a key that was free, the
    next value of the sequence when the body names none and the key of
    the body otherwise; and a read of that key through a connection that
    does not fail answers 200 with the same subscriber. *)
Theorem CreateSubscriber_then_GetSubscriber (body : Subscriber) (db : DB)
    (s : Subscriber) (idParam : string) :
  fst (CreateSubscriber (Some body) db) = mkResponse StatusCreated (JSubscriber s) ->
  let db' := snd (CreateSubscriber (Some body) db) in
  GoStr.Atoi idParam = Some (Z.of_N (ID s)) ->
  head (db_faults db') <> Some true ->
  validateSubscriberFields body = None
  /\ ID s = (if (ID body =? 0)%N then subscribers_seq (tables db) else ID body)
  /\ subscribers (tables db) !! ID s = None
  /\ Email s = Email body /\ Name s = Name body
  /\ fst (GetSubscriber idParam db') = ok_json (JSubscriber s).
Proof.
  unfold CreateSubscriber.
  destruct (validateSubscriberFields body) as [err|]; [discriminate |].
  unfold mbind, m_bind, mret, m_ret.
  pose proof (call_Some (fun now t => create_subscriber now t body) db) as Hcreate.
  fold (Create body) in Hcreate.
  destruct (Create body db) as [[c|] db1]; [| discriminate]. cbn [fst snd] in Hcreate.
  specialize (Hcreate c eq_refl).
  apply create_subscriber_row in Hcreate as (Hid & Hfree & Hrows).
  pose proof (FirstPreload_load (Z.of_N (ID c)) db1) as Hload.
  pose proof (FirstPreload_tables (Z.of_N (ID c)) db1) as Htab.
  destruct (FirstPreload (Z.of_N (ID c)) db1) as [[s'|] db2]; [| discriminate].
  cbn [fst snd] in *. intros Hs Hatoi Hq. inversion Hs; subst s'. clear Hs.
  destruct (Hload s eq_refl) as (_ & row & Hrow & ->).
  rewrite N2Z.id in *. rewrite Hrows, lookup_insert_eq in Hrow. inversion Hrow; subst row.
  cbn [load ID Email Name r_email r_name] in *.
  split; [done |]. split; [done |]. split; [done |]. split; [done |]. split; [done |].
  unfold GetSubscriber. rewrite Hatoi. unfold mbind, m_bind, mret, m_ret.
  pose proof (FirstPreload_quiet (Z.of_N (ID c)) db2 Hq) as Hget.
  destruct (FirstPreload (Z.of_N (ID c)) db2) as [r db3]. cbn [fst] in *.
  rewrite Hget, Htab. 
  destruct (Z.of_N (ID c) <? 0) eqn:Hneg; [apply Z.ltb_lt in Hneg; lia |].
  rewrite N2Z.id, Hrows, lookup_insert_eq. reflexivity.
Qed.

Lemma First_inv (id : Z) (db : DB) :
  tables (snd (First id db)) = tables db
  /\ forall s, fst (First id db) = Some s ->
       0 <= id /\ ID s = Z.to_N id /\ is_Some (subscribers (tables db) !! Z.to_N id).
Proof.
  destruct (call_inv (fun _ t =>
              if id <? 0 then None
              else match subscribers t !! Z.to_N id with
                   | Some r =>
                       Some (t, mkSubscriber (Z.to_N id) (r_email r) (r_name r) None
                                  (r_created_at r) (r_updated_at r))
                   | None => None
                   end) db) as [_ Hc].
  fold (First id) in Hc. destruct (fst (First id db)) as [s0|].
  - destruct (id <? 0) eqn:Hneg; [discriminate |]. apply Z.ltb_ge in Hneg.
    destruct (subscribers (tables db) !! Z.to_N id) as [r|] eqn:Hr; [| discriminate].
    inversion Hc as [[Ht Hs]]. split; [congruence |].
    intros s Hs'. inversion Hs'; subst s. cbn [ID]. done.
  - split; [exact Hc | discriminate].
Qed.

Lemma DeleteTypesWhere_inv (id : N) (db : DB) :
  db_clock (snd (DeleteTypesWhere id db)) = db_clock db
  /\ match fst (DeleteTypesWhere id db) with
     | Some _ => tables (snd (DeleteTypesWhere id db)) = delete_types_of (tables db) id
     | None => tables (snd (DeleteTypesWhere id db)) = tables db
     end.
Proof.
  destruct (call_inv (fun _ t => Some (delete_types_of t id, tt)) db) as [Hclk Hc].
  fold (DeleteTypesWhere id) in Hclk, Hc. split; [exact Hclk |].
  destruct (fst (DeleteTypesWhere id db)); [by inversion Hc | exact Hc].
Qed.

Lemma Delete_inv (s : Subscriber) (db : DB) :
  match fst (Delete s db) with
  | Some _ => delete_subscriber (tables db) (ID s) = Some (tables (snd (Delete s db)))
  | None => tables (snd (Delete s db)) = tables db
  end.
Proof.
  destruct (call_inv (fun _ t =>
              match delete_subscriber t (ID s) with
              | Some t' => Some (t', tt)
              | None => None
              end) db) as [_ Hc].
  fold (Delete s) in Hc. destruct (fst (Delete s db)); [| exact Hc].
  destruct (delete_subscriber (tables db) (ID s)); [by inversion Hc | discriminate].
Qed.

(** Nothing is found under a key that has no row, failure or not. *)
Lemma FirstPreload_absent (id : Z) (db : DB) :
  subscribers (tables db) !! Z.to_N id = None -> fst (FirstPreload id db) = None.
Proof.
  intros Hnone. destruct (fst (FirstPreload id db)) as [s|] eqn:Hf; [| done].
  apply FirstPreload_load in Hf as (_ & row & Hrow & _). congruence.
Qed.

(** The run of [DeleteSubscriber] past its two first calls. *)
Lemma DeleteSubscriber_cleared (idParam : string) (db : DB) :
  status (fst (DeleteSubscriber idParam db)) = StatusNoContent
  \/ fst (DeleteSubscriber idParam db)
     = error_json StatusInternalServerError "Could not delete subscriber" ->
  exists id,
    GoStr.Atoi idParam = Some id /\ 0 <= id
    /\ is_Some (subscribers (tables db) !! Z.to_N id)
    /\ subscriber_types (tables (snd (DeleteSubscriber idParam db)))
       = without_types_of (Z.to_N id) (tables db)
    /\ subscribers (tables (snd (DeleteSubscriber idParam db)))
       = (if status (fst (DeleteSubscriber idParam db)) =? StatusNoContent
          then delete (Z.to_N id) (subscribers (tables db))
          else subscribers (tables db)).
Proof.
  unfold DeleteSubscriber.
  destruct (GoStr.Atoi idParam) as [id|]; [| intros [?|?]; discriminate].
  unfold mbind, m_bind, mret, m_ret.
  destruct (First_inv id db) as [Ht1 Hs1].
  destruct (First id db) as [[sub|] db1]; [| intros [?|?]; discriminate].
  cbn [fst snd] in *. destruct (Hs1 sub eq_refl) as (Hpos & Hid & Hrow).
  destruct (DeleteTypesWhere_inv (ID sub) db1) as [_ Ht2].
  destruct (DeleteTypesWhere (ID sub) db1) as [[[]|] db2]; [| intros [?|?]; discriminate].
  cbn [fst snd] in *.
  pose proof (Delete_inv sub db2) as Ht3.
  destruct (Delete sub db2) as [[[]|] db3]; cbn [fst snd] in *; intros _;
    exists id; (split; [done |]); (split; [done |]); (split; [done |]).
  - unfold delete_subscriber in Ht3.
    destruct (children_of (tables db2) (ID sub)); [| discriminate].
    inversion Ht3 as [Ht]. cbn [subscriber_types subscribers with_subscribers].
    rewrite Ht2. cbn [delete_types_of with_types subscriber_types subscribers].
    rewrite Ht1, Hid. done.
  - rewrite Ht3, Ht2. cbn [delete_types_of with_types subscriber_types subscribers].
    rewrite Ht1, Hid. done.
Qed.

(** X13: a [DeleteSubscriber] that answers 204 has removed the row of
    the subscriber and the rows of its types and nothing else, and a
    later read of that key answers 404. *)
Theorem DeleteSubscriber_removes_subscriber_and_types (idParam : string) (db : DB) :
  status (fst (DeleteSubscriber idParam db)) = StatusNoContent ->
  let db' := snd (DeleteSubscriber idParam db) in
  exists id,
    GoStr.Atoi idParam = Some id
    /\ subscribers (tables db') = delete (Z.to_N id) (subscribers (tables db))
    /\ subscriber_types (tables db') = without_types_of (Z.to_N id) (tables db)
    /\ forall again,
         GoStr.Atoi again = Some id ->
         fst (GetSubscriber again db') = error_json StatusNotFound "Subscriber not found".
Proof.
  intros Hok db'.
  destruct (DeleteSubscriber_cleared idParam db (or_introl Hok))
    as (id & Hatoi & Hpos & Hrow & Htypes & Hsubs).
  rewrite Hok in Hsubs. cbn in Hsubs.
  exists id. split; [done |]. split; [done |]. split; [done |].
  intros again Hagain. unfold GetSubscriber. rewrite Hagain.
  unfold mbind, m_bind, mret, m_ret.
  pose proof (FirstPreload_absent id db') as Habs.
  destruct (FirstPreload id db') as [r db2]. cbn [fst] in *.
  rewrite Habs; [done |]. unfold db'. rewrite Hsubs. apply lookup_delete_eq.
Qed.

(** X14: [DeleteSubscriber] is no transaction.  When it answers
    500 "Could not delete subscriber" the subscriber is still there while
    the rows of its types are already gone. *)
Theorem DeleteSubscriber_not_atomic (idParam : string) (db : DB) :
  fst (DeleteSubscriber idParam db)
  = error_json StatusInternalServerError "Could not delete subscriber" ->
  let db' := snd (DeleteSubscriber idParam db) in
  exists id,
    GoStr.Atoi idParam = Some id
    /\ is_Some (subscribers (tables db') !! Z.to_N id)
    /\ subscribers (tables db') = subscribers (tables db)
    /\ subscriber_types (tables db') = without_types_of (Z.to_N id) (tables db)
    /\ children_of (tables db') (Z.to_N id) = [].
Proof.
  intros Herr db'.
  destruct (DeleteSubscriber_cleared idParam db (or_intror Herr))
    as (id & Hatoi & Hpos & Hrow & Htypes & Hsubs).
  rewrite Herr in Hsubs. cbn in Hsubs.
  exists id. split; [done |]. split; [unfold db'; by rewrite Hsubs |].
  split; [done |]. split; [done |].
  unfold db', children_of. rewrite Htypes. unfold without_types_of.
  destruct (filter _ _) as [|[k row] rest] eqn:Hf; [done |].
  assert ((k, row) ∈ filter (fun p : N * TypeRow => t_subscriber_id p.2 = Z.to_N id)
            (map_to_list (filter (fun p : N * TypeRow => t_subscriber_id p.2 <> Z.to_N id)
                            (subscriber_types (tables db))))) as Hin
    by (rewrite Hf; apply list_elem_of_here).
  apply list_elem_of_filter in Hin as [Heq Hin].
  apply elem_of_map_to_list, map_lookup_filter_Some in Hin as [_ Hne]. done.
Qed.

Lemma CreateTypes_inv (l : list SubscriberType) (db : DB) :
  db_clock (snd (CreateTypes l db)) = db_clock db
  /\ subscribers (tables (snd (CreateTypes l db))) = subscribers (tables db).
Proof.
  destruct (call_inv (fun now t => insert_types now false t l) db) as [Hclk Hc].
  fold (CreateTypes l) in Hclk, Hc. split; [exact Hclk |].
  destruct (fst (CreateTypes l db)); [| by rewrite Hc].
  by apply insert_types_subscribers in Hc.
Qed.

Lemma overwrite_types_clock (existing updates : Subscriber) (db : DB) :
  db_clock (snd (overwrite_types existing updates db)) = db_clock db.
Proof.
  unfold overwrite_types.
  destruct (negb (is_nil (SubscriberTypes updates))
            && (0 <? slice_len (SubscriberTypes updates))%nat).
  - unfold mbind, m_bind, mret, m_ret.
    destruct (DeleteTypesWhere_inv (ID existing) db) as [Hc1 _].
    destruct (DeleteTypesWhere (ID existing) db) as [[[]|] db1]; cbn [fst snd] in *;
      [| done].
    match goal with |- context [CreateTypes ?l db1] =>
      destruct (CreateTypes_inv l db1) as [Hc2 _];
      destruct (CreateTypes l db1) as [[r|] db2] end; cbn [snd] in *; congruence.
  - destruct (negb (is_nil (SubscriberTypes updates))
              && (slice_len (SubscriberTypes updates) =? 0)%nat); [| done].
    unfold mbind, m_bind, mret, m_ret.
    destruct (DeleteTypesWhere_inv (ID existing) db) as [Hc1 _].
    by destruct (DeleteTypesWhere (ID existing) db) as [[[]|] db1].
Qed.

(** X15: an [UpdateSubscriber] that answers 200 (on a table without a
    row of key zero) has rewritten the row addressed by the path: the
    subscriber in the answer has the key of the path (a key in the body
    is ignored), the address and the name of the body, the creation time
    of the old row and the time of the store as its update time, and the
    table of subscribers differs from the old one in that row only. *)
Theorem UpdateSubscriber_rewrites_email_and_name (idParam : string)
    (updates : Subscriber) (db : DB) (s : Subscriber) :
  subscribers (tables db) !! 0%N = None ->
  fst (UpdateSubscriber idParam (Some updates) db) = ok_json (JSubscriber s) ->
  let db' := snd (UpdateSubscriber idParam (Some updates) db) in
  exists id old,
    GoStr.Atoi idParam = Some id
    /\ subscribers (tables db) !! Z.to_N id = Some old
    /\ ID s = Z.to_N id
    /\ Email s = Email updates /\ Name s = Name updates
    /\ CreatedAt s = r_created_at old /\ UpdatedAt s = db_clock db
    /\ subscribers (tables db')
       = <[Z.to_N id := mkSubscriberRow (Email updates) (Name updates)
                          (r_created_at old) (db_clock db)]> (subscribers (tables db)).
Proof.
  intros Hzero. unfold UpdateSubscriber.
  destruct (GoStr.Atoi idParam) as [id|]; [| discriminate].
  unfold mbind, m_bind, mret, m_ret.
  pose proof (FirstPreload_load id db) as Hload.
  pose proof (FirstPreload_tables id db) as Ht1.
  pose proof (call_clock (fun _ t =>
                if id <? 0 then None
                else match subscribers t !! Z.to_N id with
                     | Some r => Some (t, load t (Z.to_N id) r)
                     | None => None
                     end) db) as Hc1.
  fold (FirstPreload id) in Hc1.
  destruct (FirstPreload id db) as [[existing|] db1]; [| discriminate].
  cbn [fst snd] in *. destruct (Hload existing eq_refl) as (Hpos & old & Hold & ->).
  clear Hload.
  destruct (validateSubscriberFields updates); [discriminate |].
  cbn [load ID SubscriberTypes CreatedAt UpdatedAt].
  set (existing' := mkSubscriber _ _ _ _ _ _).
  pose proof (overwrite_types_subscribers existing' updates db1) as Hs2.
  pose proof (overwrite_types_clock existing' updates db1) as Hc2.
  destruct (overwrite_types existing' updates db1) as [[early|] db2] eqn:Ho.
  { intros Hr. cbn [fst] in Hr.
    pose proof (overwrite_types_early existing' updates db1 early) as He.
    rewrite Ho in He. specialize (He eq_refl). rewrite Hr in He. discriminate. }
  cbn [fst snd] in *.
  pose proof (call_Some (fun now t => save_subscriber now t existing') db2) as Hsave.
  fold (Save existing') in Hsave.
  destruct (Save existing' db2) as [[saved|] db3]; [| discriminate].
  cbn [fst snd] in *. specialize (Hsave saved eq_refl).
  assert (Z.to_N id <> 0%N) as Hnz by (intros Heq; rewrite Heq in Hold; congruence).
  unfold save_subscriber in Hsave. cbn [existing' ID] in Hsave.
  rewrite (proj2 (N.eqb_neq _ _) Hnz) in Hsave.
  rewrite Hs2, Ht1, Hold in Hsave.
  destruct (save_associations _ _ _ _) as [[t2 children]|] eqn:Hsa; [| discriminate].
  apply save_associations_subscribers in Hsa.
  cbn [with_subscribers subscribers] in Hsa.
  inversion Hsave as [[Ht3 Hsaved]]. clear Hsave. cbn [ID].
  pose proof (FirstPreload_load (Z.of_N (Z.to_N id)) db3) as Hload.
  pose proof (FirstPreload_tables (Z.of_N (Z.to_N id)) db3) as Ht4.
  destruct (FirstPreload (Z.of_N (Z.to_N id)) db3) as [[s'|] db4]; [| discriminate].
  cbn [fst snd] in *. intros Hr. inversion Hr; subst s'. clear Hr.
  destruct (Hload s eq_refl) as (_ & row & Hrow & ->). clear Hload.
  rewrite N2Z.id in Hrow. rewrite <- Ht3, Hsa, lookup_insert_eq in Hrow.
  inversion Hrow; subst row. clear Hrow.
  exists id, old. rewrite N2Z.id. cbn [load ID Email Name CreatedAt UpdatedAt
    r_email r_name r_created_at r_updated_at].
  repeat (split; [first [done | congruence] |]).
  rewrite Ht4, <- Ht3, Hsa. unfold existing'. cbn [Email Name CreatedAt]. congruence.
Qed.

Lemma call_run_quiet {A : Type} (f : Z -> Tables -> option (Tables * A)) (db : DB) :
  db_faults db = [] ->
  call f db = match f (db_clock db) (tables db) with
              | Some (t, a) => (Some a, mkDB t (db_clock db) [])
              | None => (None, mkDB (tables db) (db_clock db) [])
              end.
Proof. unfold call. by intros ->. Qed.

(** One row with a name outside the enum makes the whole insert fail. *)
Lemma insert_types_bad_name now upsert (c : SubscriberType) (l : list SubscriberType) :
  In c l -> enum_ok (st_Name c) = false ->
  forall t, insert_types now upsert t l = None.
Proof.
  intros Hin Hbad. induction l as [|d l IH]; [destruct Hin |]. intros t.
  cbn [insert_types]. destruct Hin as [->|Hin].
  - unfold insert_type. by rewrite Hbad.
  - destruct (insert_type now upsert t d) as [[t1 d1]|]; [| done].
    by rewrite (IH Hin t1).
Qed.

(** X16: an update that lists a type whose name is not of the enum
    destroys the types the subscriber had.  With the subscriber found, the
    fields valid and the connection sound, [UpdateSubscriber] answers
    500 "Could not create updated subscriber_types" after it has deleted
    the old rows, and it does not restore them. *)
Theorem UpdateSubscriber_unknown_type_loses_old_types (idParam : string)
    (updates : Subscriber) (db : DB) (id : Z) (old : SubscriberRow)
    (l : list SubscriberType) (c : SubscriberType) :
  GoStr.Atoi idParam = Some id -> 0 <= id ->
  subscribers (tables db) !! Z.to_N id = Some old ->
  validateSubscriberFields updates = None ->
  SubscriberTypes updates = Some l -> In c l -> enum_ok (st_Name c) = false ->
  db_faults db = [] ->
  let db' := snd (UpdateSubscriber idParam (Some updates) db) in
  fst (UpdateSubscriber idParam (Some updates) db)
  = error_json StatusInternalServerError "Could not create updated subscriber_types"
  /\ subscriber_types (tables db') = without_types_of (Z.to_N id) (tables db)
  /\ subscribers (tables db') = subscribers (tables db)
  /\ children_of (tables db') (Z.to_N id) = [].
Proof.
  intros Hatoi Hpos Hold Hvalid Htypes Hin Hbad Hq.
  assert (forall t, children_of (with_types t (without_types_of (Z.to_N id) t)
                                   (subscriber_types_seq t)) (Z.to_N id) = []) as Hnone.
  { intros t. unfold children_of, without_types_of. cbn [with_types subscriber_types].
    destruct (filter _ _) as [|[k row] rest] eqn:Hf; [done |].
    assert ((k, row) ∈ filter (fun p : N * TypeRow => t_subscriber_id p.2 = Z.to_N id)
              (map_to_list (filter (fun p : N * TypeRow => t_subscriber_id p.2 <> Z.to_N id)
                              (subscriber_types t)))) as Hel
      by (rewrite Hf; apply list_elem_of_here).
    apply list_elem_of_filter in Hel as [Heq Hel].
    apply elem_of_map_to_list, map_lookup_filter_Some in Hel as [_ Hne]. done. }
  unfold UpdateSubscriber. rewrite Hatoi. unfold mbind, m_bind, mret, m_ret.
  unfold FirstPreload. rewrite call_run_quiet by done.
  rewrite (proj2 (Z.ltb_ge _ _) Hpos), Hold, Hvalid.
  unfold overwrite_types. rewrite Htypes. cbn [is_nil negb slice_len andb].
  assert ((0 <? length l)%nat = true) as ->
    by (apply Nat.ltb_lt; destruct l; [destruct Hin | simpl; lia]).
  unfold mbind, m_bind, mret, m_ret.
  unfold DeleteTypesWhere. rewrite call_run_quiet by done.
  cbn [db_clock tables load ID]. unfold CreateTypes. rewrite call_run_quiet by done.
  cbn [db_clock tables slice_elems].
  rewrite (insert_types_bad_name _ _ (repoint (Z.to_N id) c)); [| by apply in_map | done].
  cbn [fst snd tables]. split; [done |]. split; [done |]. split; [done |].
  apply (Hnone (tables db)).
Qed.

(** X17: [GetAllSubscribers] reads only, and a 200 lists every stored
    subscriber exactly once, each with the rows of [subscriber_types]
    that reference it and no others. *)
Theorem GetAllSubscribers_lists_every_subscriber_once (db : DB) (l : list Subscriber) :
  fst (GetAllSubscribers db) = ok_json (JSubscribers l) ->
  tables (snd (GetAllSubscribers db)) = tables db
  /\ NoDup (map ID l)
  /\ (forall id, In id (map ID l) <-> is_Some (subscribers (tables db) !! id))
  /\ (forall s c,
        In s l ->
        In c (slice_elems (SubscriberTypes s))
        <-> exists row,
              subscriber_types (tables db) !! st_ID c = Some row
              /\ t_subscriber_id row = ID s /\ c = type_of_row (st_ID c) row).
Proof.
  unfold GetAllSubscribers, mbind, m_bind, mret, m_ret.
  destruct (call_inv (fun _ t =>
              Some (t, map (fun p => load t (fst p) (snd p)) (map_to_list (subscribers t))))
              db) as [_ Hc].
  fold FindPreload in Hc.
  destruct (FindPreload db) as [[found|] db1]; [| discriminate].
  cbn [fst snd] in *. intros Hr. inversion Hr; subst found. clear Hr.
  injection Hc as Ht Hl. split; [done |].
  assert (map ID l = map fst (map_to_list (subscribers (tables db)))) as Hids.
  { rewrite <- Hl, map_map. by apply map_ext. }
  split; [rewrite Hids; exact (NoDup_fst_map_to_list (subscribers (tables db))) |].
  split.
  - intros id. rewrite Hids, <- list_elem_of_In, list_elem_of_fmap. split.
    + intros ([k row] & -> & Hin). apply elem_of_map_to_list in Hin. by exists row.
    + intros [row Hrow]. exists (id, row). split; [done |].
      by apply elem_of_map_to_list.
  - intros s c Hs. rewrite <- Hl in Hs. apply in_map_iff in Hs as ([k row] & <- & _).
    cbn [load SubscriberTypes slice_elems ID fst snd]. split.
    + intros Hin. apply children_of_elem in Hin as (k' & row' & Hk & Hfk & ->).
      by exists row'.
    + intros (row' & Hk & Hfk & ->). by apply children_of_In.
Qed.

(** X18: [CreateSubscriber] answers 500 "Failed to load created
    subscriber with subscriber_types" only after the insert went through:
    the subscriber is then stored, under a key that was free, with the
    address and the name of the body. *)
Theorem CreateSubscriber_load_failure_keeps_subscriber (body : Subscriber) (db : DB) :
  fst (CreateSubscriber (Some body) db)
  = error_json StatusInternalServerError
      "Failed to load created subscriber with subscriber_types" ->
  let db' := snd (CreateSubscriber (Some body) db) in
  exists id,
    subscribers (tables db) !! id = None
    /\ subscribers (tables db')
       = <[id := mkSubscriberRow (Email body) (Name body)
                   (stamp (CreatedAt body) (db_clock db))
                   (stamp (UpdatedAt body) (db_clock db))]> (subscribers (tables db)).
Proof.
  unfold CreateSubscriber.
  destruct (validateSubscriberFields body) as [err|]; [discriminate |].
  unfold mbind, m_bind, mret, m_ret.
  pose proof (call_Some (fun now t => create_subscriber now t body) db) as Hcreate.
  fold (Create body) in Hcreate.
  destruct (Create body db) as [[c|] db1]; [| discriminate]. cbn [fst snd] in Hcreate.
  specialize (Hcreate c eq_refl).
  apply create_subscriber_row in Hcreate as (Hid & Hfree & Hrows).
  pose proof (FirstPreload_tables (Z.of_N (ID c)) db1) as Htab.
  destruct (FirstPreload (Z.of_N (ID c)) db1) as [[s'|] db2]; [discriminate |].
  cbn [fst snd] in *. intros _. exists (ID c). by rewrite Htab.
Qed.

(** An upsert keeps the name of every row that was there. *)
Lemma insert_type_keeps_name now t c t' c' k r :
  subscriber_types t !! k = Some r ->
  insert_type now true t c = Some (t', c') ->
  exists r', subscriber_types t' !! k = Some r' /\ t_name r' = t_name r.
Proof.
  unfold insert_type. intros Hk Hi.
  destruct (negb (enum_ok (st_Name c))); [discriminate |].
  destruct (negb (bool_decide (is_Some (subscribers t !! st_SubscriberID c))));
    [discriminate |].
  destruct (st_ID c =? 0)%N.
  - destruct (subscriber_types t !! subscriber_types_seq t) eqn:Hseq; [discriminate |].
    inversion Hi; subst. cbn [with_types subscriber_types].
    exists r. rewrite lookup_insert_ne by congruence. done.
  - destruct (subscriber_types t !! st_ID c) as [old|] eqn:Hold.
    + inversion Hi; subst. cbn [with_types subscriber_types].
      destruct (decide (st_ID c = k)) as [Heq|Hne].
      * rewrite Heq in *. rewrite lookup_insert_eq. eexists. split; [done |].
        cbn [t_name]. congruence.
      * exists r. by rewrite lookup_insert_ne.
    + inversion Hi; subst. cbn [with_types subscriber_types].
      exists r. rewrite lookup_insert_ne by congruence. done.
Qed.

Lemma insert_types_keeps_name now l : forall t t' l' k r,
  subscriber_types t !! k = Some r ->
  insert_types now true t l = Some (t', l') ->
  exists r', subscriber_types t' !! k = Some r' /\ t_name r' = t_name r.
Proof.
  induction l as [|c l IH]; intros t t' l' k r Hk Hi; cbn [insert_types] in Hi.
  - inversion Hi; subst. by exists r.
  - destruct (insert_type now true t c) as [[t1 c1]|] eqn:H1; [| discriminate].
    destruct (insert_types now true t1 l) as [[t2 l2]|] eqn:H2; [| discriminate].
    inversion Hi; subst.
    destruct (insert_type_keeps_name _ _ _ _ _ _ _ Hk H1) as (r1 & Hk1 & Hn1).
    destruct (IH _ _ _ _ _ Hk1 H2) as (r2 & Hk2 & Hn2).
    exists r2. split; [done | congruence].
Qed.

(** The children of a new subscriber are saved against its row. *)
Lemma create_subscriber_children now t s t' s' :
  create_subscriber now t s = Some (t', s') ->
  exists t1,
    subscriber_types t1 = subscriber_types t
    /\ save_associations now t1 (ID s') (SubscriberTypes s) = Some (t', SubscriberTypes s').
Proof.
  unfold create_subscriber.
  set (id := if (ID s =? 0)%N then subscribers_seq t else ID s).
  destruct (subscribers t !! id) eqn:Hfree; [discriminate |].
  destruct (save_associations _ _ _ _) as [[t2 children]|] eqn:Hsa; [| discriminate].
  intros Hc. inversion Hc; subst. cbn [ID SubscriberTypes]. eexists. split; [| exact Hsa].
  reflexivity.
Qed.

(** X19: the sign-up route, which no middleware guards but CORS, lets a
    new subscriber take over a type of another one.  When the body lists
    a type under the key of an existing row and the answer is 201, that
    row, which belonged to a subscriber stored before, now references the
    new subscriber; it keeps its old name, whatever name the body gave,
    and it is among the types of the answer. *)
Theorem signup_takes_over_type_rows (body : Subscriber) (db : DB)
    (l : list SubscriberType) (c : SubscriberType) (old : TypeRow) (s : Subscriber) :
  references_hold (tables db) ->
  SubscriberTypes body = Some l -> In c l -> st_ID c <> 0%N ->
  subscriber_types (tables db) !! st_ID c = Some old ->
  fst (Routes.RegisterSignupRoutes Next (Some body) db)
  = mkResponse StatusCreated (JSubscriber s) ->
  let db' := snd (Routes.RegisterSignupRoutes Next (Some body) db) in
  t_subscriber_id old <> ID s
  /\ exists row,
       subscriber_types (tables db') !! st_ID c = Some row
       /\ t_subscriber_id row = ID s /\ t_name row = t_name old
       /\ In (type_of_row (st_ID c) row) (slice_elems (SubscriberTypes s)).
Proof.
  intros Href Htypes Hin Hnz Hold. unfold Routes.RegisterSignupRoutes, CreateSubscriber.
  destruct (validateSubscriberFields body) as [err|]; [discriminate |].
  unfold mbind, m_bind, mret, m_ret.
  pose proof (call_Some (fun now t => create_subscriber now t body) db) as Hcreate.
  fold (Create body) in Hcreate.
  destruct (Create body db) as [[c0|] db1]; [| discriminate]. cbn [fst snd] in Hcreate.
  specialize (Hcreate c0 eq_refl).
  destruct (create_subscriber_row _ _ _ _ _ Hcreate) as (_ & Hfree & _).
  destruct (create_subscriber_children _ _ _ _ _ Hcreate) as (t1 & Ht1 & Hsa).
  rewrite Htypes in Hsa. unfold save_associations in Hsa.
  destruct (insert_types _ true t1 _) as [[t2 l2]|] eqn:Hins; [| discriminate].
  inversion Hsa as [[Ht2 Hl2]]. clear Hsa. subst t2.
  assert (present (ID c0) (tables db1) (st_ID c)) as (row & Hrow & Hfk).
  { apply (insert_types_adds _ _ _ _ _ _ (repoint (ID c0) c) (Forall_repoint _ _) Hins);
      [by apply in_map | done]. }
  rewrite <- Ht1 in Hold.
  destruct (insert_types_keeps_name _ _ _ _ _ _ _ Hold Hins) as (row' & Hrow' & Hname).
  cbn [repoint st_ID] in Hrow. rewrite Hrow in Hrow'. inversion Hrow'; subst row'.
  pose proof (FirstPreload_load (Z.of_N (ID c0)) db1) as Hload.
  pose proof (FirstPreload_tables (Z.of_N (ID c0)) db1) as Htab.
  destruct (FirstPreload (Z.of_N (ID c0)) db1) as [[s'|] db2]; [| discriminate].
  cbn [fst snd] in *. intros Hs. inversion Hs; subst s'. clear Hs.
  destruct (Hload s eq_refl) as (_ & srow & Hsrow & ->). rewrite N2Z.id in *.
  cbn [load ID SubscriberTypes slice_elems]. split.
  - intros Heq. rewrite Ht1 in Hold. destruct (Href _ _ Hold) as [parent Hparent].
    rewrite Heq in Hparent. congruence.
  - exists row. rewrite Htab. repeat split; try done. by apply children_of_In.
Qed.

(** *** The foreign key of [subscriber_types] *)

Lemma references_insert_type now upsert t c t' c' :
  references_hold t -> insert_type now upsert t c = Some (t', c') -> references_hold t'.
Proof.
  unfold insert_type, references_hold. intros Href Hi.
  destruct (negb (enum_ok (st_Name c))); [discriminate |].
  destruct (bool_decide (is_Some (subscribers t !! st_SubscriberID c))) eqn:Hparent;
    [| discriminate].
  apply bool_decide_eq_true in Hparent. cbn [negb] in Hi.
  assert (forall key new seq,
            t_subscriber_id new = st_SubscriberID c ->
            forall k row,
              subscriber_types (with_types t (<[key := new]> (subscriber_types t)) seq) !! k
              = Some row ->
              is_Some (subscribers (with_types t (<[key := new]> (subscriber_types t)) seq)
                       !! t_subscriber_id row)) as Hstep.
  { intros key new seq Hnew k row. cbn [with_types subscriber_types subscribers].
    destruct (decide (key = k)) as [->|Hne].
    - rewrite lookup_insert_eq. intros Hrow. inversion Hrow; subst. by rewrite Hnew.
    - rewrite lookup_insert_ne by done. apply Href. }
  destruct (st_ID c =? 0)%N.
  - destruct (subscriber_types t !! subscriber_types_seq t); [discriminate |].
    inversion Hi; subst. by apply Hstep.
  - destruct (subscriber_types t !! st_ID c) as [old|].
    + destruct upsert; [| discriminate]. inversion Hi; subst. by apply Hstep.
    + inversion Hi; subst. by apply Hstep.
Qed.

Lemma references_insert_types now upsert l : forall t t' l',
  references_hold t -> insert_types now upsert t l = Some (t', l') -> references_hold t'.
Proof.
  induction l as [|c l IH]; intros t t' l' Href Hi; cbn [insert_types] in Hi.
  - by inversion Hi; subst.
  - destruct (insert_type now upsert t c) as [[t1 c1]|] eqn:H1; [| discriminate].
    destruct (insert_types now upsert t1 l) as [[t2 l2]|] eqn:H2; [| discriminate].
    inversion Hi; subst. eapply IH; [| exact H2].
    by eapply references_insert_type.
Qed.

Lemma references_save_associations now t id children t' children' :
  references_hold t -> save_associations now t id children = Some (t', children') ->
  references_hold t'.
Proof.
  unfold save_associations. intros Href Hs. destruct children as [l|].
  - destruct (insert_types now true t (map (repoint id) l)) as [[t1 l1]|] eqn:Hi;
      [| discriminate].
    inversion Hs; subst. by eapply references_insert_types.
  - by inversion Hs; subst.
Qed.

Lemma references_put_subscriber t id row seq :
  references_hold t ->
  references_hold (with_subscribers t (<[id := row]> (subscribers t)) seq).
Proof.
  unfold references_hold. cbn [with_subscribers subscriber_types subscribers].
  intros Href k r Hk. apply lookup_insert_is_Some.
  destruct (decide (id = t_subscriber_id r)); [by left | right].
  split; [done | by eapply Href].
Qed.

Lemma references_create_subscriber now t s t' s' :
  references_hold t -> create_subscriber now t s = Some (t', s') -> references_hold t'.
Proof.
  unfold create_subscriber. intros Href.
  destruct (subscribers t !! _); [discriminate |].
  destruct (save_associations _ _ _ _) as [[t2 children]|] eqn:Hsa; [| discriminate].
  intros Hc. inversion Hc; subst.
  eapply references_save_associations; [| exact Hsa].
  by apply references_put_subscriber.
Qed.

Lemma references_save_subscriber now t s t' s' :
  references_hold t -> save_subscriber now t s = Some (t', s') -> references_hold t'.
Proof.
  unfold save_subscriber. intros Href.
  destruct (ID s =? 0)%N; [by apply references_create_subscriber |].
  destruct (subscribers t !! ID s).
  - destruct (save_associations _ _ _ _) as [[t2 children]|] eqn:Hsa; [| discriminate].
    intros Hc. inversion Hc; subst.
    eapply references_save_associations; [| exact Hsa].
    by apply references_put_subscriber.
  - destruct (SubscriberTypes s) as [[|c l]|]; try discriminate;
      by apply references_create_subscriber.
Qed.

Lemma references_delete_types_of t id :
  references_hold t -> references_hold (delete_types_of t id).
Proof.
  unfold references_hold, delete_types_of. cbn [with_types subscriber_types subscribers].
  intros Href k row Hk. apply map_lookup_filter_Some in Hk as [Hk _]. by eapply Href.
Qed.

Lemma references_delete_subscriber t id t' :
  references_hold t -> delete_subscriber t id = Some t' -> references_hold t'.
Proof.
  unfold delete_subscriber. intros Href.
  destruct (children_of t id) as [|c l] eqn:Hch; [| discriminate].
  intros Hd. inversion Hd; subst. unfold references_hold.
  cbn [with_subscribers subscriber_types subscribers]. intros k row Hk.
  rewrite lookup_delete_ne; [by eapply Href |].
  intros Heq. pose proof (children_of_In t id k row Hk (eq_sym Heq)) as Hin.
  rewrite Hch in Hin. destruct Hin.
Qed.

Lemma references_call {A : Type} (f : Z -> Tables -> option (Tables * A)) (db : DB) :
  references_hold (tables db) ->
  (forall t' a, f (db_clock db) (tables db) = Some (t', a) -> references_hold t') ->
  references_hold (tables (snd (call f db))).
Proof.
  intros Href Hf. destruct (call_inv f db) as [_ Hc].
  destruct (fst (call f db)) as [a|]; [by eapply Hf | by rewrite Hc].
Qed.

Lemma references_FirstPreload id db :
  references_hold (tables db) -> references_hold (tables (snd (FirstPreload id db))).
Proof. intros Href. by rewrite FirstPreload_tables. Qed.

Lemma references_DeleteTypesWhere id db :
  references_hold (tables db) -> references_hold (tables (snd (DeleteTypesWhere id db))).
Proof.
  intros Href. apply references_call; [done |]. intros t' a Ha. inversion Ha; subst.
  by apply references_delete_types_of.
Qed.

Lemma references_overwrite_types existing updates db :
  references_hold (tables db) ->
  references_hold (tables (snd (overwrite_types existing updates db))).
Proof.
  intros Href. unfold overwrite_types.
  destruct (negb (is_nil (SubscriberTypes updates))
            && (0 <? slice_len (SubscriberTypes updates))%nat).
  - unfold mbind, m_bind, mret, m_ret.
    pose proof (references_DeleteTypesWhere (ID existing) db Href) as H1.
    destruct (DeleteTypesWhere (ID existing) db) as [[[]|] db1]; cbn [snd] in *; [| done].
    match goal with |- context [CreateTypes ?l db1] =>
      assert (references_hold (tables (snd (CreateTypes l db1)))) as H2
        by (apply references_call; [done |]; intros t' a Ha;
            by eapply references_insert_types);
      destruct (CreateTypes l db1) as [[r|] db2] end; done.
  - destruct (negb (is_nil (SubscriberTypes updates))
              && (slice_len (SubscriberTypes updates) =? 0)%nat); [| done].
    unfold mbind, m_bind, mret, m_ret.
    pose proof (references_DeleteTypesWhere (ID existing) db Href) as H1.
    by destruct (DeleteTypesWhere (ID existing) db) as [[[]|] db1].
Qed.

(** X20: the five subscriber handlers keep the foreign key of
    [subscriber_types]: if every row of types references a stored
    subscriber before a request, so it does after it, whatever the
    request, its outcome and the failures of the connection. *)
Theorem handlers_keep_references (request : Routes.SubscriberCall) (db : DB) :
  references_hold (tables db) ->
  references_hold (tables (snd (Routes.RegisterSubscriberRoutes request db))).
Proof.
  intros Href. destruct request as [body| |idParam|idParam body|idParam];
    cbn [Routes.RegisterSubscriberRoutes].
  - unfold CreateSubscriber. destruct body as [subscriber|]; [| done].
    destruct (validateSubscriberFields subscriber); [done |].
    unfold mbind, m_bind, mret, m_ret.
    assert (references_hold (tables (snd (Create subscriber db)))) as H1
      by (apply references_call; [done |]; intros t' a Ha;
          by eapply references_create_subscriber).
    destruct (Create subscriber db) as [[c|] db1]; cbn [snd] in *; [| done].
    pose proof (references_FirstPreload (Z.of_N (ID c)) db1 H1) as H2.
    by destruct (FirstPreload (Z.of_N (ID c)) db1) as [[s|] db2].
  - unfold GetAllSubscribers, mbind, m_bind, mret, m_ret.
    assert (references_hold (tables (snd (FindPreload db)))) as H1
      by (apply references_call; [done |]; intros t' a Ha; by inversion Ha; subst).
    by destruct (FindPreload db) as [[l|] db1].
  - unfold GetSubscriber. destruct (GoStr.Atoi idParam) as [id|]; [| done].
    unfold mbind, m_bind, mret, m_ret.
    pose proof (references_FirstPreload id db Href) as H1.
    by destruct (FirstPreload id db) as [[s|] db1].
  - unfold UpdateSubscriber. destruct (GoStr.Atoi idParam) as [id|]; [| done].
    unfold mbind, m_bind, mret, m_ret.
    pose proof (references_FirstPreload id db Href) as H1.
    destruct (FirstPreload id db) as [[existing|] db1]; cbn [snd] in *; [| done].
    destruct body as [updates|]; [| done].
    destruct (validateSubscriberFields updates); [done |].
    match goal with |- context [overwrite_types ?e updates db1] =>
      pose proof (references_overwrite_types e updates db1 H1) as H2;
      destruct (overwrite_types e updates db1) as [[early|] db2];
      cbn [snd] in *; [done |];
      assert (references_hold (tables (snd (Save e db2)))) as H3
        by (apply references_call; [done |]; intros t' a Ha;
            by eapply references_save_subscriber);
      destruct (Save e db2) as [[saved|] db3]; cbn [snd] in *; [| done]
    end.
    pose proof (references_FirstPreload (Z.of_N (ID saved)) db3 H3) as H4.
    by destruct (FirstPreload (Z.of_N (ID saved)) db3) as [[s|] db4].
  - unfold DeleteSubscriber. destruct (GoStr.Atoi idParam) as [id|]; [| done].
    unfold mbind, m_bind, mret, m_ret.
    destruct (First_inv id db) as [Ht1 _].
    destruct (First id db) as [[subscriber|] db1]; cbn [snd] in *;
      [| by rewrite Ht1].
    rewrite <- Ht1 in Href.
    pose proof (references_DeleteTypesWhere (ID subscriber) db1 Href) as H2.
    destruct (DeleteTypesWhere (ID subscriber) db1) as [[[]|] db2]; cbn [snd] in *;
      [| done].
    assert (references_hold (tables (snd (Delete subscriber db2)))) as H3.
    { apply references_call; [done |]. intros t' a Ha.
      destruct (delete_subscriber (tables db2) (ID subscriber)) as [t3|] eqn:Hd;
        [| discriminate].
      inversion Ha; subst. by eapply references_delete_subscriber. }
    by destruct (Delete subscriber db2) as [[[]|] db3].
Qed.

(** X22: a failure of the first call to the store is reported as a
    missing subscriber.  When the connection fails on the lookup,
    [GetSubscriber], [UpdateSubscriber] and [DeleteSubscriber] all answer
    404 "Subscriber not found", whether or not the subscriber is stored,
    and change no table. *)
Theorem store_failure_reported_as_not_found (idParam : string) (id : Z)
    (body : option Subscriber) (db : DB) :
  GoStr.Atoi idParam = Some id ->
  head (db_faults db) = Some true ->
  let not_found := error_json StatusNotFound "Subscriber not found" in
  (fst (GetSubscriber idParam db) = not_found
   /\ tables (snd (GetSubscriber idParam db)) = tables db)
  /\ (fst (UpdateSubscriber idParam body db) = not_found
      /\ tables (snd (UpdateSubscriber idParam body db)) = tables db)
  /\ (fst (DeleteSubscriber idParam db) = not_found
      /\ tables (snd (DeleteSubscriber idParam db)) = tables db).
Proof.
  intros Hatoi Hfault not_found.
  unfold GetSubscriber, UpdateSubscriber, DeleteSubscriber. rewrite Hatoi.
  unfold mbind, m_bind, mret, m_ret, FirstPreload, First, call.
  destruct (db_faults db) as [|[|] rest]; try discriminate. done.
Qed.

End StoreFacts.

Section GuardFacts.
Import Eff Models Http Gorm Handlers Middleware Props Cover Routes.
Context `{Jwt.Lib}.

(** X21: without a live session nothing reaches the admin handlers.  When
    the store holds no live, non-empty value under any [session:] key,
    every request to the admin group is answered 401, whatever header it
    carries (a validly signed token included), and neither the tables nor
    the store change. *)
Theorem admin_routes_need_a_live_session (header : option string)
    (request : SubscriberCall) (w : World) (db : DB) :
  (forall k, fst (Redis.get (clock w) (redis w) ("session:" +:+ k)) = EmptyString) ->
  let answer := RegisterAdminRoutes Next header request (w, db) in
  status (fst answer) = StatusUnauthorized
  /\ snd (snd answer) = db
  /\ redis (fst (snd answer)) = redis w.
Proof.
  intros Hnone answer. unfold answer, RegisterAdminRoutes. cbn [fst snd].
  pose proof (RequireJWT_run header w) as Hrun.
  destruct (RequireJWT_world header w) as (Hredis & _).
  destruct (run (RequireJWT header) w) as [o w']. cbn [fst snd] in *.
  assert (exists msg, o = unauthorized msg) as [msg ->].
  { rewrite Hrun. cbv zeta.
    destruct (GoStr.eqb (default EmptyString header) ""); [by eexists |].
    destruct (negb (GoStr.HasPrefix (default EmptyString header) "Bearer "));
      [by eexists |].
    destruct (verify w _) as [claims|]; [| by eexists].
    destruct (Jwt.string_claim claims "session_key") as [k|]; [| by eexists].
    unfold redis_get. destruct (pop (redis_faults w)) as [[|] rest]; cbn [fst];
      [by eexists |].
    specialize (Hnone k).
    destruct (Redis.get (clock w) (redis w) ("session:" +:+ k)) as [v [e|]];
      [by eexists |].
    cbn [fst] in Hnone. subst v. by eexists. }
  done.
Qed.

End GuardFacts.

(* ===================================================================== *)
(** ** The further properties on concrete requests *)
(* ===================================================================== *)

Lemma fake_signs (c : gmap string Jwt.claim) (secret : string) :
  is_Some (Jwt.SignedString c secret).
Proof. by eexists. Qed.

Lemma RequestSignIn_code_verifies_until_expiry_witness :
  Eff.outbox (snd (Eff.run (Signin.RequestSignIn (Some (Signin.mkRequestBody "a@b.com")))
                     (Props.issued [])))
  = [("a@b.com"%string, "066051"%string)]
  /\ Http.status
       (fst (Eff.run (Signin.VerifySignIn (Some (Signin.mkVerifyBody "a@b.com" "066051")))
               (Props.later
                  (snd (Eff.run (Signin.RequestSignIn
                                   (Some (Signin.mkRequestBody "a@b.com")))
                          (Props.issued [])))
                  [] 2000 Props.sixteen_bytes []))) = Http.StatusOK.
Proof.
  destruct (RequestSignIn_code_verifies_until_expiry (H := FakeJwt.lib)
              (Props.issued []) "a@b.com"
              fake_signs ltac:(vm_compute; reflexivity)) as (Hout & _ & Hverify).
  split; [exact Hout |].
  apply (Hverify 2000 Props.sixteen_bytes []). vm_compute. reflexivity.
Defined.

Lemma RequestSignIn_failures_witness :
  fst (Eff.run (Signin.RequestSignIn (Some (Signin.mkRequestBody "a@b.com")))
         Cover.mail_down)
  = Http.error_json Http.StatusInternalServerError "Failed to send email"
  /\ Eff.redis (snd (Eff.run (Signin.RequestSignIn (Some (Signin.mkRequestBody "a@b.com")))
                       Cover.mail_down)) !! "signin_code:a@b.com"%string
     = Some (Redis.mkEntry "066051" (Some (1000 + 5 * GoTime.Minute))).
Proof.
  destruct (RequestSignIn_failures (H := FakeJwt.lib) Cover.mail_down "a@b.com"
              ltac:(discriminate))
    as [_ Hmail].
  destruct (Hmail ltac:(reflexivity) ltac:(reflexivity)) as (Hr & _ & Hk).
  split; [exact Hr | exact Hk].
Defined.

Lemma wrong_guesses_leave_code_usable_witness :
  Cover.attempts "a@b.com" ["000000"; "123456"; ""; "654322"]%string (Props.issued [])
  = Props.issued []
  /\ Http.status
       (fst (Eff.run (Signin.VerifySignIn Props.verify_request)
               (Cover.attempts "a@b.com" ["000000"; "123456"; ""; "654322"]%string
                  (Props.issued [])))) = Http.StatusOK.
Proof.
  destruct (wrong_guesses_leave_code_usable (H := FakeJwt.lib)
              (Props.issued []) "a@b.com" "654321"
              ["000000"; "123456"; ""; "654322"]%string
              ltac:(reflexivity) ltac:(vm_compute; reflexivity)
              ltac:(repeat constructor; discriminate)) as (Hsame & _ & Hok).
  split; [exact Hsame |].
  apply Hok; [discriminate | discriminate | exact fake_signs].
Defined.

Lemma sign_in_touches_only_its_own_keys_witness :
  Eff.redis (snd (Eff.run (Signin.RequestSignIn (Some (Signin.mkRequestBody "c@d.com")))
                    (Props.issued []))) !! "signin_code:a@b.com"%string
  = Some (Redis.mkEntry "654321" (Some (5 * GoTime.Minute))).
Proof.
  destruct (sign_in_touches_only_its_own_keys (H := FakeJwt.lib)
              (Props.issued []) "c@d.com"
              "signin_code:a@b.com" ltac:(discriminate)) as [_ Hrequest].
  rewrite Hrequest. vm_compute. reflexivity.
Defined.


Lemma randomToken_shape_witness :
  fst (Eff.run (Signin.randomToken 16) Cover.random_down)
  = "AAAAAAAAAAAAAAAAAAAAAA"%string.
Proof.
  destruct (randomToken_shape (H := FakeJwt.lib) Cover.random_down 16) as (_ & _ & Hzero).
  exact (Hzero eq_refl).
Defined.


Lemma two_types_references (faults : list bool) :
  Cover.references_hold (Gorm.tables (Cover.two_types_with faults)).
Proof.
  intros k row Hk. cbn in Hk.
  apply lookup_insert_Some in Hk as [[<- <-]|[_ Hk]]; [by eexists |].
  apply lookup_insert_Some in Hk as [[<- <-]|[_ Hk]]; [by eexists |].
  by rewrite lookup_empty in Hk.
Qed.

Lemma CreateSubscriber_then_GetSubscriber_witness :
  fst (Handlers.GetSubscriber "2"
         (snd (Handlers.CreateSubscriber (Some Cover.signup_body) (Cover.two_types_with []))))
  = Http.ok_json
      (Http.JSubscriber
         (Cover.subscriber_in
            (fst (Handlers.CreateSubscriber (Some Cover.signup_body)
                    (Cover.two_types_with []))))).
Proof.
  destruct (CreateSubscriber_then_GetSubscriber Cover.signup_body (Cover.two_types_with [])
              (Cover.subscriber_in
                 (fst (Handlers.CreateSubscriber (Some Cover.signup_body)
                         (Cover.two_types_with []))))
              "2" ltac:(vm_compute; reflexivity) ltac:(vm_compute; reflexivity)
              ltac:(vm_compute; discriminate)) as (_ & _ & _ & _ & _ & Hget).
  exact Hget.
Defined.

Lemma signup_takes_over_type_rows_witness :
  exists row,
    Gorm.subscriber_types
      (Gorm.tables (snd (Routes.RegisterSignupRoutes Http.Next (Some Cover.signup_body)
                           (Cover.two_types_with [])))) !! 10%N = Some row
    /\ Gorm.t_subscriber_id row = 2%N /\ Gorm.t_name row = "shopper"%string.
Proof.
  destruct (signup_takes_over_type_rows Cover.signup_body (Cover.two_types_with [])
              [Models.mkSubscriberType 10 0 "driver" 0 0]
              (Models.mkSubscriberType 10 0 "driver" 0 0)
              (Gorm.mkTypeRow 1 "shopper" 7 7)
              (Cover.subscriber_in
                 (fst (Routes.RegisterSignupRoutes Http.Next (Some Cover.signup_body)
                         (Cover.two_types_with []))))
              (two_types_references []) eq_refl ltac:(by left) ltac:(discriminate)
              ltac:(vm_compute; reflexivity) ltac:(vm_compute; reflexivity))
    as (_ & row & Hrow & Hfk & Hname & _).
  exists row. split; [exact Hrow |]. split; [| exact Hname].
  rewrite Hfk. vm_compute. reflexivity.
Defined.

Lemma DeleteSubscriber_removes_subscriber_and_types_witness :
  fst (Handlers.GetSubscriber "1"
         (snd (Handlers.DeleteSubscriber "1" (Cover.two_types_with []))))
  = Http.error_json Http.StatusNotFound "Subscriber not found".
Proof.
  destruct (DeleteSubscriber_removes_subscriber_and_types "1" (Cover.two_types_with [])
              ltac:(vm_compute; reflexivity)) as (id & Hid & _ & _ & Hget).
  apply Hget. rewrite <- Hid. reflexivity.
Defined.

Lemma DeleteSubscriber_not_atomic_witness :
  exists id,
    GoStr.Atoi "1" = Some id
    /\ is_Some (Gorm.subscribers
                  (Gorm.tables (snd (Handlers.DeleteSubscriber "1"
                                       (Cover.two_types_with [false; false; true]))))
                !! Z.to_N id)
    /\ Gorm.children_of
         (Gorm.tables (snd (Handlers.DeleteSubscriber "1"
                              (Cover.two_types_with [false; false; true]))))
         (Z.to_N id) = [].
Proof.
  destruct (DeleteSubscriber_not_atomic "1" (Cover.two_types_with [false; false; true])
              ltac:(vm_compute; reflexivity)) as (id & Hid & Hrow & _ & _ & Hnone).
  exists id. split; [exact Hid |]. split; [exact Hrow | exact Hnone].
Defined.

Lemma UpdateSubscriber_rewrites_email_and_name_witness :
  Models.Email
    (Cover.subscriber_in
       (fst (Handlers.UpdateSubscriber "1" (Props.update_body None) Props.two_types)))
  = "new@example.com"%string
  /\ Models.UpdatedAt
       (Cover.subscriber_in
          (fst (Handlers.UpdateSubscriber "1" (Props.update_body None) Props.two_types)))
     = 100.
Proof.
  destruct (UpdateSubscriber_rewrites_email_and_name "1"
              (Models.mkSubscriber 0 "new@example.com" "New" None 0 0) Props.two_types
              (Cover.subscriber_in
                 (fst (Handlers.UpdateSubscriber "1" (Props.update_body None)
                         Props.two_types)))
              ltac:(vm_compute; reflexivity) ltac:(vm_compute; reflexivity))
    as (id & old & _ & _ & _ & Hemail & _ & _ & Hupdated & _).
  split; [exact Hemail | exact Hupdated].
Defined.

Lemma UpdateSubscriber_unknown_type_loses_old_types_witness :
  fst (Handlers.UpdateSubscriber "1" (Some Cover.unknown_type_body) Props.two_types)
  = Http.error_json Http.StatusInternalServerError
      "Could not create updated subscriber_types"
  /\ Gorm.children_of
       (Gorm.tables (snd (Handlers.UpdateSubscriber "1" (Some Cover.unknown_type_body)
                            Props.two_types))) 1%N = [].
Proof.
  destruct (UpdateSubscriber_unknown_type_loses_old_types "1" Cover.unknown_type_body
              Props.two_types 1 (Gorm.mkSubscriberRow "old@example.com" "Old" 7 7)
              [Cover.unknown_type] Cover.unknown_type
              eq_refl ltac:(lia) ltac:(vm_compute; reflexivity)
              ltac:(vm_compute; reflexivity) eq_refl ltac:(by left) eq_refl eq_refl)
    as (Hr & _ & _ & Hnone).
  split; [exact Hr | exact Hnone].
Defined.

Lemma GetAllSubscribers_lists_every_subscriber_once_witness :
  NoDup
    (map Models.ID (Cover.subscribers_in (fst (Handlers.GetAllSubscribers Props.two_types))))
  /\ In 1%N
       (map Models.ID
          (Cover.subscribers_in (fst (Handlers.GetAllSubscribers Props.two_types)))).
Proof.
  destruct (GetAllSubscribers_lists_every_subscriber_once Props.two_types
              (Cover.subscribers_in (fst (Handlers.GetAllSubscribers Props.two_types)))
              ltac:(vm_compute; reflexivity)) as (_ & Hnd & Hin & _).
  split; [exact Hnd |]. apply Hin. vm_compute. by eexists.
Defined.

Lemma CreateSubscriber_load_failure_keeps_subscriber_witness :
  exists id,
    Gorm.subscribers (Gorm.tables Props.two_types) !! id = None
    /\ is_Some (Gorm.subscribers
                  (Gorm.tables
                     (snd (Handlers.CreateSubscriber (Some Cover.signup_body)
                             (Cover.two_types_with [false; true])))) !! id).
Proof.
  destruct (CreateSubscriber_load_failure_keeps_subscriber Cover.signup_body
              (Cover.two_types_with [false; true]) ltac:(vm_compute; reflexivity))
    as (id & Hfree & Hrows).
  exists id. split; [exact Hfree |]. rewrite Hrows, lookup_insert_eq. by eexists.
Defined.

Lemma handlers_keep_references_witness :
  Cover.references_hold
    (Gorm.tables
       (snd (Routes.RegisterSubscriberRoutes
               (Routes.PutSubscriber "1" (Props.update_body (Some [Props.driver])))
               (Cover.two_types_with [])))).
Proof.
  apply (handlers_keep_references
           (Routes.PutSubscriber "1" (Props.update_body (Some [Props.driver])))
           (Cover.two_types_with [])).
  apply two_types_references.
Defined.

Lemma admin_routes_need_a_live_session_witness :
  Http.status
    (fst (Routes.RegisterAdminRoutes Http.Next Props.orphan_header
            (Routes.DeleteSubscriberById "1") (Props.quiet, Props.two_types)))
  = Http.StatusUnauthorized
  /\ snd (snd (Routes.RegisterAdminRoutes Http.Next Props.orphan_header
                 (Routes.DeleteSubscriberById "1") (Props.quiet, Props.two_types)))
     = Props.two_types.
Proof.
  destruct (admin_routes_need_a_live_session (H := FakeJwt.lib) Props.orphan_header
              (Routes.DeleteSubscriberById "1") Props.quiet Props.two_types
              ltac:(intros k; reflexivity)) as (Hs & Hdb & _).
  split; [exact Hs | exact Hdb].
Defined.

Lemma store_failure_reported_as_not_found_witness :
  fst (Handlers.GetSubscriber "1" (Cover.two_types_with [true]))
  = Http.error_json Http.StatusNotFound "Subscriber not found"
  /\ fst (Handlers.DeleteSubscriber "1" (Cover.two_types_with [true]))
     = Http.error_json Http.StatusNotFound "Subscriber not found".
Proof.
  destruct (store_failure_reported_as_not_found "1" 1 None (Cover.two_types_with [true])
              eq_refl eq_refl) as ((Hget & _) & _ & (Hdel & _)).
  split; [exact Hget | exact Hdel].
Defined.
